(** * Investigacion_Operaciones: assignment and scheduling of technicians

    A shallow embedding of the two scripts of the repository,

      - [src/solve_assignment.py]   (stage a: min-max assignment, PuLP/CBC)
      - [src/solve_schedule_cp.py]  (stage b: sequencing, OR-Tools CP-SAT)

    and the properties of their models and outputs.

    Conventions of the embedding.

    - Identifiers of jobs and technicians are the text of the cell
      ([string]).  Durations and capacities, which pandas holds as binary
      floats, are exact rationals ([Q]); CP-SAT values are integers ([Z]).
    - A [DataFrame] is a header (the column labels) and typed rows; a cell
      is read through [getitem], which raises [KeyError] when the label is
      not in the header, as [row['label']] does.
    - The scripts print, call a solver and write files.  A run is a list of
      events (in program order) and an outcome: normal end, or the
      exception that stopped it.
    - The solvers are outside the repository.  A solver is a function from
      the model built by the script to a status and a value for every
      variable; what a "solved" answer guarantees is stated as a predicate
      on that answer ([lp_feasible], [cp_feasible]). *)

From Stdlib Require Import List String Ascii Bool ZArith QArith Qround Lia Lqa.
Import ListNotations.

Set Implicit Arguments.

Local Open Scope string_scope.
Local Open Scope list_scope.
Local Open Scope Z_scope.

(** ** Python runtime: exceptions, runs, dictionaries *)

Definition ident := string.

Inductive exception : Type :=
| FileNotFoundError (what : string)
| ValueError (df_name : string) (missing : list string)
| KeyError (key : string)
| IndexError
| SystemExit.

(** A run: the events emitted so far and either the exception that ended
    the run or the value computed. *)
Definition run (E A : Type) : Type := (list E * (exception + A))%type.

Definition ret {E A} (a : A) : run E A := ([], inr a).

Definition bind {E A B} (m : run E A) (f : A -> run E B) : run E B :=
  match m with
  | (tr, inl e) => (tr, inl e)
  | (tr, inr a) => let (tr', r) := f a in (tr ++ tr', r)
  end.

Definition emit {E} (e : E) : run E unit := ([e], inr tt).

Definition raise {E A} (e : exception) : run E A := ([], inl e).

Definition trace {E A} (m : run E A) : list E := fst m.

Definition outcome {E A} (m : run E A) : exception + A := snd m.

Declare Scope run_scope.
Delimit Scope run_scope with run.
Notation "x <- c1 ;; c2" := (bind c1 (fun x => c2))
  (at level 100, c1 at next level, right associativity) : run_scope.
Notation "c1 ;; c2" := (bind c1 (fun _ => c2))
  (at level 100, right associativity) : run_scope.
Local Open Scope run_scope.

(** [for a in l: body(a)], threading a loop state. *)
Fixpoint for_each {E A S} (l : list A) (body : S -> A -> run E S) (s : S)
  : run E S :=
  match l with
  | [] => ret s
  | a :: l' => s' <- body s a ;; for_each l' body s'
  end.

(** Python dictionaries keep insertion order; assigning to a key that is
    present replaces the value in place. *)
Section Dict.
Variables (K V : Type) (eqb : K -> K -> bool).

Definition dict := list (K * V).

Fixpoint dict_get (d : dict) (k : K) : option V :=
    match d with
    | [] => None
    | (k', v) :: d' => if eqb k' k then Some v else dict_get d' k
    end.

Fixpoint dict_set (d : dict) (k : K) (v : V) : dict :=
    match d with
    | [] => [(k, v)]
    | (k', v') :: d' =>
        if eqb k' k then (k, v) :: d' else (k', v') :: dict_set d' k v
    end.

Definition dict_mem (d : dict) (k : K) : bool :=
    match dict_get d k with Some _ => true | None => false end.

  (** [{key(r): val(r) for r in l}] and [Series.to_dict()]: later rows win. *)
Definition dict_of {R} (key : R -> K) (val : R -> V) (l : list R) : dict :=
    fold_left (fun d r => dict_set d (key r) (val r)) l [].

Definition dict_keys (d : dict) : list K := map fst d.
Definition dict_values (d : dict) : list V := map snd d.
End Dict.

Definition pair_eqb (a b : ident * ident) : bool :=
  (fst a =? fst b)%string && (snd a =? snd b)%string.

(** [str.strip()] on ASCII text. *)
Definition is_space (c : ascii) : bool :=
  match nat_of_ascii c with
  | 9%nat | 10%nat | 11%nat | 12%nat | 13%nat | 32%nat => true
  | _ => false
  end.

Fixpoint lstrip (s : string) : string :=
  match s with
  | String c s' => if is_space c then lstrip s' else s
  | EmptyString => EmptyString
  end.

Fixpoint rstrip (s : string) : string :=
  match s with
  | EmptyString => EmptyString
  | String c s' =>
      match rstrip s' with
      | EmptyString => if is_space c then EmptyString else String c EmptyString
      | r => String c r
      end
  end.

Definition strip (s : string) : string := lstrip (rstrip s).

(** [int(x)] on a number: truncation toward zero. *)
Definition py_int (q : Q) : Z := Z.quot (Qnum q) (Zpos (Qden q)).

(** ** Tables *)

Record DataFrame (R : Type) : Type := {
  columns : list string;
  rows : list R
}.

Definition has_column {R} (df : DataFrame R) (c : string) : bool :=
  existsb (String.eqb c) (columns df).

(** [row[c]] for a row of [df]: the field [f] when [c] is a column. *)
Definition getitem {E R A} (df : DataFrame R) (c : string) (f : R -> A) (r : R)
  : run E A :=
  if has_column df c then ret (f r) else raise (KeyError c).

(** [df.rename(columns=g)] *)
Definition rename {R} (g : string -> string) (df : DataFrame R) : DataFrame R :=
  {| columns := map g (columns df); rows := rows df |}.

Record job_row : Type := {
  id_job : ident;
  duracion_horas : Q;
  skill_requerida : string;
  deadline : Z;            (* parsed timestamp, microseconds *)
  descripcion : string
}.

Record tecnico_row : Type := {
  id_tecnico : ident;
  capacidad_diaria_h : Q;
  nombre : string
}.

Record habilidad_row : Type := {
  h_id_job : ident;
  h_id_tecnico : ident;
  compatible : Q
}.

(** [d[k]]: [KeyError] when the key is absent. *)
Definition subscript {E K V} (eqb : K -> K -> bool) (repr : K -> string)
    (d : dict K V) (k : K) : run E V :=
  match dict_get eqb d k with
  | Some v => ret v
  | None => raise (KeyError (repr k))
  end.

(** [[f(a) for a in l]] where [f] may raise. *)
Fixpoint map_run {E A B} (f : A -> run E B) (l : list A) : run E (list B) :=
  match l with
  | [] => ret []
  | a :: l' => b <- f a ;; bs <- map_run f l' ;; ret (b :: bs)
  end.

Definition repr_pair (k : ident * ident) : string :=
  "('" ++ fst k ++ "', '" ++ snd k ++ "')".

(** ** Stage (a): [solve_assignment.py] *)
Module Assignment.

  (** The three input files; [None] when [os.path.exists] is false. *)
Record archivos : Type := {
    jobs_csv : option (DataFrame job_row);
    tecnicos_csv : option (DataFrame tecnico_row);
    habilidades_csv : option (DataFrame habilidad_row)
  }.

  (** *** The PuLP model *)

Inductive LpVariable : Type :=
  | Var_x (j t : ident)        (* x[(j, t)], cat='Binary' *)
  | Var_L.                     (* L, lowBound=0, cat='Continuous' *)

Inductive category : Type := Binary | Continuous (lowBound : Q).

Record LpAffineExpression : Type := {
    terms : list (LpVariable * Q);
    constant : Q
  }.

Inductive sense : Type := LpConstraintLE | LpConstraintEQ.

Record LpConstraint : Type := {
    lhs : LpAffineExpression;
    rel : sense;
    rhs : LpAffineExpression
  }.

  (** The names given to the constraints: [f"Asignacion_Unica_{j}"], ... *)
Inductive cname : Type :=
  | Asignacion_Unica (j : ident)
  | Compatibilidad (j t : ident)
  | Balance_Carga (t : ident)
  | Capacidad (t : ident).

Record LpProblem : Type := {
    variables : list (LpVariable * category);
    objective : LpVariable;                      (* LpMinimize *)
    constraints : list (cname * LpConstraint)
  }.

Inductive LpStatus : Type :=
  | NotSolved | Optimal | Infeasible | Unbounded | Undefined.

  (** [pulp.LpStatus[prob.status]] *)
Definition LpStatus_name (st : LpStatus) : string :=
    match st with
    | NotSolved => "Not Solved"
    | Optimal => "Optimal"
    | Infeasible => "Infeasible"
    | Unbounded => "Unbounded"
    | Undefined => "Undefined"
    end.

Definition valuation := LpVariable -> Q.

Definition lpSum (ts : list (LpVariable * Q)) : LpAffineExpression :=
    {| terms := ts; constant := 0%Q |}.
Definition of_var (v : LpVariable) : LpAffineExpression :=
    {| terms := [(v, 1%Q)]; constant := 0%Q |}.
Definition of_num (q : Q) : LpAffineExpression :=
    {| terms := []; constant := q |}.

  (** [pulp.value(e)] *)
Definition value (v : valuation) (e : LpAffineExpression) : Q :=
    fold_right (fun t acc => (snd t * v (fst t) + acc)%Q) (constant e) (terms e).

Definition holds (v : valuation) (c : LpConstraint) : Prop :=
    match rel c with
    | LpConstraintLE => (value v (lhs c) <= value v (rhs c))%Q
    | LpConstraintEQ => (value v (lhs c) == value v (rhs c))%Q
    end.

Definition in_domain (v : valuation) (vc : LpVariable * category) : Prop :=
    match snd vc with
    | Binary => (v (fst vc) == 0 \/ v (fst vc) == 1)%Q
    | Continuous lb => (lb <= v (fst vc))%Q
    end.

  (** What a solver promises of the values it returns with a solution. *)
Definition lp_feasible (prob : LpProblem) (v : valuation) : Prop :=
    Forall (fun nc => holds v (snd nc)) (constraints prob) /\
    Forall (in_domain v) (variables prob).

Definition holdsb (v : valuation) (c : LpConstraint) : bool :=
    match rel c with
    | LpConstraintLE => Qle_bool (value v (lhs c)) (value v (rhs c))
    | LpConstraintEQ => Qeq_bool (value v (lhs c)) (value v (rhs c))
    end.

Definition in_domainb (v : valuation) (vc : LpVariable * category) : bool :=
    match snd vc with
    | Binary => Qeq_bool (v (fst vc)) 0 || Qeq_bool (v (fst vc)) 1
    | Continuous lb => Qle_bool lb (v (fst vc))
    end.

Definition lp_feasibleb (prob : LpProblem) (v : valuation) : bool :=
    forallb (fun nc => holdsb v (snd nc)) (constraints prob) &&
    forallb (in_domainb v) (variables prob).

Definition solver_t := LpProblem -> LpStatus * valuation.

  (** *** Outputs *)

  (** A row of [resultados] (lines 129-134). *)
Record resultado : Type := {
    job_id : ident;
    tecnico_id : ident;
    r_duracion_horas : Q;
    r_skill_requerida : string
  }.

  (** A row of [resultados_df] after the left merge with [tecnicos]:
      [right] is the matching row of [tecnicos], [None] (NaN cells) when
      there is none. *)
Record asignacion_row : Type := {
    left : resultado;
    right : option tecnico_row
  }.

Inductive message : Type :=
  | MsgInicio                                   (* lines 7-8 *)
  | MsgDatosCargados                            (* line 54 *)
  | MsgPreparando                               (* line 59 *)
  | MsgCreando                                  (* line 73 *)
  | MsgResolviendo                              (* line 107 *)
  | MsgResultados                               (* line 114 *)
  | MsgStatus (name : string)                   (* line 115 *)
  | MsgCargaMaxima (l : Q)                      (* lines 116, 166 *)
  | MsgResumen (asignados tecnicos : nat)       (* lines 163-165 *)
  | MsgUtilizacion (t : ident) (carga capacidad utilizacion : Q) (* 172 *)
  | MsgCompletado.                              (* lines 188-189 *)

Inductive event : Type :=
  | Print (m : message)
  | Solve (prob : LpProblem)                    (* prob.solve(solver) *)
  | MakeDirs                                    (* os.makedirs(results) *)
  | ToCsv_assignment (df : DataFrame asignacion_row)
  | ToCsv_cargas (df : list (ident * Q))
  | WriteLog (status : string) (objetivo : Q) (asignados : nat).

Definition M := run event.

  (** *** The script *)

  (** Lines 22-30: every file must exist, then it is read. *)
Definition read_csv {R} (name : string) (f : option (DataFrame R))
    : M (DataFrame R) :=
    match f with
    | Some df => ret df
    | None => raise (FileNotFoundError name)
    end.

  (** Lines 49-52: [missing = set(cols) - set(df.columns)]. *)
Definition validar {R} (df_name : string) (cols : list string)
      (df : DataFrame R) : M unit :=
    match filter (fun c => negb (has_column df c)) cols with
    | [] => ret tt
    | missing => raise (ValueError df_name missing)
    end.

Definition normalizar_tecnico (c : string) : string :=
    if (c =? "Id_tecnico")%string then "id_tecnico" else c.

Definition p_of (jobs : DataFrame job_row) : dict ident Q :=
    dict_of String.eqb id_job duracion_horas (rows jobs).

  (** [H]: daily capacity times the 7 days of the horizon (line 66). *)
Definition H_of (tecnicos : DataFrame tecnico_row) : dict ident Q :=
    dict_of String.eqb id_tecnico (fun r => (capacidad_diaria_h r * 7)%Q)
            (rows tecnicos).

Definition q_of (habilidades : DataFrame habilidad_row)
    : dict (ident * ident) Q :=
    dict_of pair_eqb (fun r => (h_id_job r, h_id_tecnico r)) compatible
            (rows habilidades).

  (** [pulp.LpVariable.dicts("x", [(j, t) for j in J for t in T], ...)] *)
Definition x_of (J T : list ident) : dict (ident * ident) LpVariable :=
    dict_of pair_eqb (fun k => k) (fun k => Var_x (fst k) (snd k))
            (list_prod J T).

Definition item_x := @subscript event _ LpVariable pair_eqb repr_pair.
Definition item := @subscript event _ Q String.eqb (fun k => k).

  (** Lines 75-102. *)
Definition modelo (J T : list ident) (p H : dict ident Q)
      (q : dict (ident * ident) Q) : M LpProblem :=
    let x := x_of J T in
    c1 <- map_run (fun j =>
            ts <- map_run (fun t => xv <- item_x x (j, t) ;; ret (xv, 1%Q)) T ;;
            ret (Asignacion_Unica j,
                 {| lhs := lpSum ts; rel := LpConstraintEQ;
                    rhs := of_num 1 |})) J ;;
    c2 <- map_run (fun kv =>
            xv <- item_x x (fst kv) ;;
            ret (Compatibilidad (fst (fst kv)) (snd (fst kv)),
                 {| lhs := of_var xv; rel := LpConstraintLE;
                    rhs := of_num (snd kv) |})) q ;;
    c3 <- map_run (fun t =>
            ts <- map_run (fun j => pj <- item p j ;;
                                    xv <- item_x x (j, t) ;;
                                    ret (xv, pj)) J ;;
            ret (Balance_Carga t,
                 {| lhs := lpSum ts; rel := LpConstraintLE;
                    rhs := of_var Var_L |})) T ;;
    c4 <- map_run (fun t =>
            ts <- map_run (fun j => pj <- item p j ;;
                                    xv <- item_x x (j, t) ;;
                                    ret (xv, pj)) J ;;
            ht <- item H t ;;
            ret (Capacidad t,
                 {| lhs := lpSum ts; rel := LpConstraintLE;
                    rhs := of_num ht |})) T ;;
    ret {| variables := map (fun kv => (snd kv, Binary)) x
                        ++ [(Var_L, Continuous 0)];
           objective := Var_L;
           constraints := c1 ++ c2 ++ c3 ++ c4 |}.

  (** [jobs.loc[jobs['id_job'] == j, 'skill_requerida'].values[0]] *)
Definition skill_of (jobs : DataFrame job_row) (j : ident) : M string :=
    match filter (fun r => (id_job r =? j)%string) (rows jobs) with
    | r :: _ => ret (skill_requerida r)
    | [] => raise IndexError
    end.

  (** Lines 126-135: the inner loop, for technician [t]. *)
Definition filas_de (jobs : DataFrame job_row) (p : dict ident Q)
      (x : dict (ident * ident) LpVariable) (v : valuation) (t : ident)
      (acc : list resultado * Q) (j : ident) : M (list resultado * Q) :=
    xv <- item_x x (j, t) ;;
    if Qeq_bool (v xv) 1 then
      skill <- skill_of jobs j ;;
      pj <- item p j ;;
      pj' <- item p j ;;
      ret (fst acc ++ [{| job_id := j; tecnico_id := t;
                          r_duracion_horas := pj;
                          r_skill_requerida := skill |}],
           (snd acc + pj')%Q)
    else ret acc.

  (** Lines 121-136. *)
Definition recolectar (jobs : DataFrame job_row) (J T : list ident)
      (p : dict ident Q) (x : dict (ident * ident) LpVariable) (v : valuation)
    : M (list resultado * dict ident Q) :=
    for_each T (fun st t =>
      r <- for_each J (filas_de jobs p x v t) (fst st, 0%Q) ;;
      ret (fst r, dict_set String.eqb (snd st) t (snd r))) ([], []).

Definition tecnicos_cols (tecnicos : DataFrame tecnico_row) : list string :=
    if has_column tecnicos "nombre"
    then ["id_tecnico"; "nombre"; "capacidad_diaria_h"]
    else ["id_tecnico"; "capacidad_diaria_h"].

  (** Lines 138-147: [pd.DataFrame(resultados)] has no columns when the
      list is empty, and the merge on ['tecnico_id'] then raises. *)
Definition merge (resultados : list resultado)
      (tecnicos : DataFrame tecnico_row) : M (DataFrame asignacion_row) :=
    match resultados with
    | [] => raise (KeyError "tecnico_id")
    | _ =>
        ret {| columns := ["job_id"; "tecnico_id"; "duracion_horas";
                           "skill_requerida"] ++ tecnicos_cols tecnicos;
               rows := flat_map (fun r =>
                 match filter (fun tr => (id_tecnico tr =? tecnico_id r)%string)
                              (rows tecnicos) with
                 | [] => [{| left := r; right := None |}]
                 | ms => map (fun m => {| left := r; right := Some m |}) ms
                 end) resultados |}
    end.

Definition dict_get_default (d : dict ident Q) (k : ident) : Q :=
    match dict_get String.eqb d k with Some c => c | None => 0%Q end.

  (** Lines 168-172. *)
Definition resumen_tecnico (cargas H : dict ident Q) (t : ident) : M unit :=
    let carga := dict_get_default cargas t in
    let capacidad := dict_get_default H t in
    let utilizacion :=
      if negb (Qle_bool capacidad 0) then (carga / capacidad * 100)%Q else 0%Q in
    emit (Print (MsgUtilizacion t carga capacidad utilizacion)).

Definition main (fs : archivos) (solver : solver_t) : M unit :=
    emit (Print MsgInicio) ;;
    jobs <- read_csv "jobs" (jobs_csv fs) ;;
    tecnicos <- read_csv "tecnicos" (tecnicos_csv fs) ;;
    habilidades <- read_csv "habilidades" (habilidades_csv fs) ;;
    let tecnicos := rename normalizar_tecnico (rename strip tecnicos) in
    let jobs := rename strip jobs in
    let habilidades := rename strip habilidades in
    validar "jobs" ["id_job"; "duracion_horas"; "skill_requerida"] jobs ;;
    validar "tecnicos" ["id_tecnico"; "capacidad_diaria_h"] tecnicos ;;
    validar "habilidades" ["id_job"; "id_tecnico"; "compatible"] habilidades ;;
    emit (Print MsgDatosCargados) ;;
    emit (Print MsgPreparando) ;;
    let J := map id_job (rows jobs) in
    let T := map id_tecnico (rows tecnicos) in
    let p := p_of jobs in
    let H := H_of tecnicos in
    let q := q_of habilidades in
    emit (Print MsgCreando) ;;
    prob <- modelo J T p H q ;;
    emit (Print MsgResolviendo) ;;
    emit (Solve prob) ;;
    let (status, v) := solver prob in
    emit (Print MsgResultados) ;;
    emit (Print (MsgStatus (LpStatus_name status))) ;;
    emit (Print (MsgCargaMaxima (v Var_L))) ;;
    rc <- recolectar jobs J T p (x_of J T) v ;;
    let (resultados, cargas_tecnicos) := rc in
    resultados_df <- merge resultados tecnicos ;;
    emit MakeDirs ;;
    emit (ToCsv_assignment resultados_df) ;;
    let cargas_df := cargas_tecnicos in
    emit (ToCsv_cargas cargas_df) ;;
    emit (Print (MsgResumen (List.length (rows resultados_df))
                            (List.length cargas_df))) ;;
    emit (Print (MsgCargaMaxima (v Var_L))) ;;
    for_each T (fun _ t => resumen_tecnico cargas_tecnicos H t) tt ;;
    emit (WriteLog (LpStatus_name status) (v Var_L)
                   (List.length (rows resultados_df))) ;;
    emit (Print MsgCompletado).

End Assignment.

(** ** Stage (b): [solve_schedule_cp.py] *)
Module Schedule.

  (** A row of the assignment artifact, read back from
      [results/assignment_results.csv]: the text of the cell under each
      column label. *)
Definition series := string -> ident.

Record archivos : Type := {
    jobs_csv : option (DataFrame job_row);
    tecnicos_csv : option (DataFrame tecnico_row);
    asignaciones_csv : option (DataFrame series)
  }.

Definition DIAS_HORIZONTE : Z := 7.
Definition HORAS_POR_DIA : Z := 8.
Definition HORIZONTE_MINUTOS : Z := DIAS_HORIZONTE * HORAS_POR_DIA * 60.

  (** *** The CP-SAT model *)

  (** An integer variable is its index in the model, in creation order. *)
Definition IntVar := nat.

Record IntervalVar : Type := {
    iv_start : IntVar;
    iv_size : Z;
    iv_end : IntVar
  }.

Inductive Constraint : Type :=
  | Interval (i : IntervalVar)         (* NewIntervalVar: start + size == end *)
  | NoOverlap (l : list IntervalVar)   (* AddNoOverlap *)
  | LinearLe (x : IntVar) (c : Z)      (* Add(x <= c) *)
  | MaxEquality (target : IntVar) (l : list IntVar).

Record CpModel : Type := {
    domains : list (Z * Z);            (* NewIntVar(lo, hi, _), by index *)
    cp_constraints : list Constraint;
    minimize : option IntVar
  }.

Definition empty_model : CpModel :=
    {| domains := []; cp_constraints := []; minimize := None |}.

Definition NewIntVar (m : CpModel) (lo hi : Z) : CpModel * IntVar :=
    ({| domains := domains m ++ [(lo, hi)];
        cp_constraints := cp_constraints m;
        minimize := minimize m |}, List.length (domains m)).

Definition Add (m : CpModel) (c : Constraint) : CpModel :=
    {| domains := domains m;
       cp_constraints := cp_constraints m ++ [c];
       minimize := minimize m |}.

Definition NewIntervalVar (m : CpModel) (s : IntVar) (size : Z) (e : IntVar)
    : CpModel * IntervalVar :=
    let i := {| iv_start := s; iv_size := size; iv_end := e |} in
    (Add m (Interval i), i).

Definition Minimize (m : CpModel) (x : IntVar) : CpModel :=
    {| domains := domains m;
       cp_constraints := cp_constraints m;
       minimize := Some x |}.

Inductive CpSolverStatus : Type :=
  | UNKNOWN | MODEL_INVALID | FEASIBLE | INFEASIBLE | OPTIMAL.

Definition valuation := IntVar -> Z.

Definition disjoint (v : valuation) (a b : IntervalVar) : Prop :=
    v (iv_end a) <= v (iv_start b) \/ v (iv_end b) <= v (iv_start a).

  (** The intervals of the list, taken two by two, do not overlap. *)
Fixpoint no_overlap (v : valuation) (l : list IntervalVar) : Prop :=
    match l with
    | [] => True
    | a :: l' => Forall (disjoint v a) l' /\ no_overlap v l'
    end.

Definition cp_holds (v : valuation) (c : Constraint) : Prop :=
    match c with
    | Interval i => v (iv_start i) + iv_size i = v (iv_end i)
    | NoOverlap l => no_overlap v l
    | LinearLe x c => v x <= c
    | MaxEquality t l =>
        Forall (fun x => v x <= v t) l /\ (l = [] \/ Exists (fun x => v x = v t) l)
    end.

Definition in_domains (v : valuation) (m : CpModel) : Prop :=
    forall x lo hi, nth_error (domains m) x = Some (lo, hi) -> lo <= v x <= hi.

  (** What the solver promises of the values returned with [OPTIMAL] or
      [FEASIBLE]. *)
Definition cp_feasible (m : CpModel) (v : valuation) : Prop :=
    in_domains v m /\ Forall (cp_holds v) (cp_constraints m).

Definition disjointb (v : valuation) (a b : IntervalVar) : bool :=
    (v (iv_end a) <=? v (iv_start b)) || (v (iv_end b) <=? v (iv_start a)).

Fixpoint no_overlapb (v : valuation) (l : list IntervalVar) : bool :=
    match l with
    | [] => true
    | a :: l' => forallb (disjointb v a) l' && no_overlapb v l'
    end.

Definition cp_holdsb (v : valuation) (c : Constraint) : bool :=
    match c with
    | Interval i => v (iv_start i) + iv_size i =? v (iv_end i)
    | NoOverlap l => no_overlapb v l
    | LinearLe x c => v x <=? c
    | MaxEquality t l =>
        forallb (fun x => v x <=? v t) l &&
        (match l with [] => true | _ => existsb (fun x => v x =? v t) l end)
    end.

Fixpoint in_domainsb (v : valuation) (ds : list (Z * Z)) (x : nat) : bool :=
    match ds with
    | [] => true
    | (lo, hi) :: ds' =>
        (lo <=? v x) && (v x <=? hi) && in_domainsb v ds' (S x)
    end.

Definition cp_feasibleb (m : CpModel) (v : valuation) : bool :=
    in_domainsb v (domains m) 0 && forallb (cp_holdsb v) (cp_constraints m).

Definition solver_t := CpModel -> CpSolverStatus * valuation.

  (** *** Outputs *)

  (** A row of [schedule_data] (lines 179-188); the two times of day are
      kept as (hour, minute) before they are printed as [HH:MM]. *)
Record schedule_row : Type := {
    s_job_id : ident;
    s_descripcion : string;
    s_tecnico_id : ident;
    dia : Z;
    hora_inicio : Z * Z;
    s_duracion_horas : Q;
    hora_fin : Z * Z;
    s_skill_requerida : string
  }.

Inductive message : Type :=
  | MsgInicio                                   (* lines 8-9 *)
  | MsgCargando                                 (* line 15 *)
  | MsgCargados (jobs tecnicos asignaciones : nat)  (* lines 27-29 *)
  | MsgErrorArchivo (what : string)             (* lines 32-33 *)
  | MsgHorizonte                                (* line 37 *)
  | MsgCreando                                  (* line 46 *)
  | MsgVariables (jobs : nat)                   (* lines 50, 55 *)
  | MsgCreandoVariables (job_id : ident) (duracion : Z)  (* lines 64-65 *)
  | MsgIntervalos (creados jobs : nat)          (* line 80 *)
  | MsgRestricciones (cols : list string)       (* lines 83, 86 *)
  | MsgUsando (columna_tecnico columna_job : string)    (* lines 92-93 *)
  | MsgJobNoEncontrado (job_id : ident)         (* line 111 *)
  | MsgProcesados (procesados omitidos : nat)   (* lines 114-115 *)
  | MsgTecnico (tecnico_id : ident) (trabajos : nat)    (* line 121 *)
  | MsgTiempo                                   (* line 124 *)
  | MsgObjetivo                                 (* line 138 *)
  | MsgResolviendo                              (* line 144 *)
  | MsgProcesando                               (* line 151 *)
  | MsgSolucion                                 (* line 153 *)
  | MsgGuardando                                (* line 191 *)
  | MsgHorarioGuardado                          (* line 197 *)
  | MsgResumen (planificados : nat)             (* lines 200-201 *)
  | MsgDias (dias : Z)                          (* line 202 *)
  | MsgTecnicos (tecnicos : nat)                (* line 203 *)
  | MsgVistaPrevia (filas : list schedule_row)  (* lines 205-206 *)
  | MsgNoSolucion                               (* line 209 *)
  | MsgCompletado.                              (* line 211 *)

Inductive event : Type :=
  | Print (m : message)
  | Solve (model : CpModel)                     (* solver.Solve(model) *)
  | ToCsv_schedule (df : list schedule_row).

Definition M := run event.

  (** *** The script *)

Record estado : Type := {
    model : CpModel;
    start_vars : dict ident IntVar;
    end_vars : dict ident IntVar;
    interval_vars : dict ident IntervalVar
  }.

Definition estado_inicial : estado :=
    {| model := empty_model; start_vars := []; end_vars := [];
       interval_vars := [] |}.

Definition read_csv {R} (name : string) (f : option (DataFrame R))
    : M (DataFrame R) :=
    match f with
    | Some df => ret df
    | None => raise (FileNotFoundError name)
    end.

  (** [try: body except FileNotFoundError as e: handler(e)] *)
Definition try_except_FileNotFoundError {A} (body : M A)
      (handler : string -> M A) : M A :=
    match body with
    | (tr, inl (FileNotFoundError what)) =>
        let (tr', r) := handler what in (tr ++ tr', r)
    | _ => body
    end.

  (** Lines 16-34. *)
Definition cargar (fs : archivos)
    : M (DataFrame job_row * DataFrame tecnico_row * DataFrame series) :=
    try_except_FileNotFoundError
      (jobs <- read_csv "jobs_clean.csv" (jobs_csv fs) ;;
       tecnicos <- read_csv "tecnicos_clean.csv" (tecnicos_csv fs) ;;
       asignaciones <- read_csv "assignment_results.csv" (asignaciones_csv fs) ;;
       emit (Print (MsgCargados (List.length (rows jobs))
                                (List.length (rows tecnicos))
                                (List.length (rows asignaciones)))) ;;
       ret (jobs, tecnicos, asignaciones))
      (fun what => emit (Print (MsgErrorArchivo what)) ;; raise SystemExit).

  (** Line 43: [jobs['duracion_minutos'] = jobs['duracion_horas'] * 60]. *)
Definition duracion_minutos (r : job_row) : Q := (duracion_horas r * 60)%Q.

  (** Lines 58-77, for the row at position [index]. *)
Definition crear_variables (jobs : DataFrame job_row) (st : estado)
      (ir : nat * job_row) : M estado :=
    let (index, row) := ir in
    job_id <- getitem jobs "id_job" id_job row ;;
    let duracion := py_int (duracion_minutos row) in
    (if (index <? 5)%nat
     then emit (Print (MsgCreandoVariables job_id duracion))
     else ret tt) ;;
    let (m1, s) := NewIntVar (model st) 0 HORIZONTE_MINUTOS in
    let (m2, e) := NewIntVar m1 0 HORIZONTE_MINUTOS in
    let (m3, i) := NewIntervalVar m2 s duracion e in
    ret {| model := m3;
           start_vars := dict_set String.eqb (start_vars st) job_id s;
           end_vars := dict_set String.eqb (end_vars st) job_id e;
           interval_vars := dict_set String.eqb (interval_vars st) job_id i |}.

Definition iterrows {R} (df : DataFrame R) : list (nat * R) :=
    combine (seq 0 (List.length (rows df))) (rows df).

Definition columna_tecnico_de (asignaciones : DataFrame series) : string :=
    if has_column asignaciones "Id_tecnico" then "Id_tecnico" else "id_tecnico".

Definition columna_job_de (asignaciones : DataFrame series) : string :=
    if has_column asignaciones "job_id" then "job_id" else "id_job".

Record agrupacion : Type := {
    jobs_por_tecnico : dict ident (list IntervalVar);
    jobs_procesados : nat;
    jobs_omitidos : nat
  }.

  (** Lines 100-112. *)
Definition agrupar (asignaciones : DataFrame series)
      (interval_vars : dict ident IntervalVar) (g : agrupacion)
      (asignacion : series) : M agrupacion :=
    let columna_tecnico := columna_tecnico_de asignaciones in
    let columna_job := columna_job_de asignaciones in
    tecnico_id <- getitem asignaciones columna_tecnico
                    (fun r : series => r columna_tecnico) asignacion ;;
    job_id <- getitem asignaciones columna_job
                (fun r : series => r columna_job) asignacion ;;
    match dict_get String.eqb interval_vars job_id with
    | Some iv =>
        let previos :=
          match dict_get String.eqb (jobs_por_tecnico g) tecnico_id with
          | Some l => l
          | None => []
          end in
        ret {| jobs_por_tecnico :=
                 dict_set String.eqb (jobs_por_tecnico g) tecnico_id
                          (previos ++ [iv]);
               jobs_procesados := S (jobs_procesados g);
               jobs_omitidos := jobs_omitidos g |}
    | None =>
        emit (Print (MsgJobNoEncontrado job_id)) ;;
        ret {| jobs_por_tecnico := jobs_por_tecnico g;
               jobs_procesados := jobs_procesados g;
               jobs_omitidos := S (jobs_omitidos g) |}
    end.

  (** Lines 118-121. *)
Definition sin_solape (m : CpModel) (ti : ident * list IntervalVar)
    : M CpModel :=
    match snd ti with
    | [] => ret m
    | intervals =>
        emit (Print (MsgTecnico (fst ti) (List.length intervals))) ;;
        ret (Add m (NoOverlap intervals))
    end.

Definition MICROSEGUNDOS_POR_DIA : Z := 86400000000.

  (** [(deadline - datetime.now()).days] *)
Definition dias_restantes (deadline now : Z) : Z :=
    (deadline - now) / MICROSEGUNDOS_POR_DIA.

Definition item := @subscript event _ IntVar String.eqb (fun k => k).

  (** Lines 127-135, for the row at position [k]; [ahora k] is what
      [datetime.now()] returns in that iteration. *)
Definition limitar_inicio (jobs : DataFrame job_row) (ahora : nat -> Z)
      (start_vars : dict ident IntVar) (m : CpModel) (kr : nat * job_row)
    : M CpModel :=
    let (k, job) := kr in
    job_id <- getitem jobs "id_job" id_job job ;;
    dl <- getitem jobs "deadline" deadline job ;;
    let dias := dias_restantes dl (ahora k) in
    if 0 <=? dias then
      let max_start := Z.min (dias * HORAS_POR_DIA * 60) HORIZONTE_MINUTOS in
      s <- item start_vars job_id ;;
      ret (Add m (LinearLe s max_start))
    else ret m.

  (** Lines 36-141: the model handed to the solver. *)
Definition construir (jobs : DataFrame job_row)
      (asignaciones : DataFrame series) (ahora : nat -> Z)
    : M (estado * agrupacion) :=
    emit (Print MsgHorizonte) ;;
    (if has_column jobs "duracion_horas" then ret tt
     else raise (KeyError "duracion_horas")) ;;
    emit (Print MsgCreando) ;;
    emit (Print (MsgVariables (List.length (rows jobs)))) ;;
    st <- for_each (iterrows jobs) (crear_variables jobs) estado_inicial ;;
    emit (Print (MsgIntervalos (List.length (interval_vars st))
                               (List.length (rows jobs)))) ;;
    emit (Print (MsgRestricciones (columns asignaciones))) ;;
    emit (Print (MsgUsando (columna_tecnico_de asignaciones)
                           (columna_job_de asignaciones))) ;;
    g <- for_each (rows asignaciones) (agrupar asignaciones (interval_vars st))
           {| jobs_por_tecnico := []; jobs_procesados := 0;
              jobs_omitidos := 0 |} ;;
    emit (Print (MsgProcesados (jobs_procesados g) (jobs_omitidos g))) ;;
    m <- for_each (jobs_por_tecnico g) sin_solape (model st) ;;
    emit (Print MsgTiempo) ;;
    m <- for_each (iterrows jobs) (limitar_inicio jobs ahora (start_vars st)) m ;;
    emit (Print MsgObjetivo) ;;
    let (m, makespan) := NewIntVar m 0 HORIZONTE_MINUTOS in
    let m := Add m (MaxEquality makespan (dict_values (end_vars st))) in
    let m := Minimize m makespan in
    ret ({| model := m; start_vars := start_vars st; end_vars := end_vars st;
            interval_vars := interval_vars st |}, g).

Definition MINUTOS_POR_DIA : Z := HORAS_POR_DIA * 60.

  (** Lines 158-188, for one row of [jobs]. *)
Definition fila_horario (jobs : DataFrame job_row)
      (asignaciones : DataFrame series) (st : estado) (v : valuation)
      (schedule_data : list schedule_row) (job : job_row)
    : M (list schedule_row) :=
    let columna_tecnico := columna_tecnico_de asignaciones in
    let columna_job := columna_job_de asignaciones in
    job_id <- getitem jobs "id_job" id_job job ;;
    if negb (dict_mem String.eqb (start_vars st) job_id) then ret schedule_data
    else
      s <- item (start_vars st) job_id ;;
      e <- item (end_vars st) job_id ;;
      let start_minutos := v s in
      let end_minutos := v e in
      let dia := start_minutos / MINUTOS_POR_DIA + 1 in
      let hora_inicio := (start_minutos mod MINUTOS_POR_DIA) / 60 in
      let minuto_inicio := start_minutos mod 60 in
      let duracion := (duracion_minutos job / 60)%Q in
      (if has_column asignaciones columna_job then ret tt
       else raise (KeyError columna_job)) ;;
      let tech_asignado :=
        filter (fun a : series => (a columna_job =? job_id)%string)
               (rows asignaciones) in
      tecnico_id <- match tech_asignado with
                    | a :: _ => getitem asignaciones columna_tecnico
                                  (fun r : series => r columna_tecnico) a
                    | [] => ret "No asignado"
                    end ;;
      desc <- getitem jobs "descripcion" descripcion job ;;
      skill <- getitem jobs "skill_requerida" skill_requerida job ;;
      ret (schedule_data ++
           [{| s_job_id := job_id;
               s_descripcion := desc;
               s_tecnico_id := tecnico_id;
               dia := dia;
               hora_inicio := (hora_inicio, minuto_inicio);
               s_duracion_horas := duracion;
               hora_fin := ((end_minutos mod MINUTOS_POR_DIA) / 60,
                            end_minutos mod 60);
               s_skill_requerida := skill |}]).

Definition maximo (l : list Z) : option Z :=
    match l with
    | [] => None
    | a :: l' => Some (fold_left Z.max l' a)
    end.

Definition unique (l : list ident) : list ident := nodup string_dec l.

  (** Lines 152-209. *)
Definition procesar (jobs : DataFrame job_row)
      (asignaciones : DataFrame series) (st : estado)
      (status : CpSolverStatus) (v : valuation) : M unit :=
    match status with
    | OPTIMAL | FEASIBLE =>
        emit (Print MsgSolucion) ;;
        schedule_data <- for_each (rows jobs)
                           (fila_horario jobs asignaciones st v) [] ;;
        emit (Print MsgGuardando) ;;
        emit (ToCsv_schedule schedule_data) ;;
        emit (Print MsgHorarioGuardado) ;;
        emit (Print (MsgResumen (List.length schedule_data))) ;;
        match maximo (map dia schedule_data) with
        | None => raise (KeyError "dia")
        | Some d =>
            emit (Print (MsgDias d)) ;;
            emit (Print (MsgTecnicos
                           (List.length
                              (unique (map s_tecnico_id schedule_data))))) ;;
            emit (Print (MsgVistaPrevia (firstn 10 schedule_data)))
        end
    | _ => emit (Print MsgNoSolucion)
    end.

Definition main (fs : archivos) (ahora : nat -> Z) (solver : solver_t)
    : M unit :=
    emit (Print MsgInicio) ;;
    emit (Print MsgCargando) ;;
    tablas <- cargar fs ;;
    let '(jobs, _, asignaciones) := tablas in
    sg <- construir jobs asignaciones ahora ;;
    let st := fst sg in
    emit (Print MsgResolviendo) ;;
    emit (Solve (model st)) ;;
    let (status, v) := solver (model st) in
    emit (Print MsgProcesando) ;;
    procesar jobs asignaciones st status v ;;
    emit (Print MsgCompletado).

End Schedule.

(** ** Vocabulary of the statements *)

(** The last row of [l] whose key is [k]: the one a dictionary built from
    [l] keeps. *)
Definition ultima {K R} (eqb : K -> K -> bool) (key : R -> K) (l : list R)
    (k : K) : option R :=
  find (fun r => eqb (key r) k) (rev l).

Definition suma (l : list Q) : Q := fold_right Qplus 0%Q l.

Module AssignmentSpec.
Import Assignment.

(** [pulp.value(x[(j, t)]) == 1] *)
Definition asignado (v : valuation) (t j : ident) : bool :=
  Qeq_bool (v (Var_x j t)) 1.

(** The jobs of [J] the values give to technician [t], in the order of [J]. *)
Definition trabajos_de (v : valuation) (J : list ident) (t : ident)
  : list ident :=
  filter (asignado v t) J.

(** The four families of constraints, as the script posts them. *)
Definition asignacion_unica (T : list ident) (j : ident)
  : cname * LpConstraint :=
  (Asignacion_Unica j,
   {| lhs := lpSum (map (fun t => (Var_x j t, 1%Q)) T);
      rel := LpConstraintEQ; rhs := of_num 1 |}).

Definition compatibilidad (kv : (ident * ident) * Q) : cname * LpConstraint :=
  (Compatibilidad (fst (fst kv)) (snd (fst kv)),
   {| lhs := of_var (Var_x (fst (fst kv)) (snd (fst kv)));
      rel := LpConstraintLE; rhs := of_num (snd kv) |}).

Definition carga_expr (p : dict ident Q) (J : list ident) (t : ident)
  : LpAffineExpression :=
  lpSum (map (fun j => (Var_x j t, dict_get_default p j)) J).

Definition balance_carga (p : dict ident Q) (J : list ident) (t : ident)
  : cname * LpConstraint :=
  (Balance_Carga t,
   {| lhs := carga_expr p J t; rel := LpConstraintLE; rhs := of_var Var_L |}).

Definition capacidad (p H : dict ident Q) (J : list ident) (t : ident)
  : cname * LpConstraint :=
  (Capacidad t,
   {| lhs := carga_expr p J t; rel := LpConstraintLE;
      rhs := of_num (dict_get_default H t) |}).

Definition modelo_de (J T : list ident) (p H : dict ident Q)
    (q : dict (ident * ident) Q) : LpProblem :=
  {| variables := map (fun kv => (snd kv, Binary)) (x_of J T)
                  ++ [(Var_L, Continuous 0)];
     objective := Var_L;
     constraints := map (asignacion_unica T) J ++ map compatibilidad q
                    ++ map (balance_carga p J) T ++ map (capacidad p H J) T |}.

(** What lines 121-147 compute from the values [v] of the solver. *)
Definition skill_de (jobs : DataFrame job_row) (j : ident) : string :=
  match filter (fun r => (id_job r =? j)%string) (rows jobs) with
  | r :: _ => skill_requerida r
  | [] => ""
  end.

Definition fila (jobs : DataFrame job_row) (p : dict ident Q) (t j : ident)
  : resultado :=
  {| job_id := j; tecnico_id := t;
     r_duracion_horas := dict_get_default p j;
     r_skill_requerida := skill_de jobs j |}.

Definition resultados_de (jobs : DataFrame job_row) (p : dict ident Q)
    (v : valuation) (J T : list ident) : list resultado :=
  flat_map (fun t => map (fila jobs p t) (trabajos_de v J t)) T.

(** The running sum [carga_actual] of technician [t]. *)
Definition carga_de (p : dict ident Q) (v : valuation) (J : list ident)
    (t : ident) : Q :=
  fold_left Qplus (map (dict_get_default p) (trabajos_de v J t)) 0%Q.

Definition cargas_de (p : dict ident Q) (v : valuation) (J T : list ident)
  : dict ident Q :=
  dict_of String.eqb (fun t => t) (carga_de p v J) T.

(** The rows of the merged table that come from the row [r]. *)
Definition filas_merge (tecnicos : DataFrame tecnico_row) (r : resultado)
  : list asignacion_row :=
  match filter (fun tr => (id_tecnico tr =? tecnico_id r)%string)
               (rows tecnicos) with
  | [] => [{| left := r; right := None |}]
  | ms => map (fun m => {| left := r; right := Some m |}) ms
  end.

Definition J_de (jobs : DataFrame job_row) : list ident :=
  map id_job (rows jobs).
Definition T_de (tecnicos : DataFrame tecnico_row) : list ident :=
  map id_tecnico (rows tecnicos).

Definition columnas_ok {R} (cols : list string) (df : DataFrame R) : Prop :=
  forall c, In c cols -> has_column df c = true.

(** The three files exist and, once their headers are normalised (lines
    35-39), have the required columns (lines 42-52): [jobs], [tecnicos]
    and [habilidades] are the tables the script then works on. *)
Definition leidos (fs : archivos) (jobs : DataFrame job_row)
    (tecnicos : DataFrame tecnico_row) (habilidades : DataFrame habilidad_row)
  : Prop :=
  exists j0 t0 h0,
    jobs_csv fs = Some j0 /\ tecnicos_csv fs = Some t0 /\
    habilidades_csv fs = Some h0 /\
    jobs = rename strip j0 /\
    tecnicos = rename normalizar_tecnico (rename strip t0) /\
    habilidades = rename strip h0 /\
    columnas_ok ["id_job"; "duracion_horas"; "skill_requerida"] jobs /\
    columnas_ok ["id_tecnico"; "capacidad_diaria_h"] tecnicos /\
    columnas_ok ["id_job"; "id_tecnico"; "compatible"] habilidades.

(** Every pair listed in the compatibility table is a pair of a job of
    [J] and a technician of [T], so that [x[(j, t)]] exists (line 94). *)
Definition pares_conocidos (J T : list ident) (q : dict (ident * ident) Q)
  : Prop :=
  Forall (fun kv => In (fst kv) (list_prod J T)) q.

(** The model of a run and what the run emits after the solver answered
    [(status, v)]. *)
Definition problema (jobs : DataFrame job_row)
    (tecnicos : DataFrame tecnico_row) (habilidades : DataFrame habilidad_row)
  : LpProblem :=
  modelo_de (J_de jobs) (T_de tecnicos) (p_of jobs) (H_of tecnicos)
            (q_of habilidades).

Definition resultados_df_de (jobs : DataFrame job_row)
    (tecnicos : DataFrame tecnico_row) (v : valuation)
  : DataFrame asignacion_row :=
  {| columns := ["job_id"; "tecnico_id"; "duracion_horas"; "skill_requerida"]
                ++ tecnicos_cols tecnicos;
     rows := flat_map (filas_merge tecnicos)
               (resultados_de jobs (p_of jobs) v (J_de jobs) (T_de tecnicos)) |}.

Definition utilizacion_de (cargas H : dict ident Q) (t : ident) : event :=
  let carga := dict_get_default cargas t in
  let capacidad := dict_get_default H t in
  Print (MsgUtilizacion t carga capacidad
           (if negb (Qle_bool capacidad 0)
            then (carga / capacidad * 100)%Q else 0%Q)).

Definition escritura (jobs : DataFrame job_row)
    (tecnicos : DataFrame tecnico_row) (status : LpStatus) (v : valuation)
  : list event :=
  let df := resultados_df_de jobs tecnicos v in
  let cargas := cargas_de (p_of jobs) v (J_de jobs) (T_de tecnicos) in
  [MakeDirs; ToCsv_assignment df; ToCsv_cargas cargas;
   Print (MsgResumen (List.length (rows df)) (List.length cargas));
   Print (MsgCargaMaxima (v Var_L))]
  ++ map (utilizacion_de cargas (H_of tecnicos)) (T_de tecnicos)
  ++ [WriteLog (LpStatus_name status) (v Var_L) (List.length (rows df));
      Print MsgCompletado].

(** The number of rows the merge makes of a row given to technician [t]. *)
Definition copias (tecnicos : DataFrame tecnico_row) (t : ident) : nat :=
  match List.length (filter (fun tr => (id_tecnico tr =? t)%string)
                            (rows tecnicos)) with
  | O => 1%nat
  | n => n
  end.

(** The run stopped before the solver was called: it only printed. *)
Definition es_mensaje (ev : event) : bool :=
  match ev with Print _ => true | _ => false end.

Definition hasta_resolver (prob : LpProblem) (status : LpStatus)
    (v : valuation) : list event :=
  [Print MsgInicio; Print MsgDatosCargados; Print MsgPreparando;
   Print MsgCreando; Print MsgResolviendo; Solve prob; Print MsgResultados;
   Print (MsgStatus (LpStatus_name status)); Print (MsgCargaMaxima (v Var_L))].

End AssignmentSpec.

(** ** Concrete inputs *)
Module Ejemplos.

Definition job (i : ident) (horas : Q) (limite : Z) : job_row :=
  {| id_job := i; duracion_horas := horas; skill_requerida := "electricidad";
     deadline := limite; descripcion := "revision" |}.

Definition tecnico (i : ident) (capacidad : Q) : tecnico_row :=
  {| id_tecnico := i; capacidad_diaria_h := capacidad; nombre := i |}.

Definition habilidad (j t : ident) (c : Q) : habilidad_row :=
  {| h_id_job := j; h_id_tecnico := t; compatible := c |}.

Definition tabla_jobs (l : list job_row) : DataFrame job_row :=
  {| columns := ["id_job"; "duracion_horas"; "skill_requerida"; "deadline";
                 "descripcion"];
     rows := l |}.

Definition tabla_tecnicos (l : list tecnico_row) : DataFrame tecnico_row :=
  {| columns := ["id_tecnico"; "nombre"; "capacidad_diaria_h"]; rows := l |}.

Definition tabla_habilidades (l : list habilidad_row)
  : DataFrame habilidad_row :=
  {| columns := ["id_job"; "id_tecnico"; "compatible"]; rows := l |}.

(** Two jobs of 4 hours that only T1 can do; T2 stays idle. *)
Definition jobs_dos := tabla_jobs [job "J1" 4 0; job "J2" 4 0].
Definition tecnicos_dos := tabla_tecnicos [tecnico "T1" 8; tecnico "T2" 8].
Definition habilidades_dos :=
  tabla_habilidades [habilidad "J1" "T1" 1; habilidad "J1" "T2" 0;
                     habilidad "J2" "T1" 1; habilidad "J2" "T2" 0].

Definition fs_dos : Assignment.archivos :=
  {| Assignment.jobs_csv := Some jobs_dos;
     Assignment.tecnicos_csv := Some tecnicos_dos;
     Assignment.habilidades_csv := Some habilidades_dos |}.

Definition v_dos : Assignment.valuation :=
  fun x => match x with
           | Assignment.Var_x _ t => if (t =? "T1")%string then 1%Q else 0%Q
           | Assignment.Var_L => 8%Q
           end.

Definition solver_dos : Assignment.solver_t :=
  fun _ => (Assignment.Optimal, v_dos).

(** The tables of [fs_dos] as the script normalises them, and its model. *)
Definition jobs_dos' := rename strip jobs_dos.
Definition tecnicos_dos' :=
  rename Assignment.normalizar_tecnico (rename strip tecnicos_dos).
Definition habilidades_dos' := rename strip habilidades_dos.
Definition prob_dos : Assignment.LpProblem :=
  AssignmentSpec.problema jobs_dos' tecnicos_dos' habilidades_dos'.

(** One job; the table says that T1 is not qualified and says nothing of
    T2. *)
Definition jobs_uno := tabla_jobs [job "J1" 2 0].
Definition habilidades_uno := tabla_habilidades [habilidad "J1" "T1" 0].

Definition fs_uno : Assignment.archivos :=
  {| Assignment.jobs_csv := Some jobs_uno;
     Assignment.tecnicos_csv := Some tecnicos_dos;
     Assignment.habilidades_csv := Some habilidades_uno |}.

Definition jobs_uno' := rename strip jobs_uno.
Definition habilidades_uno' := rename strip habilidades_uno.
Definition prob_uno : Assignment.LpProblem :=
  AssignmentSpec.problema jobs_uno' tecnicos_dos' habilidades_uno'.

Definition v_uno : Assignment.valuation :=
  fun x => match x with
           | Assignment.Var_x _ t => if (t =? "T2")%string then 1%Q else 0%Q
           | Assignment.Var_L => 2%Q
           end.

Definition solver_uno : Assignment.solver_t :=
  fun _ => (Assignment.Optimal, v_uno).

End Ejemplos.

Module ScheduleSpec.
Import Schedule.

(** The cells of a row of the assignment artifact that the script reads. *)
Definition tecnico_de (asignaciones : DataFrame series) (a : series) : ident :=
  a (columna_tecnico_de asignaciones).
Definition job_de (asignaciones : DataFrame series) (a : series) : ident :=
  a (columna_job_de asignaciones).

(** [solver.Value(start_vars[job_id])] and [solver.Value(end_vars[job_id])]
    (lines 163-164). *)
Definition inicio (st : estado) (v : valuation) (j : ident) : option Z :=
  option_map v (dict_get String.eqb (start_vars st) j).
Definition fin (st : estado) (v : valuation) (j : ident) : option Z :=
  option_map v (dict_get String.eqb (end_vars st) j).

(** The size given to the interval of a row (line 60). *)
Definition duracion_de (r : job_row) : Z := py_int (duracion_minutos r).

(** The row of [jobs] that the dictionaries keep for the id [j]. *)
Definition fila_de (jobs : DataFrame job_row) (j : ident) : option job_row :=
  ultima String.eqb id_job (rows jobs) j.

(** The interval variables of the rows of [l] that name technician [t] and
    a job that has an interval, in the order of [l] (lines 100-109). *)
Definition intervalos_de (asignaciones : DataFrame series)
    (ivs : dict ident IntervalVar) (t : ident) (l : list series)
  : list IntervalVar :=
  flat_map (fun a =>
    if (tecnico_de asignaciones a =? t)%string
    then match dict_get String.eqb ivs (job_de asignaciones a) with
         | Some iv => [iv]
         | None => []
         end
    else []) l.

(** The jobs of the rows of [l] that have no interval: those reported by
    line 111. *)
Definition no_encontrados (asignaciones : DataFrame series)
    (ivs : dict ident IntervalVar) (l : list series) : list ident :=
  flat_map (fun a =>
    match dict_get String.eqb ivs (job_de asignaciones a) with
    | Some _ => []
    | None => [job_de asignaciones a]
    end) l.

(** The jobs of the rows of the assignment artifact that are not in the
    Job table, in the order of the rows. *)
Definition sin_job (jobs : DataFrame job_row) (asignaciones : DataFrame series)
  : list ident :=
  filter (fun j => negb (existsb (String.eqb j) (map id_job (rows jobs))))
         (map (job_de asignaciones) (rows asignaciones)).

(** The job ids that the messages of line 111 name, in order. *)
Definition diagnosticos (tr : list event) : list ident :=
  flat_map (fun ev => match ev with
                      | Print (MsgJobNoEncontrado j) => [j]
                      | _ => []
                      end) tr.

(** The deadline bound of the row at position [k] (lines 130-135). *)
Definition dias_de (ahora : nat -> Z) (k : nat) (r : job_row) : Z :=
  dias_restantes (deadline r) (ahora k).

Definition max_start_de (ahora : nat -> Z) (k : nat) (r : job_row) : Z :=
  Z.min (dias_de ahora k r * HORAS_POR_DIA * 60) HORIZONTE_MINUTOS.

Definition cotas (ahora : nat -> Z) (sv : dict ident IntVar)
    (l : list (nat * job_row)) : list Constraint :=
  flat_map (fun kr =>
    if 0 <=? dias_de ahora (fst kr) (snd kr)
    then match dict_get String.eqb sv (id_job (snd kr)) with
         | Some s => [LinearLe s (max_start_de ahora (fst kr) (snd kr))]
         | None => []
         end
    else []) l.

Definition sin_solapes (d : dict ident (list IntervalVar)) : list Constraint :=
  flat_map (fun ti => match snd ti with
                      | [] => []
                      | l => [NoOverlap l]
                      end) d.

(** The columns the script reads from its two tables. *)
Definition columnas_jobs : list string :=
  ["id_job"; "duracion_horas"; "deadline"; "descripcion"; "skill_requerida"].

Definition columnas_presentes (jobs : DataFrame job_row)
    (asignaciones : DataFrame series) : Prop :=
  (forall c, In c columnas_jobs -> has_column jobs c = true) /\
  has_column asignaciones (columna_tecnico_de asignaciones) = true /\
  has_column asignaciones (columna_job_de asignaciones) = true.

(** [m] with the constraints [cs] added. *)
Definition agregar (m : CpModel) (cs : list Constraint) : CpModel :=
  {| domains := domains m;
     cp_constraints := cp_constraints m ++ cs;
     minimize := minimize m |}.

Definition intervalo (s : IntVar) (r : job_row) (e : IntVar) : IntervalVar :=
  {| iv_start := s; iv_size := duracion_de r; iv_end := e |}.

(** The technician that line 173-177 reports for the job [j]. *)
Definition tecnico_asignado (asignaciones : DataFrame series) (j : ident)
  : ident :=
  match filter (fun a => (job_de asignaciones a =? j)%string)
               (rows asignaciones) with
  | a :: _ => tecnico_de asignaciones a
  | [] => "No asignado"
  end.

Definition valor (o : option Z) : Z :=
  match o with Some z => z | None => 0 end.

(** The row of the schedule table of a row of the Job table. *)
Definition fila_horario_de (asignaciones : DataFrame series) (st : estado)
    (v : valuation) (job : job_row) : schedule_row :=
  let start_minutos := valor (inicio st v (id_job job)) in
  let end_minutos := valor (fin st v (id_job job)) in
  {| s_job_id := id_job job;
     s_descripcion := descripcion job;
     s_tecnico_id := tecnico_asignado asignaciones (id_job job);
     dia := start_minutos / MINUTOS_POR_DIA + 1;
     hora_inicio := ((start_minutos mod MINUTOS_POR_DIA) / 60,
                     start_minutos mod 60);
     s_duracion_horas := (duracion_minutos job / 60)%Q;
     hora_fin := ((end_minutos mod MINUTOS_POR_DIA) / 60,
                  end_minutos mod 60);
     s_skill_requerida := skill_requerida job |}.

Definition es_mensaje (ev : event) : bool :=
  match ev with Print _ => true | _ => false end.

Definition no_es_solve (ev : event) : bool :=
  match ev with Solve _ => false | _ => true end.

Definition no_es_csv (ev : event) : bool :=
  match ev with ToCsv_schedule _ => false | _ => true end.

Definition resuelto (status : CpSolverStatus) : bool :=
  match status with OPTIMAL | FEASIBLE => true | _ => false end.

(** What holds of the state after the rows [pre] of the Job table. *)
Record variables_creadas (pre : list (nat * job_row)) (tr : list event)
    (st : estado) : Prop := {
  vc_dominios :
    Forall (fun d => d = (0, HORIZONTE_MINUTOS)) (domains (model st));
  vc_intervalos :
    Forall (fun c => exists i, c = Interval i) (cp_constraints (model st));
  vc_mensajes : forallb es_mensaje tr = true /\ diagnosticos tr = [];
  vc_vars : forall j,
    match ultima String.eqb id_job (map snd pre) j with
    | Some r =>
        exists s e,
          dict_get String.eqb (start_vars st) j = Some s /\
          dict_get String.eqb (end_vars st) j = Some e /\
          dict_get String.eqb (interval_vars st) j = Some (intervalo s r e) /\
          (s < List.length (domains (model st)))%nat /\
          (e < List.length (domains (model st)))%nat /\
          In (Interval (intervalo s r e)) (cp_constraints (model st))
    | None =>
        dict_get String.eqb (start_vars st) j = None /\
        dict_get String.eqb (end_vars st) j = None /\
        dict_get String.eqb (interval_vars st) j = None
    end
}.

(** What holds of the grouping after the rows [pre] of the artifact. *)
Record agrupados (asignaciones : DataFrame series)
    (ivs : dict ident IntervalVar) (pre : list series) (tr : list event)
    (g : agrupacion) : Prop := {
  ag_lista : forall t,
    dict_get String.eqb (jobs_por_tecnico g) t =
    match intervalos_de asignaciones ivs t pre with
    | [] => None
    | l => Some l
    end;
  ag_mensajes :
    tr = map (fun j => Print (MsgJobNoEncontrado j))
             (no_encontrados asignaciones ivs pre);
  ag_omitidos :
    jobs_omitidos g = List.length (no_encontrados asignaciones ivs pre);
  ag_total :
    (jobs_procesados g + jobs_omitidos g = List.length pre)%nat;
  ag_claves : NoDup (dict_keys (jobs_por_tecnico g))
}.

End ScheduleSpec.

(** ** Concrete inputs of stage (b) *)
Module EjemplosHorario.
Import Schedule.

Definition columnas_asignaciones : list string :=
  ["job_id"; "tecnico_id"; "duracion_horas"; "skill_requerida"; "id_tecnico";
   "nombre"; "capacidad_diaria_h"].

(** A row of [assignment_results.csv] as stage (a) writes it. *)
Definition asignacion (j t : ident) : series :=
  fun c => if (c =? "job_id")%string then j
           else if (c =? "tecnico_id")%string then t
           else if (c =? "id_tecnico")%string then t
           else "".

Definition UN_DIA : Z := 86400000000.

(** Two jobs of T1: J1 (3 h) is due in two days, the deadline of J2 (5 h)
    passed yesterday. *)
Definition jobs_t1 : DataFrame job_row :=
  Ejemplos.tabla_jobs [Ejemplos.job "J1" 3 (2 * UN_DIA);
                       Ejemplos.job "J2" 5 (- UN_DIA)].

Definition asignaciones_t1 : DataFrame series :=
  {| columns := columnas_asignaciones;
     rows := [asignacion "J1" "T1"; asignacion "J2" "T1"] |}.

Definition ahora_0 : nat -> Z := fun _ => 0.

(** J1 at minute 0, J2 right after it. *)
Definition v_t1 : valuation :=
  fun x => nth x [0; 180; 180; 480; 480] 0.

Definition solver_t1 : solver_t := fun _ => (OPTIMAL, v_t1).

Definition estado_t1 : estado :=
  Eval vm_compute in
    match construir jobs_t1 asignaciones_t1 ahora_0 with
    | (_, inr (st, _)) => st
    | _ => estado_inicial
    end.

Definition fs_t1 : archivos :=
  {| jobs_csv := Some jobs_t1;
     tecnicos_csv := Some Ejemplos.tecnicos_dos;
     asignaciones_csv := Some asignaciones_t1 |}.

End EjemplosHorario.

Module EjemplosDuracion.
Import Schedule.

(** A job of 0.51 h, that is 30.6 minutes, with no assignment row. *)
Definition jobs_fraccion : DataFrame job_row :=
  Ejemplos.tabla_jobs [Ejemplos.job "J1" (51 # 100) 0].

Definition asignaciones_vacias : DataFrame series :=
  {| columns := EjemplosHorario.columnas_asignaciones; rows := [] |}.

Definition v_fraccion : valuation := fun x => nth x [0; 30; 30] 0.

Definition estado_fraccion : estado :=
  Eval vm_compute in
    match construir jobs_fraccion asignaciones_vacias EjemplosHorario.ahora_0
    with
    | (_, inr (st, _)) => st
    | _ => estado_inicial
    end.

Definition solver_fraccion : solver_t := fun _ => (OPTIMAL, v_fraccion).

(** An assignment artifact whose only row names a job, J9, that the Job
    table does not have. *)
Definition asignaciones_huerfana : DataFrame series :=
  {| columns := EjemplosHorario.columnas_asignaciones;
     rows := [EjemplosHorario.asignacion "J9" "T1"] |}.

Definition fs_fraccion : archivos :=
  {| jobs_csv := Some jobs_fraccion;
     tecnicos_csv := Some Ejemplos.tecnicos_dos;
     asignaciones_csv := Some asignaciones_vacias |}.

End EjemplosDuracion.

Module EjemplosErrores.

(** Stage (b): the Job table has no column [descripcion]. *)
Definition jobs_sin_descripcion : DataFrame job_row :=
  {| columns := ["id_job"; "duracion_horas"; "skill_requerida"; "deadline"];
     rows := [Ejemplos.job "J1" 3 0] |}.

Definition asignaciones_j1 : DataFrame Schedule.series :=
  {| columns := EjemplosHorario.columnas_asignaciones;
     rows := [EjemplosHorario.asignacion "J1" "T1"] |}.

Definition fs_sin_descripcion : Schedule.archivos :=
  {| Schedule.jobs_csv := Some jobs_sin_descripcion;
     Schedule.tecnicos_csv := Some Ejemplos.tecnicos_dos;
     Schedule.asignaciones_csv := Some asignaciones_j1 |}.

Definition v_j1 : Schedule.valuation := fun x => nth x [0; 180; 180] 0.

Definition solver_optimo : Schedule.solver_t :=
  fun _ => (Schedule.OPTIMAL, v_j1).
Definition solver_infactible : Schedule.solver_t :=
  fun _ => (Schedule.INFEASIBLE, fun _ => 0).
Definition solver_agotado : Schedule.solver_t :=
  fun _ => (Schedule.UNKNOWN, fun _ => 0).

(** Stage (b): two jobs of 30 h for one technician do not fit in the 56 h
    of the horizon. *)
Definition jobs_largos : DataFrame job_row :=
  Ejemplos.tabla_jobs [Ejemplos.job "J1" 30 (- EjemplosHorario.UN_DIA);
                       Ejemplos.job "J2" 30 (- EjemplosHorario.UN_DIA)].

Definition fs_largos : Schedule.archivos :=
  {| Schedule.jobs_csv := Some jobs_largos;
     Schedule.tecnicos_csv := Some Ejemplos.tecnicos_dos;
     Schedule.asignaciones_csv := Some EjemplosHorario.asignaciones_t1 |}.

Definition estado_largos : Schedule.estado :=
  Eval vm_compute in
    match Schedule.construir jobs_largos EjemplosHorario.asignaciones_t1
                             EjemplosHorario.ahora_0 with
    | (_, inr (st, _)) => st
    | _ => Schedule.estado_inicial
    end.

(** Stage (a): the only technician is not qualified for the only job. *)
Definition tecnicos_t1 := Ejemplos.tabla_tecnicos [Ejemplos.tecnico "T1" 8].

Definition fs_incompatible : Assignment.archivos :=
  {| Assignment.jobs_csv := Some Ejemplos.jobs_uno;
     Assignment.tecnicos_csv := Some tecnicos_t1;
     Assignment.habilidades_csv := Some Ejemplos.habilidades_uno |}.

Definition prob_incompatible : Assignment.LpProblem :=
  AssignmentSpec.problema Ejemplos.jobs_uno'
    (rename Assignment.normalizar_tecnico (rename strip tecnicos_t1))
    Ejemplos.habilidades_uno'.

(** The solver reports [Infeasible] and leaves the value 1 in [x]. *)
Definition solver_infactible_a : Assignment.solver_t :=
  fun _ => (Assignment.Infeasible,
            fun x => match x with
                     | Assignment.Var_x _ _ => 1%Q
                     | Assignment.Var_L => 2%Q
                     end).

End EjemplosErrores.

(** ** Inputs that the checks of stage (a) reject *)
Module EjemplosEntradas.



(** The compatibility table names a job, J9, that the Job table does not
    have. *)
Definition habilidades_j9 : DataFrame habilidad_row :=
  Ejemplos.tabla_habilidades
    [Ejemplos.habilidad "J1" "T1" 1; Ejemplos.habilidad "J9" "T1" 1].

Definition fs_j9 : Assignment.archivos :=
  {| Assignment.jobs_csv := Some Ejemplos.jobs_dos;
     Assignment.tecnicos_csv := Some Ejemplos.tecnicos_dos;
     Assignment.habilidades_csv := Some habilidades_j9 |}.

(** No job at all, and an empty compatibility table. *)
Definition fs_sin_trabajos : Assignment.archivos :=
  {| Assignment.jobs_csv := Some (Ejemplos.tabla_jobs []);
     Assignment.tecnicos_csv := Some Ejemplos.tecnicos_dos;
     Assignment.habilidades_csv := Some (Ejemplos.tabla_habilidades []) |}.

End EjemplosEntradas.

(** ** What stage (b) prints while it builds its model *)
Module ScheduleLineas.
Import Schedule ScheduleSpec.

(** The line of lines 63-65, for the row at position [fst kr]. *)
Definition linea_variables (kr : nat * job_row) : list event :=
  if (fst kr <? 5)%nat
  then [Print (MsgCreandoVariables (id_job (snd kr)) (duracion_de (snd kr)))]
  else [].

(** The line of line 121, for an entry of [jobs_por_tecnico]. *)
Definition linea_tecnico (ti : ident * list IntervalVar) : list event :=
  match snd ti with
  | [] => []
  | l => [Print (MsgTecnico (fst ti) (List.length l))]
  end.

(** The messages of lines 37-138, in the order of the script. *)
Definition mensajes_de (jobs : DataFrame job_row)
    (asignaciones : DataFrame series) (st : estado) (g : agrupacion)
  : list event :=
  [Print MsgHorizonte; Print MsgCreando;
   Print (MsgVariables (List.length (rows jobs)))]
  ++ flat_map linea_variables (iterrows jobs)
  ++ [Print (MsgIntervalos (List.length (interval_vars st))
                           (List.length (rows jobs)));
      Print (MsgRestricciones (columns asignaciones));
      Print (MsgUsando (columna_tecnico_de asignaciones)
                       (columna_job_de asignaciones))]
  ++ map (fun j => Print (MsgJobNoEncontrado j)) (sin_job jobs asignaciones)
  ++ [Print (MsgProcesados (jobs_procesados g) (jobs_omitidos g))]
  ++ flat_map linea_tecnico (jobs_por_tecnico g)
  ++ [Print MsgTiempo; Print MsgObjetivo].

(** The rows of the artifact whose job is in the Job table. *)
Definition con_job (jobs : DataFrame job_row) (asignaciones : DataFrame series)
  : list series :=
  filter (fun a => existsb (String.eqb (job_de asignaciones a))
                           (map id_job (rows jobs)))
         (rows asignaciones).


End ScheduleLineas.

(** ** Inputs of stage (b) without jobs *)
Module EjemplosVacios.


End EjemplosVacios.

(** ** Two jobs of one technician that are both due within the day *)
Module EjemplosPlazos.

Definition MEDIO_DIA : Z := 43200000000.

Definition jobs_hoy : DataFrame job_row :=
  Ejemplos.tabla_jobs [Ejemplos.job "J1" 3 MEDIO_DIA;
                       Ejemplos.job "J2" 5 MEDIO_DIA].

End EjemplosPlazos.

(** ** From stage (a) to stage (b) *)
Module Encadenado.

(** [assignment_results.csv], which stage (a) writes with
    [to_csv(index=False)], as stage (b) reads it back: the same header and,
    in every row, the text of the cells [job_id], [tecnico_id] and
    [id_tecnico]. *)
Definition releida (df : DataFrame Assignment.asignacion_row)
    (asignaciones : DataFrame Schedule.series) : Prop :=
  columns asignaciones = columns df /\
  Forall2 (fun (a : Assignment.asignacion_row) (s : Schedule.series) =>
             s "job_id" = Assignment.job_id (Assignment.left a) /\
             s "tecnico_id" = Assignment.tecnico_id (Assignment.left a) /\
             match Assignment.right a with
             | Some m => s "id_tecnico" = id_tecnico m
             | None => True
             end)
          (rows df) (rows asignaciones).

End Encadenado.

(** ** Tables of stage (b) that lack a column *)
Module EjemplosColumnas.

(** An artifact without a technician column. *)
Definition asignaciones_sin_tecnico : DataFrame Schedule.series :=
  {| columns := ["job_id"; "duracion_horas"];
     rows := [EjemplosHorario.asignacion "J1" "T1"] |}.

Definition fs_sin_tecnico : Schedule.archivos :=
  {| Schedule.jobs_csv := Some EjemplosHorario.jobs_t1;
     Schedule.tecnicos_csv := Some Ejemplos.tecnicos_dos;
     Schedule.asignaciones_csv := Some asignaciones_sin_tecnico |}.

(** A Job table without the column [deadline]. *)
Definition jobs_sin_deadline : DataFrame job_row :=
  {| columns := ["id_job"; "duracion_horas"; "skill_requerida"; "descripcion"];
     rows := [Ejemplos.job "J1" 3 0] |}.

Definition fs_sin_deadline : Schedule.archivos :=
  {| Schedule.jobs_csv := Some jobs_sin_deadline;
     Schedule.tecnicos_csv := Some Ejemplos.tecnicos_dos;
     Schedule.asignaciones_csv := Some EjemplosErrores.asignaciones_j1 |}.

End EjemplosColumnas.

(** * Properties *)

Unset Implicit Arguments.

(** ** Runs *)

Lemma bind_inr E A B (m : run E A) (f : A -> run E B) tr b :
  bind m f = (tr, inr b) ->
  exists tr1 a tr2,
    m = (tr1, inr a) /\ f a = (tr2, inr b) /\ tr = tr1 ++ tr2.
Proof.
  destruct m as [tr1 [e | a]]; simpl; [discriminate |].
  destruct (f a) as [tr2 r] eqn:Hf. intros [= <- ->].
  exists tr1, a, tr2. auto.
Qed.

Lemma trace_bind E A B (m : run E A) (f : A -> run E B) :
  trace (bind m f) =
  trace m ++ match outcome m with inr a => trace (f a) | inl _ => [] end.
Proof.
  destruct m as [tr1 [e | a]]; simpl; [now rewrite app_nil_r |].
  now destruct (f a).
Qed.

Lemma outcome_bind E A B (m : run E A) (f : A -> run E B) :
  outcome (bind m f) =
  match outcome m with inr a => outcome (f a) | inl e => inl e end.
Proof.
  destruct m as [tr1 [e | a]]; simpl; [reflexivity |].
  now destruct (f a).
Qed.

Lemma in_trace_bind E A B (m : run E A) (f : A -> run E B) ev :
  In ev (trace (bind m f)) ->
  In ev (trace m) \/ exists a, outcome m = inr a /\ In ev (trace (f a)).
Proof.
  rewrite trace_bind. intros H. apply in_app_or in H as [H | H]; [now left |].
  destruct (outcome m) as [e | a]; [contradiction |]. right. eauto.
Qed.

Lemma bind_pure E A B (m : run E A) (f : A -> run E B) a :
  m = ([], inr a) -> bind m f = f a.
Proof. intros ->. simpl. now destruct (f a). Qed.

(** A loop invariant indexed by the rows already visited and the events
    already emitted. *)
Lemma for_each_inv E A S (P : list A -> list E -> S -> Prop)
    (body : S -> A -> run E S) :
  forall l s0 tr s,
    P [] [] s0 ->
    (forall pre a tr0 s1 tr1 s2,
        In a l -> P pre tr0 s1 -> body s1 a = (tr1, inr s2) ->
        P (pre ++ [a]) (tr0 ++ tr1) s2) ->
    for_each l body s0 = (tr, inr s) ->
    P l tr s.
Proof.
  intros l. revert P. induction l as [| a l IH]; intros P s0 tr s H0 Hstep Hrun.
  - simpl in Hrun. injection Hrun as <- <-. exact H0.
  - simpl in Hrun. apply bind_inr in Hrun as (tr1 & s1 & tr2 & Hb & Hrest & ->).
    apply (IH (fun pre tr' s' => P (a :: pre) (tr1 ++ tr') s') s1 tr2 s).
    + rewrite app_nil_r. apply (Hstep [] a [] s0 tr1 s1); simpl; auto.
    + intros pre a' tr0 s1' tr1' s2 Hin HP Hb'. rewrite app_assoc.
      apply (Hstep (a :: pre) a' (tr1 ++ tr0) s1' tr1' s2); simpl; auto.
    + exact Hrest.
Qed.

(** A loop whose body never raises runs to its end. *)
Lemma for_each_total E A S (body : S -> A -> run E S) :
  forall l s0,
    (forall s a, In a l -> exists tr s', body s a = (tr, inr s')) ->
    exists tr s, for_each l body s0 = (tr, inr s).
Proof.
  induction l as [| a l IH]; intros s0 Hb; simpl.
  - eexists _, _. reflexivity.
  - destruct (Hb s0 a (or_introl eq_refl)) as (tr1 & s1 & ->).
    destruct (IH s1) as (tr2 & s2 & H2); [intros; apply Hb; now right |].
    simpl. rewrite H2. eexists _, _. reflexivity.
Qed.

Lemma map_run_pure E A B (f : A -> run E B) (g : A -> B) :
  forall l, (forall a, In a l -> f a = ([], inr (g a))) ->
            map_run f l = ([], inr (map g l)).
Proof.
  induction l as [| a l IH]; intros Hf; simpl; [reflexivity |].
  rewrite (Hf a (or_introl eq_refl)). simpl.
  rewrite IH by (intros; apply Hf; now right). reflexivity.
Qed.

Lemma map_run_inr E A B (f : A -> run E B) :
  forall l tr bs, map_run f l = (tr, inr bs) ->
                  forall a, In a l -> exists tr' b, f a = (tr', inr b).
Proof.
  induction l as [| a l IH]; intros tr bs Hr a' Hin; [contradiction |].
  simpl in Hr. apply bind_inr in Hr as (tr1 & b & tr2 & Hfa & Hr & _).
  apply bind_inr in Hr as (tr3 & bs' & tr4 & Hl & _ & _).
  destruct Hin as [<- | Hin]; eauto.
Qed.

(** ** Dictionaries *)
Section DictFacts.
Variables (K V : Type) (eqb : K -> K -> bool).
Hypothesis eqb_spec : forall a b, eqb a b = true <-> a = b.

Lemma eqb_refl' k : eqb k k = true.
Proof. now apply eqb_spec. Qed.

Lemma eqb_neq a b : a <> b -> eqb a b = false.
Proof.
    intros H. destruct (eqb a b) eqn:E; [| reflexivity].
    apply eqb_spec in E. contradiction.
Qed.

Lemma dict_get_set_eq (d : dict K V) k v :
    dict_get eqb (dict_set eqb d k v) k = Some v.
Proof.
    induction d as [| [k' v'] d IH]; simpl.
    - now rewrite eqb_refl'.
    - destruct (eqb k' k) eqn:E; simpl.
      + now rewrite eqb_refl'.
      + now rewrite E.
Qed.

Lemma dict_get_set_neq (d : dict K V) k v k' :
    k <> k' -> dict_get eqb (dict_set eqb d k v) k' = dict_get eqb d k'.
Proof.
    intros Hne. induction d as [| [k0 v0] d IH]; simpl.
    - now rewrite eqb_neq.
    - destruct (eqb k0 k) eqn:E; simpl.
      + apply eqb_spec in E. subst k0. now rewrite eqb_neq.
      + destruct (eqb k0 k'); auto.
Qed.

Lemma dict_keys_set (d : dict K V) k v :
    forall k', In k' (dict_keys (dict_set eqb d k v)) <->
               k' = k \/ In k' (dict_keys d).
Proof.
    intros k'. unfold dict_keys.
    induction d as [| [k0 v0] d IH]; simpl; [intuition congruence |].
    destruct (eqb k0 k) eqn:E; simpl.
    - apply eqb_spec in E. subst. intuition congruence.
    - rewrite IH. intuition congruence.
Qed.

Lemma dict_keys_set_NoDup (d : dict K V) k v :
    NoDup (dict_keys d) -> NoDup (dict_keys (dict_set eqb d k v)).
Proof.
    unfold dict_keys. induction d as [| [k0 v0] d IH]; simpl; intros Hnd.
    - constructor; [intros [] | constructor].
    - inversion Hnd as [| ? ? Hnotin Hnd']; subst.
      destruct (eqb k0 k) eqn:E; simpl.
      + apply eqb_spec in E. subst. now constructor.
      + constructor; [| auto].
        intros Hin. apply (dict_keys_set d k v) in Hin as [-> | Hin]; auto.
        rewrite eqb_refl' in E. discriminate.
Qed.

Lemma dict_get_In (d : dict K V) k v :
    dict_get eqb d k = Some v -> In (k, v) d.
Proof.
    induction d as [| [k0 v0] d IH]; simpl; [discriminate |].
    destruct (eqb k0 k) eqn:E.
    - apply eqb_spec in E. intros [= ->]. subst. now left.
    - auto.
Qed.

Lemma dict_In_get (d : dict K V) k v :
    NoDup (dict_keys d) -> In (k, v) d -> dict_get eqb d k = Some v.
Proof.
    unfold dict_keys. induction d as [| [k0 v0] d IH]; simpl; [tauto |].
    intros Hnd [Heq | Hin]; inversion Hnd as [| ? ? Hnotin Hnd']; subst.
    - injection Heq as -> ->. now rewrite eqb_refl'.
    - destruct (eqb k0 k) eqn:E; [| auto].
      apply eqb_spec in E. subst. exfalso. apply Hnotin.
      now apply (in_map fst) in Hin.
Qed.

Lemma dict_get_None (d : dict K V) k :
    dict_get eqb d k = None <-> ~ In k (dict_keys d).
Proof.
    unfold dict_keys. induction d as [| [k0 v0] d IH]; simpl; [tauto |].
    destruct (eqb k0 k) eqn:E.
    - apply eqb_spec in E. subst. split; [discriminate | tauto].
    - rewrite IH. split; [| tauto]. intros H [-> | Hin]; [| tauto].
      rewrite eqb_refl' in E. discriminate.
Qed.
End DictFacts.

Lemma find_app A (f : A -> bool) (l1 l2 : list A) :
  find f (l1 ++ l2) =
  match find f l1 with Some a => Some a | None => find f l2 end.
Proof.
  induction l1 as [| a l1 IH]; simpl; [reflexivity |].
  now destruct (f a).
Qed.

Section DictOf.
Variables (K V R : Type) (eqb : K -> K -> bool).
Hypothesis eqb_spec : forall a b, eqb a b = true <-> a = b.
Variables (key : R -> K) (val : R -> V).

Lemma dict_fold_get (l : list R) :
    forall (d0 : dict K V) k,
      dict_get eqb (fold_left (fun d r => dict_set eqb d (key r) (val r)) l d0) k
      = match ultima eqb key l k with
        | Some r => Some (val r)
        | None => dict_get eqb d0 k
        end.
Proof.
    unfold ultima.
    induction l as [| a l IH]; intros d0 k; simpl; [reflexivity |].
    rewrite IH, find_app. destruct (find _ (rev l)); [reflexivity |].
    simpl. destruct (eqb (key a) k) eqn:E.
    - apply eqb_spec in E. subst. apply dict_get_set_eq; auto.
    - apply dict_get_set_neq; auto. intros Hk. rewrite Hk in E.
      rewrite (eqb_refl' _ eqb eqb_spec) in E. discriminate.
Qed.

Lemma dict_of_get (l : list R) k :
    dict_get eqb (dict_of eqb key val l) k = option_map val (ultima eqb key l k).
Proof.
    unfold dict_of. rewrite dict_fold_get. now destruct (ultima eqb key l k).
Qed.

Lemma ultima_Some (l : list R) k r :
    ultima eqb key l k = Some r -> In r l /\ key r = k.
Proof.
    unfold ultima. intros H. apply find_some in H as [Hin E].
    apply in_rev in Hin. apply eqb_spec in E. auto.
Qed.

Lemma ultima_In (l : list R) r :
    In r l -> exists r', ultima eqb key l (key r) = Some r'.
Proof.
    intros Hin. unfold ultima.
    destruct (find _ (rev l)) as [r' |] eqn:E; [eauto |].
    apply in_rev in Hin. apply (find_none _ _ E r) in Hin.
    rewrite (eqb_refl' _ eqb eqb_spec) in Hin. discriminate.
Qed.

Lemma ultima_NoDup (l : list R) r :
    NoDup (map key l) -> In r l -> ultima eqb key l (key r) = Some r.
Proof.
    intros Hnd Hin. destruct (ultima_In l r Hin) as [r' Hr'].
    rewrite Hr'. f_equal. apply ultima_Some in Hr' as [Hin' Hk].
    clear - Hnd Hin Hin' Hk. induction l as [| a l IH]; [contradiction |].
    simpl in Hnd. inversion Hnd as [| ? ? Hnotin Hnd']; subst.
    destruct Hin as [-> | Hin], Hin' as [-> | Hin']; auto.
    - exfalso. apply Hnotin. rewrite <- Hk. now apply in_map.
    - exfalso. apply Hnotin. rewrite Hk. now apply in_map.
Qed.

Lemma dict_fold_keys (l : list R) :
    forall (d0 : dict K V) k,
      In k (dict_keys
              (fold_left (fun d r => dict_set eqb d (key r) (val r)) l d0)) <->
      In k (dict_keys d0) \/ In k (map key l).
Proof.
    induction l as [| a l IH]; intros d0 k; simpl; [tauto |].
    rewrite IH, (dict_keys_set _ _ eqb eqb_spec). intuition congruence.
Qed.


Lemma dict_of_keys (l : list R) k :
    In k (dict_keys (dict_of eqb key val l)) <-> In k (map key l).
Proof. unfold dict_of. rewrite dict_fold_keys. simpl. tauto. Qed.

End DictOf.

Lemma pair_eqb_spec a b : pair_eqb a b = true <-> a = b.
Proof.
  destruct a as [a1 a2], b as [b1 b2]. unfold pair_eqb. simpl.
  rewrite andb_true_iff, !String.eqb_eq. split.
  - intros [-> ->]. reflexivity.
  - intros [= -> ->]. auto.
Qed.

(** ** Stage (a) *)
Module AssignmentFacts.
Import Assignment AssignmentSpec.

Lemma item_keys (d : dict ident Q) k :
  In k (dict_keys d) -> item d k = ([], inr (dict_get_default d k)).
Proof.
  intros Hin. unfold item, subscript, dict_get_default.
  destruct (dict_get String.eqb d k) eqn:E; [reflexivity |].
  apply (dict_get_None _ _ String.eqb String.eqb_eq) in E. contradiction.
Qed.

Lemma item_trace (d : dict ident Q) k : trace (item d k) = [].
Proof. unfold item, subscript. now destruct (dict_get String.eqb d k). Qed.

Lemma x_of_get_Some J T k xv :
  dict_get pair_eqb (x_of J T) k = Some xv ->
  xv = Var_x (fst k) (snd k) /\ In k (list_prod J T).
Proof.
  unfold x_of. rewrite (dict_of_get _ _ _ pair_eqb pair_eqb_spec).
  destruct (ultima _ _ _ _) as [r |] eqn:E; [| discriminate].
  apply (ultima_Some _ _ pair_eqb pair_eqb_spec) in E as [Hin ->].
  intros [= <-]. auto.
Qed.

Lemma x_of_get_In J T j t :
  In j J -> In t T ->
  dict_get pair_eqb (x_of J T) (j, t) = Some (Var_x j t).
Proof.
  intros Hj Ht. unfold x_of. rewrite (dict_of_get _ _ _ pair_eqb pair_eqb_spec).
  assert (Hin : In (j, t) (list_prod J T)) by now apply in_prod.
  destruct (ultima_In _ _ pair_eqb pair_eqb_spec (fun k => k) _ _ Hin) as [r Hr].
  rewrite Hr. apply (ultima_Some _ _ pair_eqb pair_eqb_spec) in Hr as [_ ->].
  reflexivity.
Qed.

Lemma item_x_In J T j t :
  In j J -> In t T -> item_x (x_of J T) (j, t) = ([], inr (Var_x j t)).
Proof.
  intros Hj Ht. unfold item_x, subscript. now rewrite x_of_get_In.
Qed.

Lemma item_x_inr J T k tr xv :
  item_x (x_of J T) k = (tr, inr xv) ->
  tr = [] /\ xv = Var_x (fst k) (snd k) /\ In k (list_prod J T).
Proof.
  unfold item_x, subscript.
  destruct (dict_get pair_eqb (x_of J T) k) as [xv' |] eqn:E; [| discriminate].
  intros [= <- <-]. apply x_of_get_Some in E. tauto.
Qed.

Lemma item_x_trace J T k : trace (item_x (x_of J T) k) = [].
Proof.
  unfold item_x, subscript. now destruct (dict_get pair_eqb (x_of J T) k).
Qed.

Lemma map_run_trace_nil E A B (f : A -> run E B) l :
  (forall a, trace (f a) = []) -> trace (map_run f l) = [].
Proof.
  intros Hf. induction l as [| a l IH]; simpl; [reflexivity |].
  rewrite trace_bind, Hf. destruct (outcome (f a)); [reflexivity |].
  rewrite trace_bind, IH. now destruct (outcome (map_run f l)).
Qed.

(** The terms of the load of technician [t], as lines 98 and 102 build them. *)
Lemma carga_terms J T p t :
  incl J (dict_keys p) -> In t T ->
  forall J', incl J' J ->
    map_run (fun j => pj <- item p j ;; xv <- item_x (x_of J T) (j, t) ;;
                      ret (xv, pj)) J'
    = ([], inr (map (fun j => (Var_x j t, dict_get_default p j)) J')).
Proof.
  intros Hp Ht J' HJ'. apply map_run_pure. intros j Hj.
  rewrite (bind_pure _ _ _ _ _ _ (item_keys _ _ (Hp _ (HJ' _ Hj)))).
  rewrite (bind_pure _ _ _ _ _ _ (item_x_In _ _ _ _ (HJ' _ Hj) Ht)). reflexivity.
Qed.

Lemma modelo_ok J T p H q :
  incl J (dict_keys p) -> incl T (dict_keys H) ->
  Forall (fun kv => In (fst kv) (list_prod J T)) q ->
  modelo J T p H q = ([], inr (modelo_de J T p H q)).
Proof.
  intros Hp HH Hq. unfold modelo.
  rewrite (bind_pure _ _ _ _ _ (map (asignacion_unica T) J)).
  2:{ apply map_run_pure. intros j Hj.
      rewrite (bind_pure _ _ _ _ _ (map (fun t => (Var_x j t, 1%Q)) T)).
      - reflexivity.
      - apply map_run_pure. intros t Ht.
        now rewrite (bind_pure _ _ _ _ _ _ (item_x_In _ _ _ _ Hj Ht)). }
  rewrite (bind_pure _ _ _ _ _ (map compatibilidad q)).
  2:{ apply map_run_pure. intros [[j t] c] Hkv.
      rewrite Forall_forall in Hq. specialize (Hq _ Hkv). simpl in Hq.
      apply in_prod_iff in Hq as [Hj Ht].
      simpl. now rewrite (bind_pure _ _ _ _ _ _ (item_x_In _ _ _ _ Hj Ht)). }
  rewrite (bind_pure _ _ _ _ _ (map (balance_carga p J) T)).
  2:{ apply map_run_pure. intros t Ht.
      now rewrite (bind_pure _ _ _ _ _ _ (carga_terms _ _ _ _ Hp Ht _ (incl_refl J))). }
  rewrite (bind_pure _ _ _ _ _ (map (capacidad p H J) T)).
  2:{ apply map_run_pure. intros t Ht.
      rewrite (bind_pure _ _ _ _ _ _ (carga_terms _ _ _ _ Hp Ht _ (incl_refl J))).
      now rewrite (bind_pure _ _ _ _ _ _ (item_keys _ _ (HH _ Ht))). }
  reflexivity.
Qed.

Lemma modelo_trace J T p H q : trace (modelo J T p H q) = [].
Proof.
  unfold modelo.
  repeat (rewrite trace_bind;
          match goal with
          | |- trace (map_run ?f ?l) ++ _ = [] =>
              rewrite (map_run_trace_nil _ _ _ f l); [destruct (outcome _); simpl |]
          end).
  all: try reflexivity.
  all: intros a; repeat (rewrite trace_bind);
    repeat (first [ rewrite item_trace | rewrite item_x_trace
                  | rewrite map_run_trace_nil ]; simpl;
            try match goal with
                | |- context [outcome ?m] => destruct (outcome m); simpl
                end;
            try reflexivity; repeat rewrite trace_bind).
  all: try (intros; rewrite trace_bind, ?item_trace, ?item_x_trace; simpl;
            match goal with
            | |- context [outcome ?m] => destruct (outcome m); simpl
            end; try reflexivity;
            rewrite trace_bind, ?item_trace, ?item_x_trace; simpl;
            try match goal with
            | |- context [outcome ?m] => destruct (outcome m); simpl
            end; reflexivity).
Qed.

Lemma skill_of_In jobs j :
  In j (map id_job (rows jobs)) -> skill_of jobs j = ([], inr (skill_de jobs j)).
Proof.
  intros Hin. unfold skill_of, skill_de.
  destruct (filter _ (rows jobs)) as [| r l] eqn:E; [| reflexivity].
  exfalso. apply in_map_iff in Hin as (r & <- & Hr).
  assert (Hf : In r (filter (fun r' => (id_job r' =? id_job r)%string)
                            (rows jobs))).
  { apply filter_In. split; [exact Hr | apply String.eqb_refl]. }
  rewrite E in Hf. contradiction.
Qed.

Lemma filas_de_ok jobs J T p v t j acc :
  In j J -> In t T -> incl J (dict_keys p) -> incl J (map id_job (rows jobs)) ->
  filas_de jobs p (x_of J T) v t acc j =
  ([], inr (if asignado v t j
            then (fst acc ++ [fila jobs p t j],
                  (snd acc + dict_get_default p j)%Q)
            else acc)).
Proof.
  intros Hj Ht Hp Hjobs. unfold filas_de, asignado.
  rewrite (bind_pure _ _ _ _ _ _ (item_x_In _ _ _ _ Hj Ht)).
  destruct (Qeq_bool (v (Var_x j t)) 1); [| reflexivity].
  rewrite (bind_pure _ _ _ _ _ _ (skill_of_In _ _ (Hjobs _ Hj))).
  rewrite (bind_pure _ _ _ _ _ _ (item_keys _ _ (Hp _ Hj))).
  rewrite (bind_pure _ _ _ _ _ _ (item_keys _ _ (Hp _ Hj))).
  reflexivity.
Qed.

Lemma interno_ok jobs J T p v t :
  In t T -> incl J (dict_keys p) -> incl J (map id_job (rows jobs)) ->
  forall J' res c,
    incl J' J ->
    for_each J' (filas_de jobs p (x_of J T) v t) (res, c) =
    ([], inr (res ++ map (fila jobs p t) (trabajos_de v J' t),
              fold_left Qplus
                (map (dict_get_default p) (trabajos_de v J' t)) c)).
Proof.
  intros Ht Hp Hjobs. induction J' as [| j J' IH]; intros res c HJ'; simpl.
  - now rewrite app_nil_r.
  - assert (Hj : In j J) by (apply HJ'; now left).
    rewrite (bind_pure _ _ _ _ _ _
               (filas_de_ok jobs J T p v t j (res, c) Hj Ht Hp Hjobs)).
    unfold trabajos_de in *. simpl.
    destruct (asignado v t j); simpl.
    + rewrite IH by (intros a Ha; apply HJ'; now right).
      now rewrite <- app_assoc.
    + apply IH. intros a Ha; apply HJ'; now right.
Qed.

Lemma recolectar_ok jobs J T p v :
  incl J (dict_keys p) -> incl J (map id_job (rows jobs)) ->
  recolectar jobs J T p (x_of J T) v =
  ([], inr (resultados_de jobs p v J T, cargas_de p v J T)).
Proof.
  intros Hp Hjobs. unfold recolectar, resultados_de, cargas_de, dict_of.
  enough (Hgen : forall T' res d,
             incl T' T ->
             for_each T' (fun st t =>
               r <- for_each J (filas_de jobs p (x_of J T) v t) (fst st, 0%Q) ;;
               ret (fst r, dict_set String.eqb (snd st) t (snd r))) (res, d) =
             ([], inr (res ++ flat_map (fun t => map (fila jobs p t)
                                                     (trabajos_de v J t)) T',
                       fold_left (fun d t => dict_set String.eqb d t
                                                      (carga_de p v J t))
                                 T' d))).
  { apply (Hgen T [] []). apply incl_refl. }
  induction T' as [| t T' IH]; intros res d HT'; simpl.
  - now rewrite app_nil_r.
  - assert (Ht : In t T) by (apply HT'; now left).
    rewrite (interno_ok jobs J T p v t Ht Hp Hjobs J res 0%Q (incl_refl J)).
    simpl. rewrite IH by (intros a Ha; apply HT'; now right).
    now rewrite <- app_assoc.
Qed.

Lemma validar_cases R name cols (df : DataFrame R) :
  (columnas_ok cols df /\ validar name cols df = ([], inr tt)) \/
  (exists e, validar name cols df = ([], inl e)).
Proof.
  unfold validar.
  destruct (filter (fun c => negb (has_column df c)) cols) as [| c l] eqn:E.
  - left. split; [| reflexivity]. intros c Hc.
    destruct (has_column df c) eqn:Hhas; [reflexivity |].
    assert (Hin : In c (filter (fun c => negb (has_column df c)) cols)).
    { apply filter_In. now rewrite Hhas. }
    rewrite E in Hin. contradiction.
  - right. eexists. reflexivity.
Qed.

Lemma validar_ok R name cols (df : DataFrame R) :
  columnas_ok cols df -> validar name cols df = ([], inr tt).
Proof.
  intros Hok. unfold validar.
  destruct (filter (fun c => negb (has_column df c)) cols) as [| c l] eqn:E;
    [reflexivity |].
  assert (Hin : In c (filter (fun c => negb (has_column df c)) cols))
    by (rewrite E; now left).
  apply filter_In in Hin as [Hc Hneg]. rewrite (Hok c Hc) in Hneg.
  discriminate.
Qed.

Lemma modelo_inr J T p H q tr prob :
  modelo J T p H q = (tr, inr prob) -> pares_conocidos J T q.
Proof.
  unfold modelo. intros Hm.
  apply bind_inr in Hm as (tr1 & c1 & tr2 & _ & Hm & _).
  apply bind_inr in Hm as (tr3 & c2 & tr4 & Hc2 & _ & _).
  apply Forall_forall. intros kv Hkv.
  destruct (map_run_inr _ _ _ _ _ _ _ Hc2 kv Hkv) as (tr' & b & Hb).
  apply bind_inr in Hb as (tr5 & xv & tr6 & Hx & _ & _).
  now apply item_x_inr in Hx as (_ & _ & Hin).
Qed.

Lemma p_of_keys jobs : incl (J_de jobs) (dict_keys (p_of jobs)).
Proof.
  intros j Hj. now apply (dict_of_keys _ _ _ String.eqb String.eqb_eq).
Qed.

Lemma H_of_keys tecnicos : incl (T_de tecnicos) (dict_keys (H_of tecnicos)).
Proof.
  intros t Ht. now apply (dict_of_keys _ _ _ String.eqb String.eqb_eq).
Qed.

Lemma for_each_emit A (g : A -> event) l :
  for_each l (fun _ a => emit (g a)) tt = (map g l, inr tt).
Proof.
  induction l as [| a l IH]; simpl; [reflexivity |]. now rewrite IH.
Qed.

Lemma merge_ok resultados tecnicos :
  resultados <> [] ->
  merge resultados tecnicos =
  ([], inr {| columns := ["job_id"; "tecnico_id"; "duracion_horas";
                          "skill_requerida"] ++ tecnicos_cols tecnicos;
              rows := flat_map (filas_merge tecnicos) resultados |}).
Proof. destruct resultados; [congruence | reflexivity]. Qed.

Ltac avanzar :=
  first [rewrite trace_bind | rewrite outcome_bind];
  cbn [trace outcome emit ret raise Assignment.read_csv fst snd app].

Lemma resumen_ok cargas H T :
  for_each T (fun _ t => resumen_tecnico cargas H t) tt =
  (map (utilizacion_de cargas H) T, inr tt).
Proof. apply (for_each_emit _ (utilizacion_de cargas H)). Qed.

(** The run of the script on files that pass the checks of lines 22-52. *)
Lemma main_ok fs solver jobs tecnicos habilidades status v :
  leidos fs jobs tecnicos habilidades ->
  pares_conocidos (J_de jobs) (T_de tecnicos) (q_of habilidades) ->
  solver (problema jobs tecnicos habilidades) = (status, v) ->
  trace (main fs solver) =
    hasta_resolver (problema jobs tecnicos habilidades) status v ++
    match resultados_de jobs (p_of jobs) v (J_de jobs) (T_de tecnicos) with
    | [] => []
    | _ => escritura jobs tecnicos status v
    end
  /\
  outcome (main fs solver) =
    match resultados_de jobs (p_of jobs) v (J_de jobs) (T_de tecnicos) with
    | [] => inl (KeyError "tecnico_id")
    | _ => inr tt
    end.
Proof.
  intros (j0 & t0 & h0 & Hj & Ht & Hh & -> & -> & -> & Hcj & Hct & Hch) Hq Hs.
  pose proof (p_of_keys (rename strip j0)) as Hp.
  pose proof (H_of_keys (rename normalizar_tecnico (rename strip t0))) as HH.
  unfold problema, J_de, T_de in *.
  split; unfold main; rewrite Hj, Ht, Hh.
  all: do 4 avanzar.
  all: rewrite (validar_ok _ _ _ _ Hcj); avanzar.
  all: rewrite (validar_ok _ _ _ _ Hct); avanzar.
  all: rewrite (validar_ok _ _ _ _ Hch); do 4 avanzar.
  all: rewrite (modelo_ok _ _ _ _ _ Hp HH Hq).
  all: do 2 avanzar; rewrite Hs; do 4 avanzar.
  all: rewrite (recolectar_ok _ _ _ _ _ Hp (incl_refl _)).
  all: cbn [trace outcome fst snd app]; avanzar.
  all: destruct (resultados_de _ _ _ _ _) as [| r l] eqn:E; [reflexivity |].
  all: rewrite merge_ok by discriminate.
  all: do 6 avanzar; rewrite resumen_ok; do 2 avanzar.
  all: try reflexivity.
  unfold hasta_resolver, escritura, resultados_df_de, cargas_de, J_de, T_de.
  cbn [app rows columns]. rewrite E. reflexivity.
Qed.

(** Either the files pass the checks and the model is built, or the run
    ends with an exception having only printed messages. *)
Lemma main_cases fs solver :
  (exists jobs tecnicos habilidades,
      leidos fs jobs tecnicos habilidades /\
      pares_conocidos (J_de jobs) (T_de tecnicos) (q_of habilidades)) \/
  (forallb es_mensaje (trace (main fs solver)) = true /\
   exists e, outcome (main fs solver) = inl e).
Proof.
  destruct (jobs_csv fs) as [j0 |] eqn:Hj.
  2:{ right. unfold main. rewrite Hj. split; [| eexists]; repeat avanzar;
      reflexivity. }
  destruct (tecnicos_csv fs) as [t0 |] eqn:Ht.
  2:{ right. unfold main. rewrite Hj, Ht. split; [| eexists]; repeat avanzar;
      reflexivity. }
  destruct (habilidades_csv fs) as [h0 |] eqn:Hh.
  2:{ right. unfold main. rewrite Hj, Ht, Hh. split; [| eexists];
      repeat avanzar; reflexivity. }
  destruct (validar_cases _ "jobs"
              ["id_job"; "duracion_horas"; "skill_requerida"]
              (rename strip j0)) as [[Hcj Hvj] | [e Hvj]].
  2:{ right. unfold main. rewrite Hj, Ht, Hh. split; [| eexists];
      do 4 avanzar; rewrite Hvj; repeat avanzar; reflexivity. }
  destruct (validar_cases _ "tecnicos" ["id_tecnico"; "capacidad_diaria_h"]
              (rename normalizar_tecnico (rename strip t0)))
    as [[Hct Hvt] | [e Hvt]].
  2:{ right. unfold main. rewrite Hj, Ht, Hh. split; [| eexists];
      do 4 avanzar; rewrite Hvj; avanzar; rewrite Hvt; repeat avanzar;
      reflexivity. }
  destruct (validar_cases _ "habilidades" ["id_job"; "id_tecnico"; "compatible"]
              (rename strip h0)) as [[Hch Hvh] | [e Hvh]].
  2:{ right. unfold main. rewrite Hj, Ht, Hh. split; [| eexists];
      do 4 avanzar; rewrite Hvj; avanzar; rewrite Hvt; avanzar; rewrite Hvh;
      repeat avanzar; reflexivity. }
  destruct (modelo (J_de (rename strip j0))
                   (T_de (rename normalizar_tecnico (rename strip t0)))
                   (p_of (rename strip j0))
                   (H_of (rename normalizar_tecnico (rename strip t0)))
                   (q_of (rename strip h0))) as [tr [e | prob]] eqn:Hm.
  - right. pose proof (modelo_trace (J_de (rename strip j0))
                   (T_de (rename normalizar_tecnico (rename strip t0)))
                   (p_of (rename strip j0))
                   (H_of (rename normalizar_tecnico (rename strip t0)))
                   (q_of (rename strip h0))) as Htr.
    rewrite Hm in Htr. simpl in Htr. subst tr. unfold J_de, T_de in Hm.
    unfold main. rewrite Hj, Ht, Hh. split; [| eexists];
      do 4 avanzar; rewrite Hvj; avanzar; rewrite Hvt; avanzar; rewrite Hvh;
      do 4 avanzar; rewrite Hm; repeat avanzar; reflexivity.
  - left. exists (rename strip j0), (rename normalizar_tecnico (rename strip t0)),
      (rename strip h0). split.
    + exists j0, t0, h0. repeat split; auto.
    + eapply modelo_inr. exact Hm.
Qed.

Lemma escritura_cargas jobs tecnicos status v df :
  In (ToCsv_cargas df) (escritura jobs tecnicos status v) ->
  df = cargas_de (p_of jobs) v (J_de jobs) (T_de tecnicos).
Proof.
  unfold escritura. cbn [app]. intros H.
  repeat (destruct H as [H | H]; [try discriminate; now injection H |]).
  apply in_app_or in H as [H | H].
  - apply in_map_iff in H as (t & Ht & _). discriminate.
  - repeat (destruct H as [H | H]; [discriminate |]). contradiction.
Qed.

Lemma escritura_assignment jobs tecnicos status v df :
  In (ToCsv_assignment df) (escritura jobs tecnicos status v) ->
  df = resultados_df_de jobs tecnicos v.
Proof.
  unfold escritura. cbn [app]. intros H.
  repeat (destruct H as [H | H]; [try discriminate; now injection H |]).
  apply in_app_or in H as [H | H].
  - apply in_map_iff in H as (t & Ht & _). discriminate.
  - repeat (destruct H as [H | H]; [discriminate |]). contradiction.
Qed.

(** An event other than a message is emitted only by a run that built its
    model. *)
Lemma main_evento fs solver ev :
  In ev (trace (main fs solver)) -> es_mensaje ev = false ->
  exists jobs tecnicos habilidades status v,
    leidos fs jobs tecnicos habilidades /\
    pares_conocidos (J_de jobs) (T_de tecnicos) (q_of habilidades) /\
    solver (problema jobs tecnicos habilidades) = (status, v) /\
    (ev = Solve (problema jobs tecnicos habilidades) \/
     (resultados_de jobs (p_of jobs) v (J_de jobs) (T_de tecnicos) <> [] /\
      In ev (escritura jobs tecnicos status v))).
Proof.
  intros Hin Hev.
  destruct (main_cases fs solver)
    as [(jobs & tecnicos & habilidades & Hl & Hq) | [Hall _]].
  2:{ rewrite forallb_forall in Hall. rewrite (Hall _ Hin) in Hev.
      discriminate. }
  destruct (solver (problema jobs tecnicos habilidades)) as [status v] eqn:Hs.
  exists jobs, tecnicos, habilidades, status, v. repeat split; auto.
  destruct (main_ok _ _ _ _ _ _ _ Hl Hq Hs) as [Htr _].
  rewrite Htr in Hin. apply in_app_or in Hin as [Hin | Hin].
  - left. unfold hasta_resolver in Hin.
    repeat (destruct Hin as [<- | Hin]; [try discriminate; reflexivity |]).
    contradiction.
  - right. destruct (resultados_de _ _ _ _ _); [contradiction |].
    split; [discriminate | exact Hin].
Qed.

(** *** What a feasible answer satisfies *)

Section Factible.
Variables (J T : list ident) (p H : dict ident Q) (q : dict (ident * ident) Q).
Variable v : valuation.
Hypothesis Hfeas : lp_feasible (modelo_de J T p H q) v.

Lemma factible_restriccion c :
  In c (map (asignacion_unica T) J ++ map compatibilidad q
        ++ map (balance_carga p J) T ++ map (capacidad p H J) T) ->
  holds v (snd c).
Proof.
  intros Hin. destruct Hfeas as [Hc _]. rewrite Forall_forall in Hc.
  exact (Hc c Hin).
Qed.

Lemma factible_binaria j t :
  In j J -> In t T -> (v (Var_x j t) == 0 \/ v (Var_x j t) == 1)%Q.
Proof.
  intros Hj Ht. destruct Hfeas as [_ Hd]. rewrite Forall_forall in Hd.
  apply (Hd (Var_x j t, Binary)). simpl. apply in_or_app. left.
  apply in_map_iff. exists ((j, t), Var_x j t). split; [reflexivity |].
  apply (dict_get_In _ _ pair_eqb pair_eqb_spec). now apply x_of_get_In.
Qed.

Lemma factible_L : (0 <= v Var_L)%Q.
Proof.
  destruct Hfeas as [_ Hd]. rewrite Forall_forall in Hd.
  apply (Hd (Var_L, Continuous 0)). simpl. apply in_or_app. right. now left.
Qed.

Lemma factible_unica j :
  In j J -> (value v (lpSum (map (fun t => (Var_x j t, 1%Q)) T)) == 1)%Q.
Proof.
  intros Hj. assert (Hh := factible_restriccion (asignacion_unica T j)).
  unfold holds in Hh. simpl in Hh. apply Hh.
  apply in_or_app. left. now apply in_map.
Qed.

Lemma factible_compatibilidad j t c :
  In ((j, t), c) q -> (v (Var_x j t) <= c)%Q.
Proof.
  intros Hin. assert (Hh := factible_restriccion (compatibilidad ((j, t), c))).
  unfold holds, value in Hh. simpl in Hh.
  assert (Hle : (1 * v (Var_x j t) + 0 <= c)%Q).
  { apply Hh. apply in_or_app. right. apply in_or_app. left.
    now apply in_map with (f := compatibilidad) in Hin. }
  lra.
Qed.

Lemma factible_balance t :
  In t T -> (value v (carga_expr p J t) <= v Var_L)%Q.
Proof.
  intros Ht. assert (Hh := factible_restriccion (balance_carga p J t)).
  unfold holds in Hh. simpl in Hh.
  assert (Hle : (value v (carga_expr p J t) <= value v (of_var Var_L))%Q).
  { apply Hh. do 2 (apply in_or_app; right). apply in_or_app. left.
    now apply in_map. }
  unfold value in Hle at 2. simpl in Hle. lra.
Qed.

Lemma factible_capacidad t :
  In t T -> (value v (carga_expr p J t) <= dict_get_default H t)%Q.
Proof.
  intros Ht. assert (Hh := factible_restriccion (capacidad p H J t)).
  unfold holds in Hh. simpl in Hh. apply Hh.
  do 3 (apply in_or_app; right). now apply in_map.
Qed.
End Factible.

(** *** Sums over binary values *)

Lemma fold_left_Qplus l : forall c, (fold_left Qplus l c == c + suma l)%Q.
Proof.
  induction l as [| a l IH]; intros c; simpl; [lra |].
  rewrite IH. lra.
Qed.

Lemma asignado_true v t j : asignado v t j = true <-> (v (Var_x j t) == 1)%Q.
Proof. unfold asignado. apply Qeq_bool_iff. Qed.

Lemma asignado_false v t j :
  (v (Var_x j t) == 0 \/ v (Var_x j t) == 1)%Q ->
  asignado v t j = false -> (v (Var_x j t) == 0)%Q.
Proof.
  intros [H0 | H1] Hf; [exact H0 |].
  apply asignado_true in H1. congruence.
Qed.

(** With binary values the linear expression of a load is the sum of the
    durations of the jobs whose variable is 1. *)
Lemma carga_binaria v t (c : ident -> Q) J :
  (forall j, In j J -> (v (Var_x j t) == 0 \/ v (Var_x j t) == 1)%Q) ->
  (suma (map c (filter (asignado v t) J))
   == value v (lpSum (map (fun j => (Var_x j t, c j)) J)))%Q.
Proof.
  induction J as [| j J IH]; intros Hbin; [reflexivity |].
  assert (IH' := IH (fun j' Hj' => Hbin j' (or_intror Hj'))).
  unfold value in *. simpl in *.
  destruct (asignado v t j) eqn:E; simpl.
  - apply asignado_true in E. rewrite IH', E. lra.
  - apply asignado_false in E; [| apply Hbin; now left]. rewrite IH', E. lra.
Qed.

Lemma carga_de_valor v t p J :
  (forall j, In j J -> (v (Var_x j t) == 0 \/ v (Var_x j t) == 1)%Q) ->
  (carga_de p v J t == value v (carga_expr p J t))%Q.
Proof.
  intros Hbin. unfold carga_de, carga_expr, trabajos_de.
  rewrite fold_left_Qplus, (carga_binaria v t (dict_get_default p) J Hbin).
  lra.
Qed.

(** With binary values the left-hand side of [Asignacion_Unica_j] counts
    the technicians that have the job. *)
Lemma unica_cuenta v j T :
  (forall t, In t T -> (v (Var_x j t) == 0 \/ v (Var_x j t) == 1)%Q) ->
  (value v (lpSum (map (fun t => (Var_x j t, 1%Q)) T))
   == inject_Z (Z.of_nat
                  (List.length (filter (fun t => asignado v t j) T))))%Q.
Proof.
  induction T as [| t T IH]; intros Hbin; [reflexivity |].
  assert (IH' := IH (fun t' Ht' => Hbin t' (or_intror Ht'))).
  unfold value in *. simpl in *.
  destruct (asignado v t j) eqn:E.
  - apply asignado_true in E. rewrite IH', E.
    cbn [List.length]. rewrite Nat2Z.inj_succ, <- Z.add_1_l, inject_Z_plus.
    change (inject_Z 1) with 1%Q. lra.
  - apply asignado_false in E; [| apply Hbin; now left]. rewrite IH', E. lra.
Qed.

Lemma un_tecnico J T p H q v j :
  lp_feasible (modelo_de J T p H q) v -> In j J ->
  List.length (filter (fun t => asignado v t j) T) = 1%nat.
Proof.
  intros Hfeas Hj.
  assert (Hu := factible_unica J T p H q v Hfeas j Hj).
  rewrite unica_cuenta in Hu
    by (intros t Ht; now apply (factible_binaria J T p H q v Hfeas)).
  unfold Qeq in Hu. simpl in Hu. lia.
Qed.

(** *** Counting the rows of the assignment table *)

Lemma length_filter_flat_map A B (f : B -> bool) (g : A -> list B) l :
  List.length (filter f (flat_map g l)) =
  list_sum (map (fun a => List.length (filter f (g a))) l).
Proof.
  induction l as [| a l IH]; simpl; [reflexivity |].
  now rewrite filter_app, length_app, IH.
Qed.

Lemma flat_map_flat_map' A B C (g : B -> list C) (h : A -> list B) l :
  flat_map g (flat_map h l) = flat_map (fun a => flat_map g (h a)) l.
Proof.
  induction l as [| a l IH]; simpl; [reflexivity |].
  now rewrite flat_map_app, IH.
Qed.

Lemma list_sum_filter A (b : A -> bool) (m : A -> nat) l :
  list_sum (map (fun a => if b a then m a else 0%nat) l) =
  list_sum (map m (filter b l)).
Proof.
  induction l as [| a l IH]; simpl; [reflexivity |].
  destruct (b a); simpl; now rewrite IH.
Qed.

Lemma filter_length_le A (f g : A -> bool) l :
  (forall a, In a l -> f a = true -> g a = true) ->
  (List.length (filter f l) <= List.length (filter g l))%nat.
Proof.
  induction l as [| a l IH]; intros Himp; simpl; [lia |].
  assert (IH' := IH (fun a' Ha' => Himp a' (or_intror Ha'))).
  destruct (f a) eqn:Ef.
  - rewrite (Himp a (or_introl eq_refl) Ef). simpl. lia.
  - destruct (g a); simpl; lia.
Qed.

Lemma filas_merge_map r j (ms : list tecnico_row) :
  List.length
    (filter (fun a => (job_id (left a) =? j)%string)
            (map (fun m => {| left := r; right := Some m |}) ms)) =
  if (job_id r =? j)%string then List.length ms else 0%nat.
Proof.
  induction ms as [| m ms IH]; simpl.
  - now destruct (job_id r =? j)%string.
  - destruct (job_id r =? j)%string; simpl; now rewrite IH.
Qed.

Lemma filas_merge_job tecnicos r j :
  List.length (filter (fun a => (job_id (left a) =? j)%string)
                      (filas_merge tecnicos r)) =
  if (job_id r =? j)%string then copias tecnicos (tecnico_id r) else 0%nat.
Proof.
  unfold filas_merge, copias.
  destruct (filter _ (rows tecnicos)) as [| m ms] eqn:E.
  - simpl. now destruct (job_id r =? j)%string.
  - now rewrite filas_merge_map.
Qed.

Lemma filas_de_tecnico jobs tecnicos p v t j J :
  NoDup J -> In j J ->
  List.length
    (filter (fun a => (job_id (left a) =? j)%string)
       (flat_map (filas_merge tecnicos)
                 (map (fila jobs p t) (trabajos_de v J t)))) =
  if asignado v t j then copias tecnicos t else 0%nat.
Proof.
  intros Hnd Hj. rewrite length_filter_flat_map, map_map.
  unfold trabajos_de.
  induction J as [| j' J IH]; [contradiction |].
  inversion Hnd as [| ? ? Hnotin Hnd']; subst.
  assert (Hzero : ~ In j J ->
            list_sum (map (fun x => List.length
                             (filter (fun a => (job_id (left a) =? j)%string)
                                (filas_merge tecnicos (fila jobs p t x))))
                          (filter (asignado v t) J)) = 0%nat).
  { clear. intros Hni. induction J as [| a J IH]; [reflexivity |].
    simpl. destruct (asignado v t a); simpl.
    - rewrite filas_merge_job. simpl.
      destruct (a =? j)%string eqn:E.
      + apply String.eqb_eq in E. subst. exfalso. apply Hni. now left.
      + apply IH. intros Hin. apply Hni. now right.
    - apply IH. intros Hin. apply Hni. now right. }
  destruct Hj as [-> | Hj].
  - simpl. destruct (asignado v t j); simpl.
    + rewrite filas_merge_job. simpl. rewrite String.eqb_refl.
      rewrite (Hzero Hnotin). lia.
    + apply (Hzero Hnotin).
  - simpl. destruct (asignado v t j') eqn:E'; simpl.
    + rewrite filas_merge_job. simpl.
      destruct (j' =? j)%string eqn:E.
      * apply String.eqb_eq in E. subst. contradiction.
      * now apply IH.
    + now apply IH.
Qed.

Lemma copias_una tecnicos (b : ident -> bool) t0 :
  filter b (T_de tecnicos) = [t0] -> copias tecnicos t0 = 1%nat.
Proof.
  intros Hf. unfold copias.
  assert (Hb : b t0 = true /\ In t0 (T_de tecnicos)).
  { assert (Hin : In t0 (filter b (T_de tecnicos))) by (rewrite Hf; now left).
    apply filter_In in Hin. tauto. }
  assert (Hlen : List.length (filter (fun tr => (id_tecnico tr =? t0)%string)
                                     (rows tecnicos)) =
                 List.length (filter (fun t => (t =? t0)%string)
                                     (T_de tecnicos))).
  { unfold T_de. induction (rows tecnicos) as [| r l IH]; simpl; [reflexivity |].
    destruct (id_tecnico r =? t0)%string; simpl; now rewrite IH. }
  assert (Hle : (List.length (filter (fun t => (t =? t0)%string)
                                     (T_de tecnicos)) <= 1)%nat).
  { change 1%nat with (List.length [t0]). rewrite <- Hf.
    apply filter_length_le. intros a _ Ha. apply String.eqb_eq in Ha.
    subst. tauto. }
  rewrite Hlen.
  destruct (List.length (filter (fun t => (t =? t0)%string) (T_de tecnicos)))
    as [| [| n]]; try reflexivity. lia.
Qed.

(** In a feasible answer, each job of a table without repeated job ids
    makes exactly one row of the merged table. *)
Lemma una_fila_por_trabajo jobs tecnicos habilidades v j :
  NoDup (J_de jobs) ->
  lp_feasible (problema jobs tecnicos habilidades) v ->
  In j (J_de jobs) ->
  List.length (filter (fun a => (job_id (left a) =? j)%string)
                      (rows (resultados_df_de jobs tecnicos v))) = 1%nat.
Proof.
  intros Hnd Hfeas Hj. unfold resultados_df_de, resultados_de. cbn [rows].
  rewrite flat_map_flat_map', length_filter_flat_map.
  rewrite (map_ext _ (fun t => if asignado v t j
                               then copias tecnicos t else 0%nat)).
  2:{ intros t. apply filas_de_tecnico; assumption. }
  rewrite list_sum_filter.
  pose proof (un_tecnico _ _ _ _ _ _ j Hfeas Hj) as Hone.
  destruct (filter (fun t => asignado v t j) (T_de tecnicos))
    as [| t0 [| t1 l]] eqn:Hf; try discriminate.
  simpl. rewrite (copias_una tecnicos _ t0 Hf). reflexivity.
Qed.

(** *** The events of a run that read its tables *)

Lemma leidos_unico fs j t h j' t' h' :
  leidos fs j t h -> leidos fs j' t' h' -> j = j' /\ t = t' /\ h = h'.
Proof.
  intros (j0 & t0 & h0 & Hj & Ht & Hh & -> & -> & -> & _)
         (j1 & t1 & h1 & Hj' & Ht' & Hh' & -> & -> & -> & _).
  rewrite Hj in Hj'. rewrite Ht in Ht'. rewrite Hh in Hh'.
  injection Hj' as ->. injection Ht' as ->. injection Hh' as ->. auto.
Qed.

Lemma escritura_no_solve jobs tecnicos status v prob :
  ~ In (Solve prob) (escritura jobs tecnicos status v).
Proof.
  unfold escritura. cbn [app]. intros H.
  repeat (destruct H as [H | H]; [discriminate |]).
  apply in_app_or in H as [H | H].
  - apply in_map_iff in H as (t & Ht & _). discriminate.
  - repeat (destruct H as [H | H]; [discriminate |]). contradiction.
Qed.

Lemma main_solve fs solver jobs tecnicos habilidades prob :
  leidos fs jobs tecnicos habilidades ->
  In (Solve prob) (trace (main fs solver)) ->
  prob = problema jobs tecnicos habilidades /\
  pares_conocidos (J_de jobs) (T_de tecnicos) (q_of habilidades).
Proof.
  intros Hl Hin.
  destruct (main_evento _ _ _ Hin eq_refl)
    as (j & t & h & st & v & Hl' & Hq & _ & [Hev | [_ Hev]]).
  - destruct (leidos_unico _ _ _ _ _ _ _ Hl Hl') as (-> & -> & ->).
    injection Hev as ->. auto.
  - now apply escritura_no_solve in Hev.
Qed.

Lemma main_assignment fs solver jobs tecnicos habilidades status v df :
  leidos fs jobs tecnicos habilidades ->
  solver (problema jobs tecnicos habilidades) = (status, v) ->
  In (ToCsv_assignment df) (trace (main fs solver)) ->
  df = resultados_df_de jobs tecnicos v.
Proof.
  intros Hl Hs Hin.
  destruct (main_evento _ _ _ Hin eq_refl)
    as (j & t & h & st & v' & Hl' & Hq & Hs' & [Hev | [_ Hev]]);
    [discriminate |].
  destruct (leidos_unico _ _ _ _ _ _ _ Hl Hl') as (-> & -> & ->).
  rewrite Hs in Hs'. injection Hs' as <- <-.
  now apply escritura_assignment in Hev.
Qed.

Lemma main_cargas fs solver jobs tecnicos habilidades status v df :
  leidos fs jobs tecnicos habilidades ->
  solver (problema jobs tecnicos habilidades) = (status, v) ->
  In (ToCsv_cargas df) (trace (main fs solver)) ->
  df = cargas_de (p_of jobs) v (J_de jobs) (T_de tecnicos).
Proof.
  intros Hl Hs Hin.
  destruct (main_evento _ _ _ Hin eq_refl)
    as (j & t & h & st & v' & Hl' & Hq & Hs' & [Hev | [_ Hev]]);
    [discriminate |].
  destruct (leidos_unico _ _ _ _ _ _ _ Hl Hl') as (-> & -> & ->).
  rewrite Hs in Hs'. injection Hs' as <- <-.
  now apply escritura_cargas in Hev.
Qed.

(** The two tables are written as soon as one variable has value 1. *)
Lemma main_escribe fs solver jobs tecnicos habilidades status v :
  leidos fs jobs tecnicos habilidades ->
  pares_conocidos (J_de jobs) (T_de tecnicos) (q_of habilidades) ->
  solver (problema jobs tecnicos habilidades) = (status, v) ->
  resultados_de jobs (p_of jobs) v (J_de jobs) (T_de tecnicos) <> [] ->
  In (ToCsv_assignment (resultados_df_de jobs tecnicos v))
     (trace (main fs solver)) /\
  In (ToCsv_cargas (cargas_de (p_of jobs) v (J_de jobs) (T_de tecnicos)))
     (trace (main fs solver)) /\
  outcome (main fs solver) = inr tt.
Proof.
  intros Hl Hq Hs Hne.
  destruct (main_ok _ _ _ _ _ _ _ Hl Hq Hs) as [Htr Hout].
  rewrite Htr, Hout.
  destruct (resultados_de _ _ _ _ _); [contradiction |].
  repeat split; apply in_or_app; right; unfold escritura; simpl; tauto.
Qed.

Lemma resultados_no_vacios jobs tecnicos habilidades v :
  lp_feasible (problema jobs tecnicos habilidades) v ->
  J_de jobs <> [] ->
  resultados_de jobs (p_of jobs) v (J_de jobs) (T_de tecnicos) <> [].
Proof.
  intros Hfeas Hne. destruct (J_de jobs) as [| j J] eqn:EJ; [contradiction |].
  pose proof (un_tecnico _ _ _ _ _ _ j Hfeas) as Hone. rewrite EJ in Hone.
  specialize (Hone (or_introl eq_refl)).
  destruct (filter (fun t => asignado v t j) (T_de tecnicos))
    as [| t0 l] eqn:Hf; [discriminate |].
  assert (Ht0 : In t0 (filter (fun t => asignado v t j) (T_de tecnicos)))
    by (rewrite Hf; now left).
  apply filter_In in Ht0 as [Ht0 Has].
  intros Hnil.
  assert (Hin : In (fila jobs (p_of jobs) t0 j)
                   (resultados_de jobs (p_of jobs) v (j :: J) (T_de tecnicos))).
  { unfold resultados_de. apply in_flat_map. exists t0. split; [exact Ht0 |].
    apply in_map. unfold trabajos_de. apply filter_In. split; [now left | auto]. }
  rewrite Hnil in Hin. contradiction.
Qed.

Lemma lp_feasibleb_ok prob v :
  lp_feasibleb prob v = true -> lp_feasible prob v.
Proof.
  unfold lp_feasibleb, lp_feasible. rewrite andb_true_iff, !forallb_forall.
  intros [Hc Hd]. split; apply Forall_forall.
  - intros [n c] Hin. specialize (Hc _ Hin). unfold holdsb, holds in *.
    simpl in *. destruct (rel c).
    + now apply Qle_bool_iff.
    + now apply Qeq_bool_iff.
  - intros [x cat] Hin. specialize (Hd _ Hin). unfold in_domainb, in_domain in *.
    simpl in *. destruct cat.
    + apply orb_true_iff in Hd as [Hd | Hd]; apply Qeq_bool_iff in Hd; auto.
    + now apply Qle_bool_iff.
Qed.

Lemma filas_merge_left tecnicos r a :
  In a (filas_merge tecnicos r) -> left a = r.
Proof.
  unfold filas_merge. destruct (filter _ (rows tecnicos)) as [| m ms].
  - intros [<- | []]. reflexivity.
  - intros Hin. apply in_map_iff in Hin as (m' & <- & _). reflexivity.
Qed.

(** A row of the assignment table pairs a job of [J] with a technician
    of [T] whose variable has value 1. *)
Lemma fila_asignada jobs tecnicos v a :
  In a (rows (resultados_df_de jobs tecnicos v)) ->
  In (job_id (left a)) (J_de jobs) /\
  In (tecnico_id (left a)) (T_de tecnicos) /\
  asignado v (tecnico_id (left a)) (job_id (left a)) = true.
Proof.
  unfold resultados_df_de, resultados_de. cbn [rows]. intros Hin.
  apply in_flat_map in Hin as (r & Hr & Ha).
  apply filas_merge_left in Ha. subst r.
  apply in_flat_map in Hr as (t & Ht & Hr).
  apply in_map_iff in Hr as (j & Hfila & Hj).
  unfold trabajos_de in Hj. apply filter_In in Hj as [Hj Has].
  rewrite <- Hfila. simpl. auto.
Qed.

(** C3. In stage (a), for every feasible solved instance (job ids being
    unique, as the data model has them), the model posts
    [sum over t of x_jt = 1] for each job, and every job id appears in
    exactly one row of the assignment table that is written: no job is
    repeated, none is missing, and no row names an unknown job.  A table is
    written whenever there is at least one job.  A technician may have no
    row or several: in the run on [fs_dos] T1 has two rows and T2 none. *)
Theorem C3_un_trabajo_una_fila :
  (forall fs solver jobs tecnicos habilidades prob status v,
      leidos fs jobs tecnicos habilidades ->
      NoDup (J_de jobs) ->
      In (Solve prob) (trace (main fs solver)) ->
      solver prob = (status, v) ->
      lp_feasible prob v ->
      (forall j, In j (J_de jobs) ->
         In (Asignacion_Unica j,
             {| lhs := lpSum (map (fun t => (Var_x j t, 1%Q)) (T_de tecnicos));
                rel := LpConstraintEQ; rhs := of_num 1 |})
            (constraints prob)) /\
      (J_de jobs <> [] ->
         exists df, In (ToCsv_assignment df) (trace (main fs solver))) /\
      (forall df, In (ToCsv_assignment df) (trace (main fs solver)) ->
         (forall j, In j (J_de jobs) ->
            List.length (filter (fun a => (job_id (left a) =? j)%string)
                                (rows df)) = 1%nat) /\
         (forall a, In a (rows df) -> In (job_id (left a)) (J_de jobs)))) /\
  (exists prob df,
      In (Solve prob) (trace (main Ejemplos.fs_dos Ejemplos.solver_dos)) /\
      lp_feasible prob Ejemplos.v_dos /\
      In (ToCsv_assignment df)
         (trace (main Ejemplos.fs_dos Ejemplos.solver_dos)) /\
      List.length (filter (fun a => (tecnico_id (left a) =? "T1")%string)
                          (rows df)) = 2%nat /\
      List.length (filter (fun a => (tecnico_id (left a) =? "T2")%string)
                          (rows df)) = 0%nat).
Proof.
  split.
  - intros fs solver jobs tecnicos habilidades prob status v
           Hl Hnd Hsolve Hs Hfeas.
    destruct (main_solve _ _ _ _ _ _ Hl Hsolve) as [-> Hq].
    split; [| split].
    + intros j Hj. unfold problema, modelo_de. cbn [constraints].
      apply in_or_app. left.
      now apply (in_map (asignacion_unica (T_de tecnicos))) in Hj.
    + intros Hne. eexists.
      apply (main_escribe _ _ _ _ _ _ _ Hl Hq Hs).
      now apply (resultados_no_vacios jobs tecnicos habilidades).
    + intros df Hdf.
      rewrite (main_assignment _ _ _ _ _ _ _ _ Hl Hs Hdf). split.
      * intros j Hj. now apply (una_fila_por_trabajo jobs tecnicos habilidades).
      * intros a Ha. now apply fila_asignada in Ha.
  - eexists _, _. split; [| split; [| split; [| split]]].
    + vm_compute. do 5 right. left. reflexivity.
    + apply lp_feasibleb_ok. vm_compute. reflexivity.
    + vm_compute. do 10 right. left. reflexivity.
    + vm_compute. reflexivity.
    + vm_compute. reflexivity.
Qed.

Lemma leidos_dos :
  leidos Ejemplos.fs_dos Ejemplos.jobs_dos' Ejemplos.tecnicos_dos'
         Ejemplos.habilidades_dos'.
Proof.
  exists Ejemplos.jobs_dos, Ejemplos.tecnicos_dos, Ejemplos.habilidades_dos.
  repeat split; try reflexivity;
    intros c Hc; simpl in Hc;
    repeat (destruct Hc as [<- | Hc]; [reflexivity |]); contradiction.
Qed.

Lemma C3_witness :
  (leidos Ejemplos.fs_dos Ejemplos.jobs_dos' Ejemplos.tecnicos_dos'
          Ejemplos.habilidades_dos' /\
   NoDup (J_de Ejemplos.jobs_dos') /\
   In (Solve Ejemplos.prob_dos)
      (trace (main Ejemplos.fs_dos Ejemplos.solver_dos)) /\
   Ejemplos.solver_dos Ejemplos.prob_dos = (Optimal, Ejemplos.v_dos) /\
   lp_feasible Ejemplos.prob_dos Ejemplos.v_dos) /\
  forall df,
    In (ToCsv_assignment df)
       (trace (main Ejemplos.fs_dos Ejemplos.solver_dos)) ->
    (forall j, In j (J_de Ejemplos.jobs_dos') ->
       List.length (filter (fun a => (job_id (left a) =? j)%string)
                           (rows df)) = 1%nat) /\
    (forall a, In a (rows df) -> In (job_id (left a)) (J_de Ejemplos.jobs_dos')).
Proof.
  assert (Hnd : NoDup (J_de Ejemplos.jobs_dos')).
  { repeat constructor; simpl; intuition discriminate. }
  assert (Hsolve : In (Solve Ejemplos.prob_dos)
                      (trace (main Ejemplos.fs_dos Ejemplos.solver_dos))).
  { vm_compute. do 5 right. left. reflexivity. }
  assert (Hs : Ejemplos.solver_dos Ejemplos.prob_dos
               = (Optimal, Ejemplos.v_dos)) by reflexivity.
  assert (Hfeas : lp_feasible Ejemplos.prob_dos Ejemplos.v_dos).
  { apply lp_feasibleb_ok. vm_compute. reflexivity. }
  split; [auto using leidos_dos |].
  apply (proj1 C3_un_trabajo_una_fila Ejemplos.fs_dos Ejemplos.solver_dos
               Ejemplos.jobs_dos' Ejemplos.tecnicos_dos'
               Ejemplos.habilidades_dos' Ejemplos.prob_dos
               Optimal Ejemplos.v_dos leidos_dos Hnd Hsolve Hs Hfeas).
Defined.

(** *** Loads *)

Lemma p_of_fila jobs r :
  NoDup (J_de jobs) -> In r (rows jobs) ->
  dict_get_default (p_of jobs) (id_job r) = duracion_horas r.
Proof.
  intros Hnd Hin. unfold dict_get_default, p_of.
  rewrite (dict_of_get _ _ _ String.eqb String.eqb_eq).
  now rewrite (ultima_NoDup _ _ String.eqb String.eqb_eq id_job _ _ Hnd Hin).
Qed.

Lemma H_of_fila tecnicos r :
  NoDup (T_de tecnicos) -> In r (rows tecnicos) ->
  dict_get_default (H_of tecnicos) (id_tecnico r)
  = (capacidad_diaria_h r * 7)%Q.
Proof.
  intros Hnd Hin. unfold dict_get_default, H_of.
  rewrite (dict_of_get _ _ _ String.eqb String.eqb_eq).
  now rewrite (ultima_NoDup _ _ String.eqb String.eqb_eq id_tecnico _ _ Hnd Hin).
Qed.

(** The durations of the jobs of [t], read from the rows of the table. *)
Lemma duraciones_filas jobs v t :
  NoDup (J_de jobs) ->
  map (dict_get_default (p_of jobs)) (trabajos_de v (J_de jobs) t) =
  map duracion_horas
      (filter (fun r => asignado v t (id_job r)) (rows jobs)).
Proof.
  intros Hnd. unfold trabajos_de, J_de.
  assert (Hp : forall r, In r (rows jobs) ->
                 dict_get_default (p_of jobs) (id_job r) = duracion_horas r)
    by (intros r Hr; now apply p_of_fila).
  induction (rows jobs) as [| r l IH]; [reflexivity |].
  simpl. destruct (asignado v t (id_job r)); simpl.
  - rewrite (Hp r (or_introl eq_refl)). f_equal.
    apply IH. intros r' Hr'. apply Hp. now right.
  - apply IH. intros r' Hr'. apply Hp. now right.
Qed.

Lemma cargas_de_get p v J T t :
  In t T ->
  dict_get String.eqb (cargas_de p v J T) t = Some (carga_de p v J t).
Proof.
  intros Ht. unfold cargas_de.
  rewrite (dict_of_get _ _ _ String.eqb String.eqb_eq).
  destruct (ultima_In _ _ String.eqb String.eqb_eq (fun t => t) _ _ Ht)
    as [t' Ht'].
  rewrite Ht'. apply (ultima_Some _ _ String.eqb String.eqb_eq) in Ht' as [_ ->].
  reflexivity.
Qed.


Lemma carga_de_suma p v J t :
  (carga_de p v J t
   == suma (map (dict_get_default p) (trabajos_de v J t)))%Q.
Proof. unfold carga_de. rewrite fold_left_Qplus. lra. Qed.

Lemma hasta_resolver_L fs solver jobs tecnicos habilidades status v :
  leidos fs jobs tecnicos habilidades ->
  pares_conocidos (J_de jobs) (T_de tecnicos) (q_of habilidades) ->
  solver (problema jobs tecnicos habilidades) = (status, v) ->
  In (Print (MsgStatus (LpStatus_name status))) (trace (main fs solver)) /\
  In (Print (MsgCargaMaxima (v Var_L))) (trace (main fs solver)).
Proof.
  intros Hl Hq Hs. destruct (main_ok _ _ _ _ _ _ _ Hl Hq Hs) as [-> _].
  split; apply in_or_app; left; unfold hasta_resolver; simpl; tauto.
Qed.

(** C4. In stage (a), for every feasible solved instance (job and
    technician ids being unique) and every technician, the sum of the
    durations of the jobs assigned to the technician (those whose variable
    has value 1) is at most [capacidad_diaria_h * 7] and at most the value
    of [L], which the run reports as the objective; that sum is the load
    the run records for the technician. *)
Theorem C4_carga_acotada :
  forall fs solver jobs tecnicos habilidades prob status v,
    leidos fs jobs tecnicos habilidades ->
    NoDup (J_de jobs) -> NoDup (T_de tecnicos) ->
    In (Solve prob) (trace (main fs solver)) ->
    solver prob = (status, v) ->
    lp_feasible prob v ->
    In (Print (MsgCargaMaxima (v Var_L))) (trace (main fs solver)) /\
    forall r, In r (rows tecnicos) ->
      let carga :=
        suma (map duracion_horas
                (filter (fun jr => asignado v (id_tecnico r) (id_job jr))
                        (rows jobs))) in
      (carga <= capacidad_diaria_h r * 7)%Q /\
      (carga <= v Var_L)%Q /\
      forall cargas, In (ToCsv_cargas cargas) (trace (main fs solver)) ->
        exists c, In (id_tecnico r, c) cargas /\ (c == carga)%Q.
Proof.
  intros fs solver jobs tecnicos habilidades prob status v
         Hl HndJ HndT Hsolve Hs Hfeas.
  destruct (main_solve _ _ _ _ _ _ Hl Hsolve) as [-> Hq].
  split; [now apply (hasta_resolver_L _ _ _ _ _ _ _ Hl Hq Hs) |].
  intros r Hr carga.
  assert (Ht : In (id_tecnico r) (T_de tecnicos)) by now apply in_map.
  assert (Hbin : forall j, In j (J_de jobs) ->
            (v (Var_x j (id_tecnico r)) == 0 \/ v (Var_x j (id_tecnico r)) == 1)%Q).
  { intros j Hj. now apply (factible_binaria _ _ _ _ _ _ Hfeas). }
  assert (Hcarga : (carga_de (p_of jobs) v (J_de jobs) (id_tecnico r)
                    == carga)%Q).
  { rewrite carga_de_suma. unfold carga.
    now rewrite duraciones_filas. }
  pose proof (carga_de_valor v (id_tecnico r) (p_of jobs) _ Hbin) as Hval.
  pose proof (factible_capacidad _ _ _ _ _ _ Hfeas _ Ht) as Hcap.
  pose proof (factible_balance _ _ _ _ _ _ Hfeas _ Ht) as Hbal.
  rewrite (H_of_fila _ _ HndT Hr) in Hcap.
  split; [| split].
  - rewrite <- Hcarga, Hval. exact Hcap.
  - rewrite <- Hcarga, Hval. exact Hbal.
  - intros cargas Hc.
    rewrite (main_cargas _ _ _ _ _ _ _ _ Hl Hs Hc).
    exists (carga_de (p_of jobs) v (J_de jobs) (id_tecnico r)).
    split; [| exact Hcarga].
    apply (dict_get_In _ _ String.eqb String.eqb_eq).
    now apply cargas_de_get.
Qed.

Lemma C4_witness :
  (leidos Ejemplos.fs_dos Ejemplos.jobs_dos' Ejemplos.tecnicos_dos'
          Ejemplos.habilidades_dos' /\
   NoDup (J_de Ejemplos.jobs_dos') /\ NoDup (T_de Ejemplos.tecnicos_dos') /\
   In (Solve Ejemplos.prob_dos)
      (trace (main Ejemplos.fs_dos Ejemplos.solver_dos)) /\
   Ejemplos.solver_dos Ejemplos.prob_dos = (Optimal, Ejemplos.v_dos) /\
   lp_feasible Ejemplos.prob_dos Ejemplos.v_dos) /\
  forall r, In r (rows Ejemplos.tecnicos_dos') ->
    (suma (map duracion_horas
             (filter (fun jr => asignado Ejemplos.v_dos (id_tecnico r) (id_job jr))
                     (rows Ejemplos.jobs_dos')))
     <= capacidad_diaria_h r * 7)%Q.
Proof.
  assert (HndJ : NoDup (J_de Ejemplos.jobs_dos')).
  { repeat constructor; simpl; intuition discriminate. }
  assert (HndT : NoDup (T_de Ejemplos.tecnicos_dos')).
  { repeat constructor; simpl; intuition discriminate. }
  assert (Hsolve : In (Solve Ejemplos.prob_dos)
                      (trace (main Ejemplos.fs_dos Ejemplos.solver_dos))).
  { vm_compute. do 5 right. left. reflexivity. }
  assert (Hs : Ejemplos.solver_dos Ejemplos.prob_dos
               = (Optimal, Ejemplos.v_dos)) by reflexivity.
  assert (Hfeas : lp_feasible Ejemplos.prob_dos Ejemplos.v_dos).
  { apply lp_feasibleb_ok. vm_compute. reflexivity. }
  split; [auto 10 using leidos_dos |].
  intros r Hr.
  exact (proj1 (proj2 (C4_carga_acotada Ejemplos.fs_dos Ejemplos.solver_dos
               Ejemplos.jobs_dos' Ejemplos.tecnicos_dos'
               Ejemplos.habilidades_dos' Ejemplos.prob_dos
               Optimal Ejemplos.v_dos leidos_dos HndJ HndT Hsolve Hs Hfeas)
               r Hr)).
Defined.




(** *** Compatibility *)

(** For a pair that the compatibility table lists, the bound
    [x_jt <= q_jt] is in the model, and a row of the assignment table
    for that pair means [q_jt >= 1]: [q_jt = 1] for a 0/1 flag. *)
Lemma par_listado_compatible fs solver jobs tecnicos habilidades prob status v :
  leidos fs jobs tecnicos habilidades ->
  In (Solve prob) (trace (main fs solver)) ->
  solver prob = (status, v) ->
  lp_feasible prob v ->
  forall df a c,
    In (ToCsv_assignment df) (trace (main fs solver)) ->
    In a (rows df) ->
    dict_get pair_eqb (q_of habilidades)
             (job_id (left a), tecnico_id (left a)) = Some c ->
    (1 <= c)%Q /\ ((c == 0 \/ c == 1)%Q -> (c == 1)%Q).
Proof.
  intros Hl Hsolve Hs Hfeas df a c Hdf Ha Hq.
  destruct (main_solve _ _ _ _ _ _ Hl Hsolve) as [-> _].
  rewrite (main_assignment _ _ _ _ _ _ _ _ Hl Hs Hdf) in Ha.
  apply fila_asignada in Ha as (_ & _ & Has).
  apply asignado_true in Has.
  apply (dict_get_In _ _ pair_eqb pair_eqb_spec) in Hq.
  pose proof (factible_compatibilidad _ _ _ _ _ _ Hfeas _ _ _ Hq) as Hle.
  rewrite Has in Hle. split; [exact Hle |].
  intros [H0 | H1]; [rewrite H0 in Hle; lra | exact H1].
Qed.

Lemma leidos_uno :
  leidos Ejemplos.fs_uno Ejemplos.jobs_uno' Ejemplos.tecnicos_dos'
         Ejemplos.habilidades_uno'.
Proof.
  exists Ejemplos.jobs_uno, Ejemplos.tecnicos_dos, Ejemplos.habilidades_uno.
  repeat split; try reflexivity;
    intros c Hc; simpl in Hc;
    repeat (destruct Hc as [<- | Hc]; [reflexivity |]); contradiction.
Qed.

(** C1, at a sparse compatibility table.  The table of [fs_uno] lists the
    pair (J1, T1) with flag 0 and does not list the pair (J1, T2).  The
    model has no compatibility constraint for (J1, T2), every feasible
    answer gives J1 to T2, and the assignment table written has the single
    row (J1, T2). *)
Theorem C1_par_ausente_sin_restriccion :
  dict_get pair_eqb (q_of Ejemplos.habilidades_uno') ("J1", "T2") = None /\
  (forall c, ~ In (Compatibilidad "J1" "T2", c)
                  (constraints Ejemplos.prob_uno)) /\
  lp_feasible Ejemplos.prob_uno Ejemplos.v_uno /\
  (forall solver status v,
      solver Ejemplos.prob_uno = (status, v) ->
      lp_feasible Ejemplos.prob_uno v ->
      exists df,
        In (ToCsv_assignment df) (trace (main Ejemplos.fs_uno solver)) /\
        map (fun a => (job_id (left a), tecnico_id (left a))) (rows df)
        = [("J1", "T2")]).
Proof.
  split; [reflexivity |]. split; [| split].
  - intros c Hin. vm_compute in Hin.
    repeat (destruct Hin as [Hin | Hin]; [discriminate |]). contradiction.
  - apply lp_feasibleb_ok. vm_compute. reflexivity.
  - intros solver status v Hs Hfeas.
    assert (Hq : pares_conocidos (J_de Ejemplos.jobs_uno')
                   (T_de Ejemplos.tecnicos_dos')
                   (q_of Ejemplos.habilidades_uno')).
    { repeat constructor. }
    assert (H11 : asignado v "T1" "J1" = false).
    { destruct (asignado v "T1" "J1") eqn:E; [| reflexivity].
      apply asignado_true in E.
      assert (Hle : (v (Var_x "J1" "T1") <= 0)%Q).
      { apply (factible_compatibilidad _ _ _ _ _ _ Hfeas). simpl. tauto. }
      rewrite E in Hle. lra. }
    assert (H12 : asignado v "T2" "J1" = true).
    { apply asignado_true.
      assert (H0 : (v (Var_x "J1" "T1") == 0)%Q).
      { apply asignado_false; [| exact H11].
        apply (factible_binaria _ _ _ _ _ _ Hfeas); simpl; tauto. }
      assert (Hu := factible_unica _ _ _ _ _ _ Hfeas "J1" (or_introl eq_refl)).
      unfold value in Hu. simpl in Hu. rewrite H0 in Hu. lra. }
    exists (resultados_df_de Ejemplos.jobs_uno' Ejemplos.tecnicos_dos' v).
    assert (Hres : resultados_de Ejemplos.jobs_uno' (p_of Ejemplos.jobs_uno') v
                     (J_de Ejemplos.jobs_uno') (T_de Ejemplos.tecnicos_dos')
                   = [fila Ejemplos.jobs_uno' (p_of Ejemplos.jobs_uno')
                           "T2" "J1"]).
    { unfold resultados_de, trabajos_de. simpl. now rewrite H11, H12. }
    split.
    + apply (main_escribe _ _ _ _ _ _ _ leidos_uno Hq Hs).
      rewrite Hres. discriminate.
    + unfold resultados_df_de. cbn [rows]. rewrite Hres. reflexivity.
Qed.

Lemma C1_witness :
  (Ejemplos.solver_uno Ejemplos.prob_uno = (Optimal, Ejemplos.v_uno) /\
   lp_feasible Ejemplos.prob_uno Ejemplos.v_uno) /\
  exists df,
    In (ToCsv_assignment df)
       (trace (main Ejemplos.fs_uno Ejemplos.solver_uno)) /\
    map (fun a => (job_id (left a), tecnico_id (left a))) (rows df)
    = [("J1", "T2")].
Proof.
  assert (Hfeas : lp_feasible Ejemplos.prob_uno Ejemplos.v_uno).
  { apply lp_feasibleb_ok. vm_compute. reflexivity. }
  split; [split; [reflexivity | exact Hfeas] |].
  exact (proj2 (proj2 (proj2 C1_par_ausente_sin_restriccion))
               Ejemplos.solver_uno Optimal Ejemplos.v_uno eq_refl Hfeas).
Defined.

(** *** Input errors *)

(** A missing file or a missing required column ends the run with an
    exception before the solver is called: only messages were printed. *)
Lemma entrada_invalida fs solver :
  (forall jobs tecnicos habilidades,
      ~ leidos fs jobs tecnicos habilidades) ->
  forallb es_mensaje (trace (main fs solver)) = true /\
  exists e, outcome (main fs solver) = inl e.
Proof.
  intros Hno. destruct (main_cases fs solver)
    as [(jobs & tecnicos & habilidades & Hl & _) | Hbad]; [| exact Hbad].
  exfalso. exact (Hno _ _ _ Hl).
Qed.

Lemma archivo_ausente fs jobs tecnicos habilidades :
  jobs_csv fs = None \/ tecnicos_csv fs = None \/ habilidades_csv fs = None ->
  ~ leidos fs jobs tecnicos habilidades.
Proof.
  intros Hnone (j0 & t0 & h0 & Hj & Ht & Hh & _).
  destruct Hnone as [H | [H | H]]; congruence.
Qed.

Lemma columna_ausente fs j0 t0 h0 jobs tecnicos habilidades :
  jobs_csv fs = Some j0 -> tecnicos_csv fs = Some t0 ->
  habilidades_csv fs = Some h0 ->
  (exists c, In c ["id_job"; "duracion_horas"; "skill_requerida"] /\
             has_column (rename strip j0) c = false) \/
  (exists c, In c ["id_tecnico"; "capacidad_diaria_h"] /\
             has_column (rename normalizar_tecnico (rename strip t0)) c = false)
  \/
  (exists c, In c ["id_job"; "id_tecnico"; "compatible"] /\
             has_column (rename strip h0) c = false) ->
  ~ leidos fs jobs tecnicos habilidades.
Proof.
  intros Hj Ht Hh Hmiss
         (j1 & t1 & h1 & Hj' & Ht' & Hh' & -> & -> & -> & Hcj & Hct & Hch).
  rewrite Hj in Hj'. rewrite Ht in Ht'. rewrite Hh in Hh'.
  injection Hj' as <-. injection Ht' as <-. injection Hh' as <-.
  destruct Hmiss as [(c & Hc & Hf) | [(c & Hc & Hf) | (c & Hc & Hf)]].
  - rewrite (Hcj c Hc) in Hf. discriminate.
  - rewrite (Hct c Hc) in Hf. discriminate.
  - rewrite (Hch c Hc) in Hf. discriminate.
Qed.

End AssignmentFacts.

(** ** Stage (b) *)
Module ScheduleFacts.
Import Schedule ScheduleSpec.

Lemma getitem_cases R A (df : DataFrame R) c (f : R -> A) r :
  (has_column df c = true /\ @getitem event R A df c f r = ([], inr (f r))) \/
  (has_column df c = false /\
   @getitem event R A df c f r = ([], inl (KeyError c))).
Proof. unfold getitem. destruct (has_column df c); auto. Qed.

Lemma getitem_ok R A (df : DataFrame R) c (f : R -> A) r :
  has_column df c = true -> @getitem event R A df c f r = ([], inr (f r)).
Proof. unfold getitem. now intros ->. Qed.

Lemma getitem_inr R A (df : DataFrame R) c (f : R -> A) r tr x :
  @getitem event R A df c f r = (tr, inr x) ->
  has_column df c = true /\ tr = [] /\ x = f r.
Proof.
  unfold getitem. destruct (has_column df c); [| discriminate].
  intros [= <- <-]. auto.
Qed.


Lemma ultima_snoc K R (eqb : K -> K -> bool) (key : R -> K) l a k :
  ultima eqb key (l ++ [a]) k =
  if eqb (key a) k then Some a else ultima eqb key l k.
Proof. unfold ultima. now rewrite rev_unit. Qed.

Lemma diagnosticos_app tr1 tr2 :
  diagnosticos (tr1 ++ tr2) = diagnosticos tr1 ++ diagnosticos tr2.
Proof. apply flat_map_app. Qed.

(** *** Lines 58-77: the variables of the jobs *)


Lemma crear_variables_inr jobs st k row tr st' :
  crear_variables jobs st (k, row) = (tr, inr st') ->
  has_column jobs "id_job" = true /\
  tr = (if (k <? 5)%nat
        then [Print (MsgCreandoVariables (id_job row) (duracion_de row))]
        else []) /\
  let s := List.length (domains (model st)) in
  st' = {| model :=
             {| domains := domains (model st)
                           ++ [(0, HORIZONTE_MINUTOS)]
                           ++ [(0, HORIZONTE_MINUTOS)];
                cp_constraints := cp_constraints (model st)
                                  ++ [Interval (intervalo s row (S s))];
                minimize := minimize (model st) |};
           start_vars := dict_set String.eqb (start_vars st) (id_job row) s;
           end_vars := dict_set String.eqb (end_vars st) (id_job row) (S s);
           interval_vars := dict_set String.eqb (interval_vars st) (id_job row)
                                     (intervalo s row (S s)) |}.
Proof.
  unfold crear_variables. intros Hrun.
  apply bind_inr in Hrun as (tr1 & job_id & tr2 & Hget & Hrun & ->).
  apply getitem_inr in Hget as (Hcol & -> & ->).
  split; [exact Hcol |].
  apply bind_inr in Hrun as (tr3 & u & tr4 & Hdebug & Hrun & ->).
  unfold NewIntVar, NewIntervalVar, Add in Hrun. cbn in Hrun.
  injection Hrun as <- <-.
  split.
  - destruct (k <? 5)%nat; cbn in Hdebug; injection Hdebug as <-;
      now rewrite app_nil_r.
  - cbn. rewrite <- app_assoc, length_app, Nat.add_1_r. reflexivity.
Qed.

Lemma crear_variables_paso jobs pre tr0 st k row tr st' :
  variables_creadas pre tr0 st ->
  crear_variables jobs st (k, row) = (tr, inr st') ->
  variables_creadas (pre ++ [(k, row)]) (tr0 ++ tr) st'.
Proof.
  intros [Hdom Hint [Hmsg Hdiag] Hvars] Hrun.
  apply crear_variables_inr in Hrun as (_ & -> & ->). cbn zeta.
  constructor; cbn [model domains cp_constraints start_vars end_vars
                    interval_vars].
  - apply Forall_app. split; [exact Hdom |]. repeat constructor.
  - apply Forall_app. split; [exact Hint |]. repeat constructor. eauto.
  - rewrite forallb_app, diagnosticos_app, Hmsg, Hdiag.
    destruct (k <? 5)%nat; auto.
  - intros j. rewrite map_app. cbn [map snd]. rewrite ultima_snoc.
    rewrite !length_app. cbn [List.length].
    destruct (id_job row =? j)%string eqn:E.
    + apply String.eqb_eq in E. subst j.
      exists (List.length (domains (model st))),
             (S (List.length (domains (model st)))).
      rewrite !(dict_get_set_eq _ _ String.eqb String.eqb_eq).
      repeat split; try lia. apply in_or_app. right. now left.
    + assert (Hne : id_job row <> j)
        by (intros Heq; rewrite Heq, String.eqb_refl in E; discriminate).
      specialize (Hvars j).
      rewrite !(dict_get_set_neq _ _ String.eqb String.eqb_eq) by exact Hne.
      destruct (ultima String.eqb id_job (map snd pre) j) as [r |].
      * destruct Hvars as (s & e & Hs & He & Hi & Hls & Hle & Hin).
        exists s, e. repeat split; auto; try lia.
        apply in_or_app. now left.
      * exact Hvars.
Qed.

Lemma variables_creadas_ok jobs l tr st :
  for_each l (crear_variables jobs) estado_inicial = (tr, inr st) ->
  variables_creadas l tr st.
Proof.
  intros Hrun.
  apply (for_each_inv _ _ _ variables_creadas (crear_variables jobs)
                      l estado_inicial tr st); [| | exact Hrun].
  - constructor; cbn; auto.
  - intros pre [k row] tr0 s1 tr1 s2 _ HP Hb.
    now apply (crear_variables_paso jobs pre tr0 s1 k row tr1 s2).
Qed.


(** *** Lines 100-115: the jobs of each technician *)


Lemma agrupar_inr asignaciones ivs g a tr g' :
  agrupar asignaciones ivs g a = (tr, inr g') ->
  has_column asignaciones (columna_tecnico_de asignaciones) = true /\
  has_column asignaciones (columna_job_de asignaciones) = true /\
  match dict_get String.eqb ivs (job_de asignaciones a) with
  | Some iv =>
      tr = [] /\
      g' = {| jobs_por_tecnico :=
                dict_set String.eqb (jobs_por_tecnico g)
                  (tecnico_de asignaciones a)
                  (match dict_get String.eqb (jobs_por_tecnico g)
                                  (tecnico_de asignaciones a) with
                   | Some l => l
                   | None => []
                   end ++ [iv]);
              jobs_procesados := S (jobs_procesados g);
              jobs_omitidos := jobs_omitidos g |}
  | None =>
      tr = [Print (MsgJobNoEncontrado (job_de asignaciones a))] /\
      g' = {| jobs_por_tecnico := jobs_por_tecnico g;
              jobs_procesados := jobs_procesados g;
              jobs_omitidos := S (jobs_omitidos g) |}
  end.
Proof.
  unfold agrupar, job_de, tecnico_de. intros Hrun.
  apply bind_inr in Hrun as (tr1 & t & tr2 & Hget & Hrun & ->).
  apply getitem_inr in Hget as (Hct & -> & ->).
  apply bind_inr in Hrun as (tr3 & j & tr4 & Hget & Hrun & ->).
  apply getitem_inr in Hget as (Hcj & -> & ->).
  split; [exact Hct |]. split; [exact Hcj |].
  destruct (dict_get String.eqb ivs (a (columna_job_de asignaciones)))
    as [iv |]; cbn in Hrun; injection Hrun as <- <-; auto.
Qed.

Lemma app_no_nil A (l : list A) x :
  match l ++ [x] with [] => None | l' => Some l' end = Some (l ++ [x]).
Proof. now destruct l. Qed.

Lemma agrupar_paso asignaciones ivs pre tr0 g a tr g' :
  agrupados asignaciones ivs pre tr0 g ->
  agrupar asignaciones ivs g a = (tr, inr g') ->
  agrupados asignaciones ivs (pre ++ [a]) (tr0 ++ tr) g'.
Proof.
  intros [Hlista Hmsg Homit Htot Hnd] Hrun.
  apply agrupar_inr in Hrun as (_ & _ & Hrun).
  assert (Hne_iv : forall t,
             intervalos_de asignaciones ivs t (pre ++ [a]) =
             intervalos_de asignaciones ivs t pre ++
             (if (tecnico_de asignaciones a =? t)%string
              then match dict_get String.eqb ivs (job_de asignaciones a) with
                   | Some iv => [iv]
                   | None => []
                   end
              else [])).
  { intros t. unfold intervalos_de. rewrite flat_map_app. cbn.
    now rewrite app_nil_r. }
  assert (Hne_no : no_encontrados asignaciones ivs (pre ++ [a]) =
                   no_encontrados asignaciones ivs pre ++
                   match dict_get String.eqb ivs (job_de asignaciones a) with
                   | Some _ => []
                   | None => [job_de asignaciones a]
                   end).
  { unfold no_encontrados. rewrite flat_map_app. cbn. now rewrite app_nil_r. }
  destruct (dict_get String.eqb ivs (job_de asignaciones a)) as [iv |] eqn:E;
    destruct Hrun as [-> ->]; constructor; cbn [jobs_por_tecnico
      jobs_procesados jobs_omitidos].
  - intros t. rewrite Hne_iv.
    destruct (tecnico_de asignaciones a =? t)%string eqn:Et.
    + apply String.eqb_eq in Et. subst t.
      rewrite (dict_get_set_eq _ _ String.eqb String.eqb_eq).
      rewrite (Hlista (tecnico_de asignaciones a)).
      destruct (intervalos_de asignaciones ivs (tecnico_de asignaciones a) pre)
        as [| i l]; [reflexivity |]. now rewrite app_no_nil.
    + rewrite (dict_get_set_neq _ _ String.eqb String.eqb_eq).
      * rewrite app_nil_r. apply Hlista.
      * intros Heq. rewrite Heq, String.eqb_refl in Et. discriminate.
  - rewrite Hne_no, !app_nil_r. exact Hmsg.
  - rewrite Hne_no, app_nil_r. exact Homit.
  - rewrite length_app. cbn. lia.
  - apply dict_keys_set_NoDup; [exact String.eqb_eq | exact Hnd].
  - intros t. rewrite Hne_iv.
    destruct (tecnico_de asignaciones a =? t)%string; rewrite app_nil_r;
      apply Hlista.
  - rewrite Hne_no, map_app. cbn. now rewrite Hmsg.
  - rewrite Hne_no, length_app. cbn. lia.
  - rewrite length_app. cbn. lia.
  - exact Hnd.
Qed.

Lemma agrupados_ok asignaciones ivs l tr g :
  for_each l (agrupar asignaciones ivs)
    {| jobs_por_tecnico := []; jobs_procesados := 0; jobs_omitidos := 0 |}
  = (tr, inr g) ->
  agrupados asignaciones ivs l tr g.
Proof.
  intros Hrun.
  apply (for_each_inv _ _ _ (agrupados asignaciones ivs)
           (agrupar asignaciones ivs) l
           {| jobs_por_tecnico := []; jobs_procesados := 0;
              jobs_omitidos := 0 |} tr g); [| | exact Hrun].
  - constructor; cbn; auto. constructor.
  - intros pre a tr0 s1 tr1 s2 _ HP Hb.
    now apply (agrupar_paso asignaciones ivs pre tr0 s1 a tr1 s2).
Qed.

(** *** Lines 118-121 and 127-135: no-overlap and deadline constraints *)

Lemma agregar_agregar m cs1 cs2 :
  agregar (agregar m cs1) cs2 = agregar m (cs1 ++ cs2).
Proof. unfold agregar. cbn. now rewrite app_assoc. Qed.

Lemma agregar_nil m : agregar m [] = m.
Proof. unfold agregar. rewrite app_nil_r. now destruct m. Qed.

Lemma sin_solape_ok d :
  forall m, exists tr,
    for_each d sin_solape m = (tr, inr (agregar m (sin_solapes d))) /\
    forallb es_mensaje tr = true /\ diagnosticos tr = [].
Proof.
  induction d as [| [t l] d IH]; intros m.
  - exists []. cbn. now rewrite agregar_nil.
  - cbn [for_each]. unfold sin_solape at 1. cbn [snd fst].
    destruct l as [| i l].
    + destruct (IH m) as (tr & Hrun & Hmsg & Hdiag). exists tr.
      cbn. rewrite Hrun. auto.
    + destruct (IH (Add m (NoOverlap (i :: l)))) as (tr & Hrun & Hmsg & Hdiag).
      exists (Print (MsgTecnico t (List.length (i :: l))) :: tr).
      cbn. rewrite Hrun. cbn. repeat split; auto.
      f_equal. f_equal. unfold sin_solapes. cbn.
      change (Add m (NoOverlap (i :: l)))
        with (agregar m [NoOverlap (i :: l)]).
      now rewrite agregar_agregar.
Qed.

Lemma limitar_inicio_inr jobs ahora sv m k job tr m' :
  limitar_inicio jobs ahora sv m (k, job) = (tr, inr m') ->
  has_column jobs "deadline" = true /\
  tr = [] /\ m' = agregar m (cotas ahora sv [(k, job)]).
Proof.
  unfold limitar_inicio. intros Hrun.
  apply bind_inr in Hrun as (tr1 & j & tr2 & Hget & Hrun & ->).
  apply getitem_inr in Hget as (_ & -> & ->).
  apply bind_inr in Hrun as (tr3 & dl & tr4 & Hget & Hrun & ->).
  apply getitem_inr in Hget as (Hcol & -> & ->).
  split; [exact Hcol |].
  unfold cotas, dias_de, max_start_de. cbn [flat_map fst snd].
  destruct (0 <=? dias_restantes (deadline job) (ahora k)).
  - unfold item, subscript in Hrun.
    destruct (dict_get String.eqb sv (id_job job)) as [s |];
      cbn in Hrun; [| discriminate].
    injection Hrun as <- <-. now rewrite app_nil_r.
  - cbn in Hrun. injection Hrun as <- <-. now rewrite agregar_nil.
Qed.

Lemma limitar_ok jobs ahora sv l m tr m' :
  for_each l (limitar_inicio jobs ahora sv) m = (tr, inr m') ->
  tr = [] /\ m' = agregar m (cotas ahora sv l).
Proof.
  intros Hrun.
  apply (for_each_inv _ _ _
           (fun pre tr m' => tr = [] /\ m' = agregar m (cotas ahora sv pre))
           (limitar_inicio jobs ahora sv) l m tr m'); [| | exact Hrun].
  - split; [reflexivity |]. cbn. now rewrite agregar_nil.
  - intros pre [k job] tr0 m1 tr1 m2 _ [-> ->] Hb.
    apply limitar_inicio_inr in Hb as (_ & -> & ->).
    split; [reflexivity |]. rewrite agregar_agregar.
    unfold cotas. now rewrite flat_map_app.
Qed.


(** *** Lines 36-141: the model *)

Lemma bind_emit_inr A (e : event) (f : unit -> run event A) tr b :
  bind (emit e) f = (tr, inr b) ->
  exists tr', f tt = (tr', inr b) /\ tr = e :: tr'.
Proof.
  intros H. apply bind_inr in H as (tr1 & [] & tr2 & He & Hf & ->).
  injection He as <-. eauto.
Qed.

Ltac emite H :=
  let tr' := fresh "tr" in
  apply bind_emit_inr in H as (tr' & H & ->).

Lemma construir_inr jobs asignaciones ahora tr st g :
  construir jobs asignaciones ahora = (tr, inr (st, g)) ->
  exists tr1 st1 tr2,
    has_column jobs "duracion_horas" = true /\
    for_each (iterrows jobs) (crear_variables jobs) estado_inicial
    = (tr1, inr st1) /\
    for_each (rows asignaciones) (agrupar asignaciones (interval_vars st1))
      {| jobs_por_tecnico := []; jobs_procesados := 0; jobs_omitidos := 0 |}
    = (tr2, inr g) /\
    start_vars st = start_vars st1 /\ end_vars st = end_vars st1 /\
    interval_vars st = interval_vars st1 /\
    domains (model st) = domains (model st1) ++ [(0, HORIZONTE_MINUTOS)] /\
    cp_constraints (model st) =
      cp_constraints (model st1)
      ++ sin_solapes (jobs_por_tecnico g)
      ++ cotas ahora (start_vars st1) (iterrows jobs)
      ++ [MaxEquality (List.length (domains (model st1)))
                      (dict_values (end_vars st1))] /\
    minimize (model st) = Some (List.length (domains (model st1))) /\
    forallb es_mensaje tr = true /\
    diagnosticos tr = diagnosticos tr2.
Proof.
  unfold construir. intros H.
  emite H.
  apply bind_inr in H as (tra & [] & trb & Hcol & H & ->).
  assert (Hdur : has_column jobs "duracion_horas" = true /\ tra = []).
  { destruct (has_column jobs "duracion_horas"); [| discriminate].
    injection Hcol as <-. auto. }
  destruct Hdur as [Hdur ->].
  do 2 emite H.
  apply bind_inr in H as (tr1 & st1 & trc & Hvars & H & ->).
  do 3 emite H.
  apply bind_inr in H as (tr2 & g' & trd & Hagr & H & ->).
  emite H.
  apply bind_inr in H as (tr3 & m3 & tre & Hss & H & ->).
  emite H.
  apply bind_inr in H as (tr4 & m4 & trf & Hlim & H & ->).
  emite H.
  cbn in H. injection H as <- <- <-.
  destruct (sin_solape_ok (jobs_por_tecnico g') (model st1))
    as (tr3' & Hss' & Hmsg3 & Hdiag3).
  rewrite Hss' in Hss. injection Hss as <- <-.
  apply limitar_ok in Hlim as [-> ->].
  pose proof (variables_creadas_ok _ _ _ _ Hvars) as [_ _ [Hmsg1 Hdiag1] _].
  pose proof (agrupados_ok _ _ _ _ _ Hagr) as [_ Hmsg2 _ _ _].
  exists tr1, st1, tr2. repeat split; auto.
  - cbn. now rewrite <- !app_assoc.
  - assert (Hmsg2' : forallb es_mensaje tr2 = true).
    { rewrite Hmsg2. clear. induction (no_encontrados _ _ _); cbn; auto. }
    repeat (cbn [forallb es_mensaje andb app];
            rewrite ?forallb_app, ?Hmsg1, ?Hmsg2', ?Hmsg3).
    reflexivity.
  - change (Print MsgHorizonte :: ?l) with ([Print MsgHorizonte] ++ l).
    repeat (cbn [app]; rewrite ?diagnosticos_app, ?Hdiag1, ?Hdiag3;
            match goal with
            | |- context [diagnosticos (Print ?m :: ?l)] =>
                change (diagnosticos (Print m :: l))
                  with (diagnosticos [Print m] ++ diagnosticos l);
                cbn [diagnosticos flat_map app]
            end).
    cbn. now rewrite ?app_nil_r.
Qed.


Lemma iterrows_snd R (df : DataFrame R) : map snd (iterrows df) = rows df.
Proof.
  unfold iterrows. generalize 0%nat.
  induction (rows df) as [| r l IH]; intros n; cbn; [reflexivity |].
  now rewrite IH.
Qed.

Lemma iterrows_In R (df : DataFrame R) k r :
  In (k, r) (iterrows df) <-> nth_error (rows df) k = Some r.
Proof.
  unfold iterrows.
  enough (Hgen : forall l n,
             In (k, r) (combine (seq n (List.length l)) l) <->
             (n <= k)%nat /\ nth_error l (k - n) = Some r).
  { rewrite Hgen, Nat.sub_0_r. split; [tauto | split; [lia | tauto]]. }
  induction l as [| a l IH]; intros n; cbn.
  - split; [tauto |]. intros [_ H]. now destruct (k - n)%nat.
  - rewrite IH. split.
    + intros [[= <- <-] | [Hle Hnth]].
      * rewrite Nat.sub_diag. auto.
      * split; [lia |]. replace (k - n)%nat with (S (k - S n)) by lia.
        exact Hnth.
    + intros [Hle Hnth]. destruct (k - n)%nat as [| d] eqn:Ed.
      * left. injection Hnth as <-. f_equal. lia.
      * right. split; [lia |]. replace (k - S n)%nat with d by lia.
        exact Hnth.
Qed.

(** The variables of a job in the model handed to the solver. *)
Lemma construir_vars jobs asignaciones ahora tr st g :
  construir jobs asignaciones ahora = (tr, inr (st, g)) ->
  forall j,
    match fila_de jobs j with
    | Some r =>
        exists s e,
          dict_get String.eqb (start_vars st) j = Some s /\
          dict_get String.eqb (end_vars st) j = Some e /\
          dict_get String.eqb (interval_vars st) j = Some (intervalo s r e) /\
          nth_error (domains (model st)) s = Some (0, HORIZONTE_MINUTOS) /\
          nth_error (domains (model st)) e = Some (0, HORIZONTE_MINUTOS) /\
          In (Interval (intervalo s r e)) (cp_constraints (model st))
    | None =>
        dict_get String.eqb (start_vars st) j = None /\
        dict_get String.eqb (end_vars st) j = None /\
        dict_get String.eqb (interval_vars st) j = None
    end.
Proof.
  intros Hc j.
  apply construir_inr in Hc
    as (tr1 & st1 & tr2 & _ & Hvars & _ & -> & -> & -> & Hdom & Hcs & _).
  apply variables_creadas_ok in Hvars as [Hd _ _ Hv].
  specialize (Hv j). rewrite iterrows_snd in Hv. unfold fila_de.
  destruct (ultima String.eqb id_job (rows jobs) j) as [r |]; [| exact Hv].
  destruct Hv as (s & e & Hs & He & Hi & Hls & Hle & Hin).
  assert (Hnth : forall x, (x < List.length (domains (model st1)))%nat ->
            nth_error (domains (model st)) x = Some (0, HORIZONTE_MINUTOS)).
  { intros x Hx. rewrite Hdom, nth_error_app1 by exact Hx.
    destruct (nth_error (domains (model st1)) x) as [d |] eqn:E.
    - rewrite Forall_forall in Hd. now rewrite (Hd d (nth_error_In _ _ E)).
    - apply nth_error_None in E. lia. }
  exists s, e. repeat split; auto.
  rewrite Hcs. apply in_or_app. now left.
Qed.

Lemma fila_de_None jobs j :
  fila_de jobs j = None <-> ~ In j (map id_job (rows jobs)).
Proof.
  unfold fila_de. split.
  - intros Hnone Hin. apply in_map_iff in Hin as (r & <- & Hr).
    destruct (ultima_In _ _ String.eqb String.eqb_eq id_job _ _ Hr) as [r' Hr'].
    congruence.
  - intros Hni. destruct (ultima String.eqb id_job (rows jobs) j) as [r |] eqn:E;
      [| reflexivity].
    apply (ultima_Some _ _ String.eqb String.eqb_eq) in E as [Hin <-].
    exfalso. apply Hni. now apply in_map.
Qed.

(** The no-overlap constraints of the model: one for each technician with
    at least one job that has an interval, over those intervals. *)
Lemma construir_solapes jobs asignaciones ahora tr st g :
  construir jobs asignaciones ahora = (tr, inr (st, g)) ->
  forall l,
    In (NoOverlap l) (cp_constraints (model st)) <->
    l <> [] /\
    exists t, l = intervalos_de asignaciones (interval_vars st) t
                                (rows asignaciones).
Proof.
  intros Hc l.
  apply construir_inr in Hc
    as (tr1 & st1 & tr2 & _ & Hvars & Hagr & _ & _ & -> & _ & -> & _).
  apply variables_creadas_ok in Hvars as [_ Hint _ _].
  apply agrupados_ok in Hagr as [Hlista _ _ _ Hnd].
  assert (Hss : In (NoOverlap l) (sin_solapes (jobs_por_tecnico g)) <->
                l <> [] /\ exists t, In (t, l) (jobs_por_tecnico g)).
  { unfold sin_solapes. rewrite in_flat_map. split.
    - intros ([t l'] & Hin & Hl). cbn in Hl. destruct l' as [| i l'];
        [contradiction |]. destruct Hl as [[= <-] | []].
      split; [discriminate | eauto].
    - intros (Hne & t & Hin). exists (t, l). split; [exact Hin |].
      cbn. destruct l; [contradiction | now left]. }
  rewrite !in_app_iff, Hss. split.
  - intros [Hin | [(Hne & t & Hin) | [Hin | Hin]]].
    + rewrite Forall_forall in Hint. destruct (Hint _ Hin) as [i Hi].
      discriminate.
    + split; [exact Hne |]. exists t.
      apply (dict_In_get _ _ String.eqb String.eqb_eq _ _ _ Hnd) in Hin.
      rewrite Hlista in Hin.
      destruct (intervalos_de _ _ t _); [discriminate | now injection Hin].
    + exfalso. unfold cotas in Hin. apply in_flat_map in Hin as (kr & _ & Hin).
      destruct (0 <=? _); [| contradiction].
      destruct (dict_get _ _ _); [| contradiction].
      destruct Hin as [Hin | []]. discriminate.
    + destruct Hin as [Hin | []]. discriminate.
  - intros (Hne & t & ->). right. left. split; [exact Hne |]. exists t.
    apply (dict_get_In _ _ String.eqb String.eqb_eq). rewrite Hlista.
    destruct (intervalos_de _ _ t _); [contradiction | reflexivity].
Qed.

(** The deadline bounds of the model: one for each row of the Job table
    whose day offset is not negative. *)
Lemma construir_cotas jobs asignaciones ahora tr st g :
  construir jobs asignaciones ahora = (tr, inr (st, g)) ->
  forall x c,
    In (LinearLe x c) (cp_constraints (model st)) <->
    exists k r,
      nth_error (rows jobs) k = Some r /\
      0 <= dias_de ahora k r /\
      dict_get String.eqb (start_vars st) (id_job r) = Some x /\
      c = max_start_de ahora k r.
Proof.
  intros Hc x c.
  apply construir_inr in Hc
    as (tr1 & st1 & tr2 & _ & Hvars & Hagr & -> & _ & _ & _ & -> & _).
  apply variables_creadas_ok in Hvars as [_ Hint _ _].
  assert (Hco : In (LinearLe x c) (cotas ahora (start_vars st1) (iterrows jobs))
                <-> exists k r,
                      nth_error (rows jobs) k = Some r /\
                      0 <= dias_de ahora k r /\
                      dict_get String.eqb (start_vars st1) (id_job r) = Some x /\
                      c = max_start_de ahora k r).
  { unfold cotas. rewrite in_flat_map. split.
    - intros ([k r] & Hin & Hl). cbn [fst snd] in Hl.
      destruct (0 <=? dias_de ahora k r) eqn:Ed; [| contradiction].
      destruct (dict_get String.eqb (start_vars st1) (id_job r)) as [s |] eqn:Es;
        [| contradiction].
      destruct Hl as [[= <- <-] | []].
      exists k, r. apply iterrows_In in Hin. apply Z.leb_le in Ed. auto.
    - intros (k & r & Hnth & Hd & Hs & ->). exists (k, r).
      split; [now apply iterrows_In |]. cbn [fst snd].
      apply Z.leb_le in Hd. rewrite Hd, Hs. now left. }
  rewrite !in_app_iff, Hco. split; [| tauto].
  intros [Hin | [Hin | [Hin | Hin]]]; [| | exact Hin |].
  - rewrite Forall_forall in Hint. destruct (Hint _ Hin) as [i Hi].
    discriminate.
  - exfalso. unfold sin_solapes in Hin.
    apply in_flat_map in Hin as ([t l] & _ & Hin). cbn in Hin.
    destruct l; [contradiction |]. destruct Hin as [Hin | []]. discriminate.
  - destruct Hin as [Hin | []]. discriminate.
Qed.

(** The diagnostics of a run: one per row of the assignment artifact whose
    job has no interval, that is, is not in the Job table. *)
Lemma construir_diagnosticos jobs asignaciones ahora tr st g :
  construir jobs asignaciones ahora = (tr, inr (st, g)) ->
  diagnosticos tr =
    no_encontrados asignaciones (interval_vars st) (rows asignaciones) /\
  jobs_omitidos g = List.length (diagnosticos tr) /\
  (jobs_procesados g + jobs_omitidos g
   = List.length (rows asignaciones))%nat /\
  forallb es_mensaje tr = true.
Proof.
  intros Hc.
  apply construir_inr in Hc
    as (tr1 & st1 & tr2 & _ & _ & Hagr & _ & _ & -> & _ & _ & _ & Hmsg & ->).
  apply agrupados_ok in Hagr as [_ -> Homit Htot _].
  assert (Hd : forall l, diagnosticos
                 (map (fun j => Print (MsgJobNoEncontrado j)) l) = l).
  { induction l as [| a l IH]; cbn; [reflexivity |]. f_equal. exact IH. }
  rewrite Hd. auto.
Qed.


(** *** What a feasible answer satisfies *)

Lemma cp_restriccion m v c :
  cp_feasible m v -> In c (cp_constraints m) -> cp_holds v c.
Proof. intros [_ Hc] Hin. rewrite Forall_forall in Hc. auto. Qed.

Lemma factible_dominio m v x lo hi :
  cp_feasible m v -> nth_error (domains m) x = Some (lo, hi) -> lo <= v x <= hi.
Proof. intros [Hd _]. apply Hd. Qed.

Lemma disjoint_sym v a b : disjoint v a b -> disjoint v b a.
Proof. unfold disjoint. tauto. Qed.

Lemma no_overlap_app v l1 l2 :
  no_overlap v (l1 ++ l2) -> no_overlap v l2.
Proof. induction l1 as [| a l1 IH]; cbn; [auto |]. intros [_ H]. auto. Qed.

Lemma no_overlap_dos v l1 a l2 b l3 :
  no_overlap v (l1 ++ a :: l2 ++ b :: l3) -> disjoint v a b.
Proof.
  intros H. apply no_overlap_app in H. cbn in H. destruct H as [Hall _].
  rewrite Forall_forall in Hall. apply Hall. apply in_or_app. right. now left.
Qed.

Lemma In_dos A (a b : A) l :
  In a l -> In b l -> a <> b ->
  (exists l1 l2 l3, l = l1 ++ a :: l2 ++ b :: l3) \/
  (exists l1 l2 l3, l = l1 ++ b :: l2 ++ a :: l3).
Proof.
  intros Ha Hb Hne. apply in_split in Ha as (l1 & l2 & ->).
  apply in_app_or in Hb as [Hb | [Hb | Hb]]; [| congruence |].
  - right. apply in_split in Hb as (l3 & l4 & ->).
    exists l3, l4, l2. now rewrite <- app_assoc.
  - left. apply in_split in Hb as (l3 & l4 & ->). now exists l1, l3, l4.
Qed.

Lemma intervalos_de_dos asignaciones ivs t l1 a l2 b l3 iva ivb :
  tecnico_de asignaciones a = t -> tecnico_de asignaciones b = t ->
  dict_get String.eqb ivs (job_de asignaciones a) = Some iva ->
  dict_get String.eqb ivs (job_de asignaciones b) = Some ivb ->
  exists k1 k2 k3,
    intervalos_de asignaciones ivs t (l1 ++ a :: l2 ++ b :: l3)
    = k1 ++ iva :: k2 ++ ivb :: k3.
Proof.
  intros Ha Hb Hia Hib.
  exists (intervalos_de asignaciones ivs t l1),
         (intervalos_de asignaciones ivs t l2),
         (intervalos_de asignaciones ivs t l3).
  unfold intervalos_de. rewrite flat_map_app. cbn [flat_map].
  rewrite flat_map_app. cbn [flat_map].
  now rewrite Ha, Hb, String.eqb_refl, Hia, Hib.
Qed.

(** C2. In stage (b), for every solved schedule and every technician, the
    intervals [start, end) of two distinct jobs that the Assignment
    artifact gives to that technician are disjoint: both intervals are in
    the list of one no-overlap constraint of the model. *)
Theorem C2_sin_solape :
  forall jobs asignaciones ahora tr st g v,
    construir jobs asignaciones ahora = (tr, inr (st, g)) ->
    cp_feasible (model st) v ->
    forall a1 a2 s1 e1 s2 e2,
      In a1 (rows asignaciones) -> In a2 (rows asignaciones) ->
      tecnico_de asignaciones a1 = tecnico_de asignaciones a2 ->
      job_de asignaciones a1 <> job_de asignaciones a2 ->
      inicio st v (job_de asignaciones a1) = Some s1 ->
      fin st v (job_de asignaciones a1) = Some e1 ->
      inicio st v (job_de asignaciones a2) = Some s2 ->
      fin st v (job_de asignaciones a2) = Some e2 ->
      (exists l i1 i2,
          In (NoOverlap l) (cp_constraints (model st)) /\
          In i1 l /\ In i2 l /\
          dict_get String.eqb (interval_vars st) (job_de asignaciones a1)
          = Some i1 /\
          dict_get String.eqb (interval_vars st) (job_de asignaciones a2)
          = Some i2) /\
      (e1 <= s2 \/ e2 <= s1) /\
      (forall x, ~ (s1 <= x < e1 /\ s2 <= x < e2)).
Proof.
  intros jobs asignaciones ahora tr st g v Hc Hfeas
         a1 a2 s1 e1 s2 e2 Hin1 Hin2 Ht Hj Hs1 He1 Hs2 He2.
  unfold inicio, fin in *.
  pose proof (construir_vars _ _ _ _ _ _ Hc (job_de asignaciones a1)) as Hv1.
  pose proof (construir_vars _ _ _ _ _ _ Hc (job_de asignaciones a2)) as Hv2.
  destruct (fila_de jobs (job_de asignaciones a1)) as [r1 |];
    [| destruct Hv1 as (Hn & _); rewrite Hn in Hs1; discriminate].
  destruct (fila_de jobs (job_de asignaciones a2)) as [r2 |];
    [| destruct Hv2 as (Hn & _); rewrite Hn in Hs2; discriminate].
  destruct Hv1 as (x1 & y1 & Hx1 & Hy1 & Hi1 & _).
  destruct Hv2 as (x2 & y2 & Hx2 & Hy2 & Hi2 & _).
  rewrite Hx1 in Hs1. rewrite Hy1 in He1. rewrite Hx2 in Hs2.
  rewrite Hy2 in He2. cbn in Hs1, He1, Hs2, He2.
  injection Hs1 as <-. injection He1 as <-.
  injection Hs2 as <-. injection He2 as <-.
  set (t := tecnico_de asignaciones a1) in *.
  set (l := intervalos_de asignaciones (interval_vars st) t
                          (rows asignaciones)).
  assert (Hne : a1 <> a2) by congruence.
  assert (Hdis : disjoint v (intervalo x1 r1 y1) (intervalo x2 r2 y2) /\
                 l <> [] /\ In (intervalo x1 r1 y1) l /\
                 In (intervalo x2 r2 y2) l).
  { assert (Hl : l <> [] -> no_overlap v l).
    { intros Hnil.
      apply (cp_restriccion _ _ (NoOverlap l) Hfeas).
      apply (construir_solapes _ _ _ _ _ _ Hc). split; [exact Hnil |].
      now exists t. }
    destruct (In_dos _ _ _ _ Hin1 Hin2 Hne)
      as [(l1 & l2 & l3 & Hrows) | (l1 & l2 & l3 & Hrows)].
    - destruct (intervalos_de_dos asignaciones (interval_vars st) t
                  l1 a1 l2 a2 l3 _ _ eq_refl (eq_sym Ht) Hi1 Hi2)
        as (k1 & k2 & k3 & Hk).
      assert (Hlk : l = k1 ++ intervalo x1 r1 y1 :: k2
                       ++ intervalo x2 r2 y2 :: k3)
        by (unfold l; now rewrite Hrows).
      assert (Hnil : l <> []) by (rewrite Hlk; now destruct k1).
      specialize (Hl Hnil). rewrite Hlk in Hl.
      split; [now apply no_overlap_dos in Hl |].
      split; [exact Hnil |]. rewrite Hlk.
      split; apply in_or_app; right; [now left |].
      right. apply in_or_app. right. now left.
    - destruct (intervalos_de_dos asignaciones (interval_vars st) t
                  l1 a2 l2 a1 l3 _ _ (eq_sym Ht) eq_refl Hi2 Hi1)
        as (k1 & k2 & k3 & Hk).
      assert (Hlk : l = k1 ++ intervalo x2 r2 y2 :: k2
                       ++ intervalo x1 r1 y1 :: k3)
        by (unfold l; now rewrite Hrows).
      assert (Hnil : l <> []) by (rewrite Hlk; now destruct k1).
      specialize (Hl Hnil). rewrite Hlk in Hl.
      split; [apply disjoint_sym; now apply no_overlap_dos in Hl |].
      split; [exact Hnil |]. rewrite Hlk.
      split; apply in_or_app; right; [| now left].
      right. apply in_or_app. right. now left. }
  destruct Hdis as (Hdis & Hnil & Hl1 & Hl2).
  unfold disjoint in Hdis. cbn in Hdis.
  split; [| split].
  - exists l, (intervalo x1 r1 y1), (intervalo x2 r2 y2).
    repeat split; auto. apply (construir_solapes _ _ _ _ _ _ Hc).
    split; [exact Hnil | now exists t].
  - exact Hdis.
  - intros x. lia.
Qed.


Lemma no_overlapb_ok v l : no_overlapb v l = true -> no_overlap v l.
Proof.
  induction l as [| a l IH]; cbn; [auto |].
  rewrite andb_true_iff, forallb_forall. intros [Hall Hrest].
  split; [| auto]. apply Forall_forall. intros b Hb.
  specialize (Hall b Hb). unfold disjointb in Hall. unfold disjoint.
  apply orb_true_iff in Hall as [H | H]; apply Z.leb_le in H; auto.
Qed.

Lemma in_domainsb_ok v ds :
  forall n, in_domainsb v ds n = true ->
            forall x lo hi, nth_error ds x = Some (lo, hi) ->
                            lo <= v (n + x)%nat <= hi.
Proof.
  induction ds as [| [lo' hi'] ds IH]; intros n Hb x lo hi Hnth.
  - now destruct x.
  - cbn in Hb. rewrite !andb_true_iff in Hb. destruct Hb as [[Hlo Hhi] Hrest].
    destruct x as [| x]; cbn in Hnth.
    + injection Hnth as <- <-. rewrite Nat.add_0_r.
      apply Z.leb_le in Hlo, Hhi. lia.
    + replace (n + S x)%nat with (S n + x)%nat by lia.
      now apply (IH (S n) Hrest).
Qed.

Lemma cp_feasibleb_ok m v : cp_feasibleb m v = true -> cp_feasible m v.
Proof.
  unfold cp_feasibleb, cp_feasible. rewrite andb_true_iff.
  intros [Hd Hc]. split.
  - intros x lo hi Hnth. exact (in_domainsb_ok v _ 0%nat Hd x lo hi Hnth).
  - apply Forall_forall. intros c Hin. rewrite forallb_forall in Hc.
    specialize (Hc c Hin). destruct c as [i | l | x c | t l]; cbn in *.
    + now apply Z.eqb_eq.
    + now apply no_overlapb_ok.
    + now apply Z.leb_le.
    + apply andb_true_iff in Hc as [Hall Hex]. split.
      * apply Forall_forall. intros x Hx. rewrite forallb_forall in Hall.
        apply Z.leb_le. auto.
      * destruct l as [| a l]; [now left |]. right.
        apply Exists_exists. apply existsb_exists in Hex as (x & Hx & Heq).
        exists x. split; [exact Hx | now apply Z.eqb_eq].
Qed.

Lemma construir_t1 :
  exists tr g,
    construir EjemplosHorario.jobs_t1 EjemplosHorario.asignaciones_t1
              EjemplosHorario.ahora_0
    = (tr, inr (EjemplosHorario.estado_t1, g)).
Proof. eexists _, _. vm_compute. reflexivity. Qed.

Lemma factible_t1 :
  cp_feasible (model EjemplosHorario.estado_t1) EjemplosHorario.v_t1.
Proof. apply cp_feasibleb_ok. vm_compute. reflexivity. Qed.

Lemma C2_witness :
  ((exists tr g,
       construir EjemplosHorario.jobs_t1 EjemplosHorario.asignaciones_t1
                 EjemplosHorario.ahora_0
       = (tr, inr (EjemplosHorario.estado_t1, g))) /\
   cp_feasible (model EjemplosHorario.estado_t1) EjemplosHorario.v_t1 /\
   inicio EjemplosHorario.estado_t1 EjemplosHorario.v_t1 "J1" = Some 0 /\
   fin EjemplosHorario.estado_t1 EjemplosHorario.v_t1 "J1" = Some 180 /\
   inicio EjemplosHorario.estado_t1 EjemplosHorario.v_t1 "J2" = Some 180 /\
   fin EjemplosHorario.estado_t1 EjemplosHorario.v_t1 "J2" = Some 480) /\
  (180 <= 180 \/ 480 <= 0) /\
  (forall x, ~ (0 <= x < 180 /\ 180 <= x < 480)).
Proof.
  split.
  - split; [exact construir_t1 |]. split; [exact factible_t1 |].
    repeat split.
  - destruct construir_t1 as (tr & g & Hc).
    exact (proj2 (C2_sin_solape _ _ _ tr EjemplosHorario.estado_t1 g
                   EjemplosHorario.v_t1 Hc factible_t1
                   (EjemplosHorario.asignacion "J1" "T1")
                   (EjemplosHorario.asignacion "J2" "T1") 0 180 180 480
                   (or_introl eq_refl) (or_intror (or_introl eq_refl))
                   eq_refl ltac:(discriminate) eq_refl eq_refl eq_refl
                   eq_refl)).
Defined.


(** *** Durations *)


Lemma fila_de_unica jobs r :
  NoDup (map id_job (rows jobs)) -> In r (rows jobs) ->
  fila_de jobs (id_job r) = Some r.
Proof.
  intros Hnd Hin.
  exact (ultima_NoDup _ _ String.eqb String.eqb_eq id_job _ _ Hnd Hin).
Qed.





(** *** Lines 150-209: the schedule table *)

Lemma fila_horario_ok jobs asignaciones st v acc job s e :
  columnas_presentes jobs asignaciones ->
  dict_get String.eqb (start_vars st) (id_job job) = Some s ->
  dict_get String.eqb (end_vars st) (id_job job) = Some e ->
  fila_horario jobs asignaciones st v acc job =
  ([], inr (acc ++ [fila_horario_de asignaciones st v job])).
Proof.
  intros (Hj & Ht & Hjob) Hs He.
  unfold fila_horario, fila_horario_de, tecnico_asignado, inicio, fin,
    job_de, tecnico_de, getitem, dict_mem, item, subscript.
  rewrite (Hj "id_job"), (Hj "descripcion"), (Hj "skill_requerida")
    by (cbn; tauto).
  do 3 (cbn [negb bind ret app valor option_map]; rewrite ?Hs, ?He, ?Hjob).
  destruct (filter _ (rows asignaciones)) as [| a l].
  - reflexivity.
  - rewrite Ht. reflexivity.
Qed.

Lemma filas_horario_ok jobs asignaciones ahora tr st g v :
  construir jobs asignaciones ahora = (tr, inr (st, g)) ->
  columnas_presentes jobs asignaciones ->
  for_each (rows jobs) (fila_horario jobs asignaciones st v) [] =
  ([], inr (map (fila_horario_de asignaciones st v) (rows jobs))).
Proof.
  intros Hc Hcols.
  enough (Hgen : forall l acc,
             incl l (rows jobs) ->
             for_each l (fila_horario jobs asignaciones st v) acc =
             ([], inr (acc ++ map (fila_horario_de asignaciones st v) l))).
  { apply (Hgen (rows jobs) []). apply incl_refl. }
  induction l as [| job l IH]; intros acc Hl.
  - cbn. now rewrite app_nil_r.
  - cbn [for_each map].
    pose proof (construir_vars _ _ _ _ _ _ Hc (id_job job)) as Hv.
    destruct (fila_de jobs (id_job job)) as [r |] eqn:Hf.
    + destruct Hv as (s & e & Hs & He & _).
      rewrite (fila_horario_ok _ _ _ _ _ _ s e Hcols Hs He).
      rewrite (bind_pure _ _ _ _ _ _ eq_refl).
      rewrite IH by (intros a Ha; apply Hl; now right).
      now rewrite <- app_assoc.
    + exfalso. apply fila_de_None in Hf. apply Hf. apply in_map.
      apply Hl. now left.
Qed.

Lemma for_each_trace_all E A S (P : E -> bool) (body : S -> A -> run E S) l :
  (forall s a, forallb P (trace (body s a)) = true) ->
  forall s, forallb P (trace (for_each l body s)) = true.
Proof.
  intros Hb. induction l as [| a l IH]; intros s; [reflexivity |].
  cbn [for_each]. rewrite trace_bind, forallb_app, Hb.
  destruct (outcome (body s a)); [reflexivity | apply IH].
Qed.

Lemma forallb_trace_bind E A B (P : E -> bool) (m : run E A)
    (f : A -> run E B) :
  forallb P (trace m) = true ->
  (forall a, forallb P (trace (f a)) = true) ->
  forallb P (trace (bind m f)) = true.
Proof.
  intros Hm Hf. rewrite trace_bind, forallb_app, Hm.
  destruct (outcome m); [reflexivity | apply Hf].
Qed.

Lemma getitem_trace R A (df : DataFrame R) c (f : R -> A) r :
  trace (@getitem event R A df c f r) = [].
Proof. unfold getitem. now destruct (has_column df c). Qed.

Lemma item_var_trace d k : trace (item d k) = [].
Proof. unfold item, subscript. now destruct (dict_get String.eqb d k). Qed.

Ltac solo_mensajes :=
  repeat first
    [ reflexivity
    | apply forallb_trace_bind; [| intros ?]
    | rewrite getitem_trace
    | rewrite item_var_trace
    | apply for_each_trace_all; intros ? ?
    | match goal with
      | |- context [if ?b then _ else _] => destruct b
      | |- context [match ?x with _ => _ end] => destruct x
      end ].

(** Whatever its outcome, building the model only prints. *)
Lemma construir_mensajes jobs asignaciones ahora :
  forallb es_mensaje (trace (construir jobs asignaciones ahora)) = true.
Proof.
  unfold construir, crear_variables, agrupar, sin_solape, limitar_inicio.
  solo_mensajes.
Qed.

Lemma cargar_cases fs :
  (exists jobs tecnicos asignaciones,
      jobs_csv fs = Some jobs /\ tecnicos_csv fs = Some tecnicos /\
      asignaciones_csv fs = Some asignaciones /\
      cargar fs =
      ([Print (MsgCargados (List.length (rows jobs))
                           (List.length (rows tecnicos))
                           (List.length (rows asignaciones)))],
       inr (jobs, tecnicos, asignaciones))) \/
  ((jobs_csv fs = None \/ tecnicos_csv fs = None \/
    asignaciones_csv fs = None) /\
   exists what, cargar fs = ([Print (MsgErrorArchivo what)], inl SystemExit)).
Proof.
  unfold cargar.
  destruct (jobs_csv fs) as [jobs |]; [| right; split; [auto | eexists; reflexivity]].
  destruct (tecnicos_csv fs) as [tecnicos |];
    [| right; split; [auto | eexists; reflexivity]].
  destruct (asignaciones_csv fs) as [asignaciones |];
    [| right; split; [auto | eexists; reflexivity]].
  left. exists jobs, tecnicos, asignaciones. repeat split; reflexivity.
Qed.


Lemma run_eta E A (m : run E A) : m = (trace m, outcome m).
Proof. now destruct m. Qed.

Lemma procesar_no_resuelto jobs asignaciones st status v :
  resuelto status = false ->
  procesar jobs asignaciones st status v = ([Print MsgNoSolucion], inr tt).
Proof. destruct status; cbn; intros H; (discriminate || reflexivity). Qed.

Lemma procesar_resuelto jobs asignaciones ahora tr st g status v :
  construir jobs asignaciones ahora = (tr, inr (st, g)) ->
  columnas_presentes jobs asignaciones ->
  resuelto status = true ->
  let filas := map (fila_horario_de asignaciones st v) (rows jobs) in
  procesar jobs asignaciones st status v =
  ([Print MsgSolucion; Print MsgGuardando; ToCsv_schedule filas;
    Print MsgHorarioGuardado; Print (MsgResumen (List.length filas))]
   ++ match maximo (map dia filas) with
      | None => []
      | Some d =>
          [Print (MsgDias d);
           Print (MsgTecnicos
                    (List.length (unique (map s_tecnico_id filas))));
           Print (MsgVistaPrevia (firstn 10 filas))]
      end,
   match maximo (map dia filas) with
   | None => inl (KeyError "dia")
   | Some _ => inr tt
   end).
Proof.
  intros Hc Hcols Hres filas.
  assert (Hp : procesar jobs asignaciones st OPTIMAL v =
               procesar jobs asignaciones st status v)
    by (destruct status; try discriminate; reflexivity).
  rewrite <- Hp. unfold procesar.
  rewrite (filas_horario_ok _ _ _ _ _ _ v Hc Hcols). fold filas.
  cbn [bind emit app]. destruct (maximo (map dia filas)); reflexivity.
Qed.

Lemma fila_horario_trace jobs asignaciones st v acc job :
  trace (fila_horario jobs asignaciones st v acc job) = [].
Proof.
  unfold fila_horario.
  repeat first
    [ reflexivity
    | rewrite trace_bind
    | rewrite getitem_trace
    | rewrite item_var_trace
    | match goal with
      | |- context [outcome ?m] => destruct (outcome m)
      | |- context [if ?b then _ else _] => destruct b
      | |- context [match ?x with _ => _ end] => destruct x
      end
    | progress cbn [app trace ret raise fst] ].
Qed.

Lemma procesar_sin_solve jobs asignaciones st status v :
  forallb no_es_solve (trace (procesar jobs asignaciones st status v)) = true.
Proof.
  unfold procesar. destruct status; try reflexivity.
  all: apply forallb_trace_bind; [reflexivity | intros _].
  all: apply forallb_trace_bind;
    [apply for_each_trace_all; intros s a; now rewrite fila_horario_trace |].
  all: intros filas; cbn.
  all: destruct (maximo (map dia filas)); reflexivity.
Qed.

(** The run of the script, step by step. *)
Lemma main_trace fs ahora solver :
  trace (main fs ahora solver) =
  [Print MsgInicio; Print MsgCargando] ++ trace (cargar fs) ++
  match outcome (cargar fs) with
  | inl _ => []
  | inr (jobs, _, asignaciones) =>
      trace (construir jobs asignaciones ahora) ++
      match outcome (construir jobs asignaciones ahora) with
      | inl _ => []
      | inr (st, _) =>
          [Print MsgResolviendo; Solve (model st); Print MsgProcesando] ++
          trace (procesar jobs asignaciones st (fst (solver (model st)))
                          (snd (solver (model st)))) ++
          match outcome (procesar jobs asignaciones st
                                  (fst (solver (model st)))
                                  (snd (solver (model st)))) with
          | inl _ => []
          | inr _ => [Print MsgCompletado]
          end
      end
  end.
Proof.
  unfold main. do 3 (rewrite trace_bind; cbn [trace outcome emit fst snd app]).
  destruct (outcome (cargar fs)) as [e | [[jobs tecs] asignaciones]];
    [reflexivity |].
  rewrite trace_bind.
  destruct (outcome (construir jobs asignaciones ahora)) as [e | [st g]];
    [reflexivity |].
  do 2 (rewrite trace_bind; cbn [trace outcome emit fst snd app]).
  destruct (solver (model st)) as [status v].
  do 2 (rewrite trace_bind; cbn [trace outcome emit fst snd app]).
  destruct (outcome (procesar jobs asignaciones st status v)); reflexivity.
Qed.

Lemma main_outcome fs ahora solver :
  outcome (main fs ahora solver) =
  match outcome (cargar fs) with
  | inl e => inl e
  | inr (jobs, _, asignaciones) =>
      match outcome (construir jobs asignaciones ahora) with
      | inl e => inl e
      | inr (st, _) =>
          match outcome (procesar jobs asignaciones st
                                  (fst (solver (model st)))
                                  (snd (solver (model st)))) with
          | inl e => inl e
          | inr _ => inr tt
          end
      end
  end.
Proof.
  unfold main. do 3 (rewrite outcome_bind; cbn [trace outcome emit fst snd]).
  destruct (outcome (cargar fs)) as [e | [[jobs tecs] asignaciones]];
    [reflexivity |].
  rewrite outcome_bind.
  destruct (outcome (construir jobs asignaciones ahora)) as [e | [st g]];
    [reflexivity |].
  do 2 (rewrite outcome_bind; cbn [trace outcome emit fst snd]).
  destruct (solver (model st)) as [status v].
  do 2 (rewrite outcome_bind; cbn [trace outcome emit fst snd]).
  destruct (outcome (procesar jobs asignaciones st status v)) as [e | []];
    reflexivity.
Qed.


(** *** The run does not raise when the columns are there *)

Lemma crear_variables_total jobs st kr :
  has_column jobs "id_job" = true ->
  exists tr st', crear_variables jobs st kr = (tr, inr st').
Proof.
  intros Hcol. destruct kr as [k row]. unfold crear_variables, getitem.
  rewrite Hcol. destruct (k <? 5)%nat; cbn; eexists _, _; reflexivity.
Qed.

Lemma agrupar_total asignaciones ivs g a :
  has_column asignaciones (columna_tecnico_de asignaciones) = true ->
  has_column asignaciones (columna_job_de asignaciones) = true ->
  exists tr g', agrupar asignaciones ivs g a = (tr, inr g').
Proof.
  intros Ht Hj. unfold agrupar, getitem. rewrite Ht, Hj. cbn.
  destruct (dict_get String.eqb ivs _); cbn; eexists _, _; reflexivity.
Qed.

Lemma limitar_inicio_total jobs ahora sv m k job :
  has_column jobs "id_job" = true -> has_column jobs "deadline" = true ->
  (exists s, dict_get String.eqb sv (id_job job) = Some s) ->
  exists tr m', limitar_inicio jobs ahora sv m (k, job) = (tr, inr m').
Proof.
  intros Hid Hdl [s Hs]. unfold limitar_inicio, getitem, item, subscript.
  rewrite Hid, Hdl. cbn. rewrite Hs.
  destruct (0 <=? _); cbn; eexists _, _; reflexivity.
Qed.

(** Whatever the deadlines and the clock, the model is built. *)
Lemma construir_total jobs asignaciones ahora :
  columnas_presentes jobs asignaciones ->
  exists tr st g, construir jobs asignaciones ahora = (tr, inr (st, g)).
Proof.
  intros (Hj & Ht & Hjob).
  assert (Hid : has_column jobs "id_job" = true) by (apply Hj; cbn; tauto).
  assert (Hdl : has_column jobs "deadline" = true) by (apply Hj; cbn; tauto).
  assert (Hdur : has_column jobs "duracion_horas" = true)
    by (apply Hj; cbn; tauto).
  destruct (for_each_total _ _ _ (crear_variables jobs) (iterrows jobs)
              estado_inicial) as (tr1 & st1 & H1).
  { intros s a _. now apply crear_variables_total. }
  destruct (for_each_total _ _ _ (agrupar asignaciones (interval_vars st1))
              (rows asignaciones)
              {| jobs_por_tecnico := []; jobs_procesados := 0;
                 jobs_omitidos := 0 |}) as (tr2 & g & H2).
  { intros s a _. now apply agrupar_total. }
  destruct (sin_solape_ok (jobs_por_tecnico g) (model st1))
    as (tr3 & H3 & _).
  destruct (for_each_total _ _ _
              (limitar_inicio jobs ahora (start_vars st1)) (iterrows jobs)
              (agregar (model st1) (sin_solapes (jobs_por_tecnico g))))
    as (tr4 & m4 & H4).
  { intros m [k job] Hin. apply limitar_inicio_total; auto.
    pose proof (variables_creadas_ok _ _ _ _ H1) as [_ _ _ Hv].
    specialize (Hv (id_job job)). rewrite iterrows_snd in Hv.
    apply iterrows_In in Hin. apply nth_error_In in Hin.
    destruct (ultima_In _ _ String.eqb String.eqb_eq id_job _ _ Hin)
      as [r Hr].
    rewrite Hr in Hv. destruct Hv as (s & _ & Hs & _). eauto. }
  rewrite (run_eta _ _ (construir jobs asignaciones ahora)).
  assert (Hout : exists sg,
             outcome (construir jobs asignaciones ahora) = inr sg).
  { unfold construir. rewrite Hdur.
    do 4 (rewrite outcome_bind; cbn [outcome emit ret snd]).
    rewrite outcome_bind, H1. cbn [outcome snd].
    do 3 (rewrite outcome_bind; cbn [outcome emit ret snd]).
    rewrite outcome_bind, H2. cbn [outcome snd].
    rewrite outcome_bind; cbn [outcome emit ret snd].
    rewrite outcome_bind, H3. cbn [outcome snd].
    rewrite outcome_bind; cbn [outcome emit ret snd].
    rewrite outcome_bind, H4. cbn [outcome snd].
    rewrite outcome_bind; cbn [outcome emit ret snd].
    eexists. reflexivity. }
  destruct Hout as [[st g'] Hout]. rewrite Hout. eauto.
Qed.

Lemma maximo_Some l : l <> [] -> exists d, maximo l = Some d.
Proof. destruct l; [congruence | intros _; eexists; reflexivity]. Qed.

(** With its files and columns there and at least one job, the run ends
    normally, whatever the solver answers. *)
Lemma main_termina fs ahora solver jobs tecnicos asignaciones :
  jobs_csv fs = Some jobs -> tecnicos_csv fs = Some tecnicos ->
  asignaciones_csv fs = Some asignaciones ->
  columnas_presentes jobs asignaciones ->
  rows jobs <> [] ->
  outcome (main fs ahora solver) = inr tt.
Proof.
  intros Hj Ht Ha Hcols Hne.
  rewrite main_outcome.
  destruct (cargar_cases fs)
    as [(j & t & a & Hj' & Ht' & Ha' & ->) | [[H | [H | H]] _]];
    try congruence.
  assert (j = jobs) by congruence. assert (a = asignaciones) by congruence.
  subst. cbn [outcome snd].
  destruct (construir_total jobs asignaciones ahora Hcols)
    as (tr & st & g & Hc).
  rewrite Hc. cbn [outcome snd].
  destruct (solver (model st)) as [status v]. cbn [fst snd].
  destruct (resuelto status) eqn:Hres.
  - rewrite (procesar_resuelto _ _ _ _ _ _ _ v Hc Hcols Hres).
    cbn [outcome snd].
    destruct (maximo_Some
                (map dia (map (fila_horario_de asignaciones st v) (rows jobs))))
      as [d ->]; [| reflexivity].
    destruct (rows jobs); [contradiction | discriminate].
  - now rewrite procesar_no_resuelto.
Qed.

(** The solver is called only on the model built from the two tables. *)
Lemma main_resuelve fs ahora solver m :
  In (Solve m) (trace (main fs ahora solver)) ->
  exists jobs tecnicos asignaciones tr st g,
    jobs_csv fs = Some jobs /\ tecnicos_csv fs = Some tecnicos /\
    asignaciones_csv fs = Some asignaciones /\
    construir jobs asignaciones ahora = (tr, inr (st, g)) /\
    m = model st.
Proof.
  rewrite main_trace. intros Hin.
  assert (Hno : forall l, forallb es_mensaje l = true -> ~ In (Solve m) l).
  { intros l Hl H. rewrite forallb_forall in Hl. specialize (Hl _ H).
    discriminate. }
  destruct (cargar_cases fs)
    as [(jobs & tecnicos & asignaciones & Hj & Ht & Ha & Hcar)
       | [_ [what Hcar]]];
    rewrite Hcar in Hin; cbn [trace outcome fst snd app] in Hin.
  2:{ exfalso. repeat (destruct Hin as [Hin | Hin]; [discriminate |]).
      contradiction. }
  do 3 (destruct Hin as [Hin | Hin]; [discriminate |]).
  apply in_app_or in Hin as [Hin | Hin];
    [exfalso; exact (Hno _ (construir_mensajes _ _ _) Hin) |].
  destruct (construir jobs asignaciones ahora) as [tr [e | [st g]]] eqn:Hc;
    cbn [outcome snd] in Hin; [contradiction |].
  exists jobs, tecnicos, asignaciones, tr, st, g. repeat split; auto.
  cbn [app] in Hin. destruct Hin as [Hin | [Hin | [Hin | Hin]]];
    try discriminate.
  - now injection Hin.
  - exfalso. apply in_app_or in Hin as [Hin | Hin].
    + pose proof (procesar_sin_solve jobs asignaciones st
                    (fst (solver (model st))) (snd (solver (model st)))) as Hp.
      rewrite forallb_forall in Hp. specialize (Hp _ Hin). discriminate.
    + destruct (outcome _); [contradiction |].
      destruct Hin as [Hin | []]. discriminate.
Qed.


(** *** Deadlines *)

(** C5. In stage (b), for every row of the Job table whose day offset
    [(deadline - now).days] is not negative, the solved start is at most
    [min(offset * 8 * 60, HORIZONTE_MINUTOS)].  A row whose offset is
    negative is exempt: every deadline bound of the model comes from a row
    with a non-negative offset, and such a job is scheduled although its
    start is after its deadline offset.  The sign of the offsets never
    makes the run raise: with the columns present the model is always
    built, and with at least one job the run ends normally. *)
Theorem C5_limite_de_inicio :
  forall jobs asignaciones ahora,
    (columnas_presentes jobs asignaciones ->
     (exists tr st g, construir jobs asignaciones ahora = (tr, inr (st, g))) /\
     (forall fs tecnicos solver,
         jobs_csv fs = Some jobs -> tecnicos_csv fs = Some tecnicos ->
         asignaciones_csv fs = Some asignaciones ->
         rows jobs <> [] ->
         outcome (main fs ahora solver) = inr tt)) /\
    forall tr st g v,
      construir jobs asignaciones ahora = (tr, inr (st, g)) ->
      cp_feasible (model st) v ->
      (forall k r,
          nth_error (rows jobs) k = Some r ->
          let dias := dias_restantes (deadline r) (ahora k) in
          exists s,
            inicio st v (id_job r) = Some s /\
            (0 <= dias ->
             s <= Z.min (dias * HORAS_POR_DIA * 60) HORIZONTE_MINUTOS) /\
            (dias < 0 -> dias * HORAS_POR_DIA * 60 < s)) /\
      (forall x c,
          In (LinearLe x c) (cp_constraints (model st)) ->
          exists k r,
            nth_error (rows jobs) k = Some r /\
            0 <= dias_restantes (deadline r) (ahora k) /\
            dict_get String.eqb (start_vars st) (id_job r) = Some x /\
            c = Z.min (dias_restantes (deadline r) (ahora k)
                       * HORAS_POR_DIA * 60) HORIZONTE_MINUTOS).
Proof.
  intros jobs asignaciones ahora. split.
  - intros Hcols. split; [now apply construir_total |].
    intros fs tecnicos solver Hj Ht Ha Hne.
    now apply (main_termina fs ahora solver jobs tecnicos asignaciones).
  - intros tr st g v Hc Hfeas. split.
    + intros k r Hnth dias.
      pose proof (construir_vars _ _ _ _ _ _ Hc (id_job r)) as Hv.
      destruct (fila_de jobs (id_job r)) as [r' |] eqn:Hf.
      2:{ exfalso. apply fila_de_None in Hf. apply Hf. apply in_map.
          exact (nth_error_In _ _ Hnth). }
      destruct Hv as (x & y & Hx & _ & _ & Hdx & _).
      exists (v x). unfold inicio. rewrite Hx. split; [reflexivity |].
      pose proof (factible_dominio _ _ _ _ _ Hfeas Hdx) as Hb.
      split.
      * intros Hd.
        assert (Hin : In (LinearLe x (max_start_de ahora k r))
                         (cp_constraints (model st))).
        { apply (construir_cotas _ _ _ _ _ _ Hc). exists k, r. auto. }
        exact (cp_restriccion _ _ _ Hfeas Hin).
      * intros Hd. unfold HORAS_POR_DIA. lia.
    + intros x c Hin. apply (construir_cotas _ _ _ _ _ _ Hc) in Hin.
      exact Hin.
Qed.

Lemma C5_witness :
  ((exists tr g,
       construir EjemplosHorario.jobs_t1 EjemplosHorario.asignaciones_t1
                 EjemplosHorario.ahora_0
       = (tr, inr (EjemplosHorario.estado_t1, g))) /\
   cp_feasible (model EjemplosHorario.estado_t1) EjemplosHorario.v_t1 /\
   nth_error (rows EjemplosHorario.jobs_t1) 0
   = Some (Ejemplos.job "J1" 3 (2 * EjemplosHorario.UN_DIA)) /\
   dias_restantes (2 * EjemplosHorario.UN_DIA) (EjemplosHorario.ahora_0 0%nat)
   = 2) /\
  exists s,
    inicio EjemplosHorario.estado_t1 EjemplosHorario.v_t1 "J1" = Some s /\
    (0 <= 2 -> s <= Z.min (2 * HORAS_POR_DIA * 60) HORIZONTE_MINUTOS) /\
    (2 < 0 -> 2 * HORAS_POR_DIA * 60 < s).
Proof.
  split.
  - split; [exact construir_t1 |]. split; [exact factible_t1 |].
    split; reflexivity.
  - destruct construir_t1 as (tr & g & Hc).
    exact (proj1 (proj2 (C5_limite_de_inicio EjemplosHorario.jobs_t1
                           EjemplosHorario.asignaciones_t1
                           EjemplosHorario.ahora_0)
                        tr EjemplosHorario.estado_t1 g EjemplosHorario.v_t1
                        Hc factible_t1)
                 0%nat (Ejemplos.job "J1" 3 (2 * EjemplosHorario.UN_DIA))
                 eq_refl).
Defined.


(** *** Jobs that only one of the two tables has *)

Lemma interval_vars_None jobs asignaciones ahora tr st g j :
  construir jobs asignaciones ahora = (tr, inr (st, g)) ->
  dict_get String.eqb (interval_vars st) j = None <->
  existsb (String.eqb j) (map id_job (rows jobs)) = false.
Proof.
  intros Hc. pose proof (construir_vars _ _ _ _ _ _ Hc j) as Hv.
  destruct (fila_de jobs j) as [r |] eqn:Hf.
  - destruct Hv as (s & e & _ & _ & Hi & _). rewrite Hi.
    split; [discriminate |]. intros Hex. exfalso.
    assert (Hin : In j (map id_job (rows jobs))).
    { apply (ultima_Some _ _ String.eqb String.eqb_eq) in Hf as [Hin <-].
      now apply in_map. }
    assert (Htrue : existsb (String.eqb j) (map id_job (rows jobs)) = true).
    { apply existsb_exists. exists j. split; [exact Hin |].
      apply String.eqb_refl. }
    congruence.
  - destruct Hv as (_ & _ & Hi). rewrite Hi. split; [| reflexivity].
    intros _. apply fila_de_None in Hf.
    destruct (existsb _ _) eqn:E; [| reflexivity].
    exfalso. apply Hf. apply existsb_exists in E as (x & Hx & Heq).
    apply String.eqb_eq in Heq. now subst.
Qed.

Lemma no_encontrados_sin_job jobs asignaciones ahora tr st g :
  construir jobs asignaciones ahora = (tr, inr (st, g)) ->
  no_encontrados asignaciones (interval_vars st) (rows asignaciones)
  = sin_job jobs asignaciones.
Proof.
  intros Hc. unfold no_encontrados, sin_job.
  induction (rows asignaciones) as [| a l IH]; [reflexivity |].
  cbn [flat_map map filter]. rewrite IH.
  pose proof (interval_vars_None _ _ _ _ _ _ (job_de asignaciones a) Hc) as Hn.
  destruct (dict_get String.eqb (interval_vars st) (job_de asignaciones a))
    as [iv |].
  - destruct (existsb _ _); [reflexivity |].
    destruct Hn as [_ Hn]. now specialize (Hn eq_refl).
  - destruct Hn as [Hn _]. now rewrite (Hn eq_refl).
Qed.

Lemma intervalos_de_In asignaciones ivs t l i :
  In i (intervalos_de asignaciones ivs t l) ->
  exists a, In a l /\ tecnico_de asignaciones a = t /\
            dict_get String.eqb ivs (job_de asignaciones a) = Some i.
Proof.
  unfold intervalos_de. intros Hin. apply in_flat_map in Hin as (a & Ha & Hi).
  exists a. destruct (tecnico_de asignaciones a =? t)%string eqn:E;
    [| contradiction].
  apply String.eqb_eq in E.
  destruct (dict_get String.eqb ivs (job_de asignaciones a)) as [iv |];
    [| contradiction].
  destruct Hi as [<- | []]. auto.
Qed.

Lemma tecnico_no_asignado asignaciones j :
  ~ In j (map (job_de asignaciones) (rows asignaciones)) ->
  tecnico_asignado asignaciones j = "No asignado".
Proof.
  intros Hni. unfold tecnico_asignado.
  destruct (filter _ (rows asignaciones)) as [| a l] eqn:E; [reflexivity |].
  exfalso. apply Hni.
  assert (Ha : In a (filter (fun a => (job_de asignaciones a =? j)%string)
                            (rows asignaciones))) by (rewrite E; now left).
  apply filter_In in Ha as [Ha Heq]. apply String.eqb_eq in Heq.
  rewrite <- Heq. now apply in_map.
Qed.

Ltac busca := repeat (first [left; reflexivity | right]).

(** C8, as stated, fails for a job of the Job table that the Assignment
    artifact does not have: on [fs_fraccion] (job J1, no assignment row)
    no diagnostic is printed, the model handed to the solver has the
    interval of J1, and the schedule table has the row of J1 with the
    technician "No asignado". *)
Lemma C8_counterexample :
  diagnosticos (trace (main EjemplosDuracion.fs_fraccion
                            EjemplosHorario.ahora_0
                            EjemplosDuracion.solver_fraccion)) = [] /\
  In (Solve (model EjemplosDuracion.estado_fraccion))
     (trace (main EjemplosDuracion.fs_fraccion EjemplosHorario.ahora_0
                  EjemplosDuracion.solver_fraccion)) /\
  In (Interval {| iv_start := 0%nat; iv_size := 30; iv_end := 1%nat |})
     (cp_constraints (model EjemplosDuracion.estado_fraccion)) /\
  dict_get String.eqb (interval_vars EjemplosDuracion.estado_fraccion) "J1"
  = Some {| iv_start := 0%nat; iv_size := 30; iv_end := 1%nat |} /\
  exists filas fila,
    In (ToCsv_schedule filas)
       (trace (main EjemplosDuracion.fs_fraccion EjemplosHorario.ahora_0
                    EjemplosDuracion.solver_fraccion)) /\
    In fila filas /\ s_job_id fila = "J1" /\
    s_tecnico_id fila = "No asignado".
Proof.
  split; [vm_compute; reflexivity |].
  split; [vm_compute; busca |].
  split; [vm_compute; left; reflexivity |].
  split; [reflexivity |].
  eexists _, _. split; [vm_compute; busca |].
  split; [left; reflexivity |]. split; reflexivity.
Qed.


(** C8, amended.  In stage (b), a row of the Assignment artifact whose job
    is not in the Job table is left out of the no-overlap constraints, with
    one diagnostic message per such row (their number is [jobs_omitidos]).
    A job of the Job table that the Assignment artifact does not have
    stays in the model with its interval, gets no diagnostic, and is
    reported in the schedule table with the technician "No asignado".
    Neither makes the run raise: with the columns present the model is
    always built and, with at least one job, the run ends normally. *)
Theorem C8_trabajos_sin_pareja :
  forall jobs asignaciones ahora,
    (columnas_presentes jobs asignaciones ->
     (exists tr st g, construir jobs asignaciones ahora = (tr, inr (st, g))) /\
     (forall fs tecnicos solver,
         jobs_csv fs = Some jobs -> tecnicos_csv fs = Some tecnicos ->
         asignaciones_csv fs = Some asignaciones ->
         rows jobs <> [] ->
         outcome (main fs ahora solver) = inr tt)) /\
    forall tr st g,
      construir jobs asignaciones ahora = (tr, inr (st, g)) ->
      (diagnosticos tr = sin_job jobs asignaciones /\
       jobs_omitidos g = List.length (sin_job jobs asignaciones) /\
       forall l i,
         In (NoOverlap l) (cp_constraints (model st)) -> In i l ->
         exists a,
           In a (rows asignaciones) /\
           In (job_de asignaciones a) (map id_job (rows jobs)) /\
           dict_get String.eqb (interval_vars st) (job_de asignaciones a)
           = Some i) /\
      (forall r,
          In r (rows jobs) ->
          ~ In (id_job r) (map (job_de asignaciones) (rows asignaciones)) ->
          ~ In (id_job r) (diagnosticos tr) /\
          (exists i,
              dict_get String.eqb (interval_vars st) (id_job r) = Some i /\
              In (Interval i) (cp_constraints (model st))) /\
          (forall status v,
              columnas_presentes jobs asignaciones ->
              resuelto status = true ->
              exists filas fila,
                In (ToCsv_schedule filas)
                   (trace (procesar jobs asignaciones st status v)) /\
                In fila filas /\ s_job_id fila = id_job r /\
                s_tecnico_id fila = "No asignado")).
Proof.
  intros jobs asignaciones ahora. split.
  - intros Hcols. split; [now apply construir_total |].
    intros fs tecnicos solver Hj Ht Ha Hne.
    now apply (main_termina fs ahora solver jobs tecnicos asignaciones).
  - intros tr st g Hc.
    destruct (construir_diagnosticos _ _ _ _ _ _ Hc) as (Hd & Hom & _ & _).
    rewrite (no_encontrados_sin_job _ _ _ _ _ _ Hc) in Hd.
    split; [split; [exact Hd | split] |].
    + now rewrite Hom, Hd.
    + intros l i Hl Hi.
      apply (construir_solapes _ _ _ _ _ _ Hc) in Hl as (_ & t & ->).
      apply intervalos_de_In in Hi as (a & Ha & _ & Hiv).
      exists a. split; [exact Ha |]. split; [| exact Hiv].
      destruct (existsb (String.eqb (job_de asignaciones a))
                        (map id_job (rows jobs))) eqn:E.
      * apply existsb_exists in E as (x & Hx & Heq).
        apply String.eqb_eq in Heq. now subst.
      * apply (interval_vars_None _ _ _ _ _ _ _ Hc) in E. congruence.
    + intros r Hr Hni. split; [| split].
      * rewrite Hd. unfold sin_job. intros Hin.
        apply filter_In in Hin as [_ Hneg].
        assert (Htrue : existsb (String.eqb (id_job r))
                                (map id_job (rows jobs)) = true).
        { apply existsb_exists. exists (id_job r).
          split; [now apply in_map | apply String.eqb_refl]. }
        rewrite Htrue in Hneg. discriminate.
      * pose proof (construir_vars _ _ _ _ _ _ Hc (id_job r)) as Hv.
        destruct (fila_de jobs (id_job r)) as [r' |] eqn:Hf.
        -- destruct Hv as (s & e & _ & _ & Hi & _ & _ & Hin). eauto.
        -- exfalso. apply fila_de_None in Hf. apply Hf. now apply in_map.
      * intros status v Hcols Hres.
        exists (map (fila_horario_de asignaciones st v) (rows jobs)),
               (fila_horario_de asignaciones st v r).
        rewrite (procesar_resuelto _ _ _ _ _ _ _ v Hc Hcols Hres).
        split; [cbn; tauto |]. split; [now apply in_map |].
        split; [reflexivity |]. cbn. now apply tecnico_no_asignado.
Qed.

Lemma C8_witness :
  exists tr st g,
    construir EjemplosDuracion.jobs_fraccion
              EjemplosDuracion.asignaciones_huerfana EjemplosHorario.ahora_0
    = (tr, inr (st, g)) /\
    sin_job EjemplosDuracion.jobs_fraccion
            EjemplosDuracion.asignaciones_huerfana = ["J9"] /\
    diagnosticos tr = sin_job EjemplosDuracion.jobs_fraccion
                              EjemplosDuracion.asignaciones_huerfana /\
    jobs_omitidos g = 1%nat.
Proof.
  destruct (construir EjemplosDuracion.jobs_fraccion
                      EjemplosDuracion.asignaciones_huerfana
                      EjemplosHorario.ahora_0) as [tr [e | [st g]]] eqn:Hc.
  - exfalso. vm_compute in Hc. discriminate.
  - exists tr, st, g. split; [reflexivity |]. split; [reflexivity |].
    destruct (proj2 (C8_trabajos_sin_pareja EjemplosDuracion.jobs_fraccion
                       EjemplosDuracion.asignaciones_huerfana
                       EjemplosHorario.ahora_0) tr st g Hc)
      as [(Hd & Hom & _) _].
    split; [exact Hd | exact Hom].
Defined.


(** *** Input errors *)

Lemma for_each_inr_body E A S (body : S -> A -> run E S) :
  forall l s0 tr s,
    for_each l body s0 = (tr, inr s) ->
    forall a, In a l -> exists s1 tr1 s2, body s1 a = (tr1, inr s2).
Proof.
  induction l as [| a l IH]; intros s0 tr s Hrun a' Hin; [contradiction |].
  cbn in Hrun. apply bind_inr in Hrun as (tr1 & s1 & tr2 & Hb & Hrest & _).
  destruct Hin as [<- | Hin]; eauto.
Qed.

(** A missing file ends the run at once ([exit()]), before the model. *)
Lemma archivo_ausente_exit fs ahora solver :
  jobs_csv fs = None \/ tecnicos_csv fs = None \/ asignaciones_csv fs = None ->
  outcome (main fs ahora solver) = inl SystemExit /\
  forallb es_mensaje (trace (main fs ahora solver)) = true.
Proof.
  intros Hnone. rewrite main_outcome, main_trace.
  destruct (cargar_cases fs)
    as [(j & t & a & Hj & Ht & Ha & _) | [_ [what ->]]].
  - destruct Hnone as [H | [H | H]]; congruence.
  - split; reflexivity.
Qed.

(** The solver is called only if the columns that the model needs are in
    the tables: [duracion_horas], and [id_job] and [deadline] when the Job
    table has a row; the job and technician columns of the artifact when
    it has a row. *)
Lemma columnas_antes_de_resolver fs ahora solver m jobs asignaciones :
  jobs_csv fs = Some jobs -> asignaciones_csv fs = Some asignaciones ->
  In (Solve m) (trace (main fs ahora solver)) ->
  has_column jobs "duracion_horas" = true /\
  (rows jobs <> [] ->
   has_column jobs "id_job" = true /\ has_column jobs "deadline" = true) /\
  (rows asignaciones <> [] ->
   has_column asignaciones (columna_tecnico_de asignaciones) = true /\
   has_column asignaciones (columna_job_de asignaciones) = true).
Proof.
  intros Hj Ha Hin.
  apply main_resuelve in Hin
    as (jobs' & tecnicos & asignaciones' & tr & st & g & Hj' & _ & Ha' & Hc & _).
  assert (jobs' = jobs) by congruence.
  assert (asignaciones' = asignaciones) by congruence. subst.
  unfold construir in Hc. emite Hc.
  apply bind_inr in Hc as (tra & [] & trb & Hcol & Hc & ->).
  assert (Hdur : has_column jobs "duracion_horas" = true).
  { destruct (has_column jobs "duracion_horas"); [reflexivity | discriminate]. }
  do 2 emite Hc.
  apply bind_inr in Hc as (tr1 & st1 & trc & Hvars & Hc & ->).
  do 3 emite Hc.
  apply bind_inr in Hc as (tr2 & g' & trd & Hagr & Hc & ->).
  emite Hc.
  apply bind_inr in Hc as (tr3 & m3 & tre & Hss & Hc & ->).
  emite Hc.
  apply bind_inr in Hc as (tr4 & m4 & trf & Hlim & Hc & ->).
  split; [exact Hdur |]. split.
  - intros Hne. destruct (iterrows jobs) as [| [k r] l] eqn:Hit.
    { exfalso. apply Hne. rewrite <- (iterrows_snd _ jobs), Hit. reflexivity. }
    destruct (for_each_inr_body _ _ _ _ _ _ _ _ Hvars (k, r)
                (or_introl eq_refl)) as (s1 & t1 & s2 & Hb1).
    destruct (for_each_inr_body _ _ _ _ _ _ _ _ Hlim (k, r)
                (or_introl eq_refl)) as (s1' & t1' & s2' & Hb2).
    apply crear_variables_inr in Hb1 as (Hid & _).
    apply limitar_inicio_inr in Hb2 as (Hdl & _). auto.
  - intros Hne. destruct (rows asignaciones) as [| a l]; [contradiction |].
    destruct (for_each_inr_body _ _ _ _ _ _ _ _ Hagr a (or_introl eq_refl))
      as (s1 & t1 & s2 & Hb).
    apply agrupar_inr in Hb as (Ht & Hjob & _). auto.
Qed.

(** C9, at a Job table without the column [descripcion] (stage b).  The
    column is read only when the schedule rows are made, after the solver
    has answered: the run calls the solver and then raises [KeyError],
    without writing the table; when the solver answers [INFEASIBLE] the
    missing column is not reported at all and the run ends normally. *)
Theorem C9_columna_ausente_tras_resolver :
  (exists m,
      In (Solve m)
         (trace (main EjemplosErrores.fs_sin_descripcion
                      EjemplosHorario.ahora_0
                      EjemplosErrores.solver_optimo))) /\
  outcome (main EjemplosErrores.fs_sin_descripcion EjemplosHorario.ahora_0
                EjemplosErrores.solver_optimo)
  = inl (KeyError "descripcion") /\
  forallb no_es_csv
          (trace (main EjemplosErrores.fs_sin_descripcion
                       EjemplosHorario.ahora_0
                       EjemplosErrores.solver_optimo)) = true /\
  outcome (main EjemplosErrores.fs_sin_descripcion EjemplosHorario.ahora_0
                EjemplosErrores.solver_infactible)
  = inr tt.
Proof.
  split; [eexists; vm_compute; busca |].
  repeat split; vm_compute; reflexivity.
Qed.

End ScheduleFacts.

(** ** Solver status in the two stages *)

Lemma status_informado fs solver prob status v :
  In (Assignment.Solve prob) (trace (Assignment.main fs solver)) ->
  solver prob = (status, v) ->
  In (Assignment.Print
        (Assignment.MsgStatus (Assignment.LpStatus_name status)))
     (trace (Assignment.main fs solver)).
Proof.
  intros Hin Hs.
  destruct (AssignmentFacts.main_evento _ _ _ Hin eq_refl)
    as (j & t & h & st' & v' & Hl & Hq & Hs' & _).
  destruct (AssignmentFacts.main_solve _ _ _ _ _ _ Hl Hin) as [-> _].
  rewrite Hs in Hs'. injection Hs' as <- <-.
  now apply (AssignmentFacts.hasta_resolver_L _ _ _ _ _ _ _ Hl Hq Hs).
Qed.

Lemma LpStatus_name_inj s1 s2 :
  Assignment.LpStatus_name s1 = Assignment.LpStatus_name s2 -> s1 = s2.
Proof. destruct s1, s2; cbn; intros H; (reflexivity || discriminate). Qed.

Lemma sin_solucion fs ahora solver m status v :
  In (Schedule.Solve m) (trace (Schedule.main fs ahora solver)) ->
  solver m = (status, v) ->
  ScheduleSpec.resuelto status = false ->
  exists previo,
    forallb ScheduleSpec.es_mensaje previo = true /\
    Schedule.main fs ahora solver =
    (previo ++ [Schedule.Print Schedule.MsgResolviendo; Schedule.Solve m;
                Schedule.Print Schedule.MsgProcesando;
                Schedule.Print Schedule.MsgNoSolucion;
                Schedule.Print Schedule.MsgCompletado],
     inr tt).
Proof.
  intros Hin Hs Hres.
  apply ScheduleFacts.main_resuelve in Hin
    as (jobs & tecnicos & asignaciones & tr & st & g
        & Hj & Ht & Ha & Hc & ->).
  rewrite (ScheduleFacts.run_eta _ _ (Schedule.main fs ahora solver)).
  rewrite ScheduleFacts.main_trace, ScheduleFacts.main_outcome.
  destruct (ScheduleFacts.cargar_cases fs)
    as [(j' & t' & a' & Hj' & Ht' & Ha' & Hcar) | [[H | [H | H]] _]];
    try congruence.
  assert (j' = jobs) by congruence.
  assert (a' = asignaciones) by congruence. subst.
  rewrite Hcar. cbn [trace outcome fst snd].
  rewrite Hc. cbn [trace outcome fst snd]. rewrite Hs. cbn [fst snd].
  rewrite (ScheduleFacts.procesar_no_resuelto _ _ _ _ _ Hres).
  cbn [trace outcome fst snd].
  exists (Schedule.Print Schedule.MsgInicio
          :: Schedule.Print Schedule.MsgCargando
          :: Schedule.Print
               (Schedule.MsgCargados (List.length (rows jobs))
                                     (List.length (rows t'))
                                     (List.length (rows asignaciones)))
          :: tr).
  split.
  - cbn. pose proof (ScheduleFacts.construir_mensajes jobs asignaciones ahora)
      as Hm. now rewrite Hc in Hm.
  - cbn. reflexivity.
Qed.

(** C7, as stated, fails in both stages.  Stage (b): two jobs of 30 h of
    one technician make the model infeasible, and the run that gets
    [INFEASIBLE] is, event for event, the run that gets [UNKNOWN] (time
    limit reached without a solution).  Stage (a): the only technician is
    not qualified for the only job, the model is infeasible, the solver
    answers [Infeasible], and both result tables are written from the
    values it left. *)
Lemma C7_counterexample :
  ((forall v,
       ~ Schedule.cp_feasible
           (Schedule.model EjemplosErrores.estado_largos) v) /\
   In (Schedule.Solve (Schedule.model EjemplosErrores.estado_largos))
      (trace (Schedule.main EjemplosErrores.fs_largos EjemplosHorario.ahora_0
                            EjemplosErrores.solver_infactible)) /\
   Schedule.main EjemplosErrores.fs_largos EjemplosHorario.ahora_0
                 EjemplosErrores.solver_infactible
   = Schedule.main EjemplosErrores.fs_largos EjemplosHorario.ahora_0
                   EjemplosErrores.solver_agotado) /\
  ((forall v,
       ~ Assignment.lp_feasible EjemplosErrores.prob_incompatible v) /\
   In (Assignment.Solve EjemplosErrores.prob_incompatible)
      (trace (Assignment.main EjemplosErrores.fs_incompatible
                              EjemplosErrores.solver_infactible_a)) /\
   In (Assignment.Print (Assignment.MsgStatus "Infeasible"))
      (trace (Assignment.main EjemplosErrores.fs_incompatible
                              EjemplosErrores.solver_infactible_a)) /\
   exists df cargas,
     In (Assignment.ToCsv_assignment df)
        (trace (Assignment.main EjemplosErrores.fs_incompatible
                                EjemplosErrores.solver_infactible_a)) /\
     In (Assignment.ToCsv_cargas cargas)
        (trace (Assignment.main EjemplosErrores.fs_incompatible
                                EjemplosErrores.solver_infactible_a))).
Proof.
  split; [split; [| split] | split; [| split; [| split]]].
  - intros v [Hd Hc].
    pose proof (Hd 0%nat _ _ eq_refl) as H0.
    pose proof (Hd 1%nat _ _ eq_refl) as H1.
    pose proof (Hd 2%nat _ _ eq_refl) as H2.
    pose proof (Hd 3%nat _ _ eq_refl) as H3.
    cbn in Hc.
    inversion Hc as [| ? ? Hi1 Hc1]; subst.
    inversion Hc1 as [| ? ? Hi2 Hc2]; subst.
    inversion Hc2 as [| ? ? Hno _]; subst.
    cbn in Hi1, Hi2, Hno. destruct Hno as [Hall _].
    inversion Hall as [| ? ? Hdis _]; subst.
    unfold Schedule.disjoint in Hdis. cbn in Hdis. lia.
  - vm_compute. ScheduleFacts.busca.
  - vm_compute. reflexivity.
  - intros v Hfeas.
    assert (Hle : (v (Assignment.Var_x "J1" "T1") <= 0)%Q).
    { apply (AssignmentFacts.factible_compatibilidad _ _ _ _ _ _ Hfeas).
      cbn. tauto. }
    assert (Hu := AssignmentFacts.factible_unica _ _ _ _ _ _ Hfeas "J1"
                    (or_introl eq_refl)).
    unfold Assignment.value in Hu. cbn in Hu. lra.
  - vm_compute. ScheduleFacts.busca.
  - vm_compute. ScheduleFacts.busca.
  - eexists _, _. split; vm_compute; ScheduleFacts.busca.
Qed.

(** C7, amended.  Stage (a) prints the status of the solver by its name,
    and different statuses have different names, so that [Infeasible] is
    told apart from [Not Solved] and [Optimal].  Stage (b) writes no
    schedule table unless the status is [OPTIMAL] or [FEASIBLE]; for every
    other status ([INFEASIBLE], [UNKNOWN], [MODEL_INVALID]) it prints the
    same message, "no feasible solution found", and ends normally. *)
Theorem C7_estado_del_solver :
  (forall fs solver prob status v,
      In (Assignment.Solve prob) (trace (Assignment.main fs solver)) ->
      solver prob = (status, v) ->
      In (Assignment.Print
            (Assignment.MsgStatus (Assignment.LpStatus_name status)))
         (trace (Assignment.main fs solver))) /\
  (forall s1 s2,
      Assignment.LpStatus_name s1 = Assignment.LpStatus_name s2 -> s1 = s2) /\
  (forall fs ahora solver m status v,
      In (Schedule.Solve m) (trace (Schedule.main fs ahora solver)) ->
      solver m = (status, v) ->
      ScheduleSpec.resuelto status = false ->
      In (Schedule.Print Schedule.MsgNoSolucion)
         (trace (Schedule.main fs ahora solver)) /\
      (forall df, ~ In (Schedule.ToCsv_schedule df)
                       (trace (Schedule.main fs ahora solver))) /\
      outcome (Schedule.main fs ahora solver) = inr tt /\
      (forall solver' status' v',
          solver' m = (status', v') ->
          ScheduleSpec.resuelto status' = false ->
          Schedule.main fs ahora solver' = Schedule.main fs ahora solver)).
Proof.
  split; [exact status_informado |]. split; [exact LpStatus_name_inj |].
  intros fs ahora solver m status v Hin Hs Hres.
  destruct (sin_solucion _ _ _ _ _ _ Hin Hs Hres) as (previo & Hmsg & Hrun).
  split; [| split; [| split]].
  - rewrite Hrun. cbn [trace fst]. apply in_or_app. right. cbn. tauto.
  - intros df Hdf. rewrite Hrun in Hdf. cbn [trace fst] in Hdf.
    apply in_app_or in Hdf as [Hdf | Hdf].
    + rewrite forallb_forall in Hmsg. specialize (Hmsg _ Hdf). discriminate.
    + repeat (destruct Hdf as [Hdf | Hdf]; [discriminate |]). contradiction.
  - now rewrite Hrun.
  - intros solver' status' v' Hs' Hres'.
    assert (Hin' : In (Schedule.Solve m)
                      (trace (Schedule.main fs ahora solver'))).
    { rewrite ScheduleFacts.main_trace.
      pose proof (ScheduleFacts.main_resuelve _ _ _ _ Hin) as Hdec.
      destruct Hdec as (jobs & tecnicos & asignaciones & tr & st & g
                        & Hj & Ht & Ha & Hc & ->).
      destruct (ScheduleFacts.cargar_cases fs)
        as [(j' & t' & a' & Hj' & Ht' & Ha' & Hcar) | [[H | [H | H]] _]];
        try congruence.
      assert (j' = jobs) by congruence.
      assert (a' = asignaciones) by congruence. subst.
      rewrite Hcar. cbn [trace outcome fst snd app].
      rewrite Hc. cbn [trace outcome fst snd app].
      do 3 right. apply in_or_app. right. cbn. tauto. }
    rewrite (ScheduleFacts.run_eta _ _ (Schedule.main fs ahora solver')).
    rewrite (ScheduleFacts.run_eta _ _ (Schedule.main fs ahora solver)).
    rewrite !ScheduleFacts.main_trace, !ScheduleFacts.main_outcome.
    pose proof (ScheduleFacts.main_resuelve _ _ _ _ Hin) as Hdec.
    destruct Hdec as (jobs & tecnicos & asignaciones & tr & st & g
                      & Hj & Ht & Ha & Hc & ->).
    destruct (ScheduleFacts.cargar_cases fs)
      as [(j' & t' & a' & Hj' & Ht' & Ha' & Hcar) | [[H | [H | H]] _]];
      try congruence.
    assert (j' = jobs) by congruence.
    assert (a' = asignaciones) by congruence. subst.
    rewrite Hcar. cbn [trace outcome fst snd].
    rewrite Hc. cbn [trace outcome fst snd]. rewrite Hs, Hs'. cbn [fst snd].
    now rewrite !(ScheduleFacts.procesar_no_resuelto _ _ _ _ _ Hres),
                !(ScheduleFacts.procesar_no_resuelto _ _ _ _ _ Hres').
Qed.

Lemma C7_witness :
  (In (Schedule.Solve (Schedule.model EjemplosErrores.estado_largos))
      (trace (Schedule.main EjemplosErrores.fs_largos EjemplosHorario.ahora_0
                            EjemplosErrores.solver_infactible)) /\
   EjemplosErrores.solver_infactible
     (Schedule.model EjemplosErrores.estado_largos)
   = (Schedule.INFEASIBLE, fun _ => 0) /\
   ScheduleSpec.resuelto Schedule.INFEASIBLE = false) /\
  In (Schedule.Print Schedule.MsgNoSolucion)
     (trace (Schedule.main EjemplosErrores.fs_largos EjemplosHorario.ahora_0
                           EjemplosErrores.solver_infactible)) /\
  (forall df,
      ~ In (Schedule.ToCsv_schedule df)
           (trace (Schedule.main EjemplosErrores.fs_largos
                                 EjemplosHorario.ahora_0
                                 EjemplosErrores.solver_infactible))) /\
  outcome (Schedule.main EjemplosErrores.fs_largos EjemplosHorario.ahora_0
                         EjemplosErrores.solver_infactible) = inr tt.
Proof.
  assert (Hin : In (Schedule.Solve
                      (Schedule.model EjemplosErrores.estado_largos))
                   (trace (Schedule.main EjemplosErrores.fs_largos
                                         EjemplosHorario.ahora_0
                                         EjemplosErrores.solver_infactible))).
  { vm_compute. ScheduleFacts.busca. }
  split; [repeat split; exact Hin |].
  destruct (proj2 (proj2 C7_estado_del_solver)
                  EjemplosErrores.fs_largos EjemplosHorario.ahora_0
                  EjemplosErrores.solver_infactible
                  (Schedule.model EjemplosErrores.estado_largos)
                  Schedule.INFEASIBLE (fun _ => 0) Hin eq_refl eq_refl)
    as (H1 & H2 & H3 & _).
  auto.
Defined.

(** * Further properties of the two stages *)

(** ** Stage (a): the checks of the inputs *)
Module AssignmentChecks.
Import Assignment AssignmentSpec AssignmentFacts.

Lemma run_ext E A (m : run E A) t o :
  trace m = t -> outcome m = o -> m = (t, o).
Proof. destruct m. cbn. now intros -> ->. Qed.

(** *** Lines 22-30: the three files *)

(** X1. Stage (a) checks that its three files exist, in the order jobs,
    tecnicos, habilidades, and raises [FileNotFoundError] for the first one
    that is missing; by then it has printed its banner and nothing else:
    no table is validated, the solver is not called, nothing is written. *)
Theorem archivo_inexistente :
  forall (j : DataFrame job_row) (t : DataFrame tecnico_row) ot oh solver,
    main {| jobs_csv := None; tecnicos_csv := ot; habilidades_csv := oh |}
         solver
    = ([Print MsgInicio], inl (FileNotFoundError "jobs")) /\
    main {| jobs_csv := Some j; tecnicos_csv := None; habilidades_csv := oh |}
         solver
    = ([Print MsgInicio], inl (FileNotFoundError "tecnicos")) /\
    main {| jobs_csv := Some j; tecnicos_csv := Some t;
            habilidades_csv := None |} solver
    = ([Print MsgInicio], inl (FileNotFoundError "habilidades")).
Proof. intros. repeat split. Qed.

(** *** Lines 35-39: the headers *)



(** *** The exceptions a run can end with *)

Lemma bind_inl E A B (m : run E A) (f : A -> run E B) tr e :
  bind m f = (tr, inl e) ->
  m = (tr, inl e) \/
  exists tr1 a tr2, m = (tr1, inr a) /\ f a = (tr2, inl e) /\ tr = tr1 ++ tr2.
Proof.
  destruct m as [tr1 [e1 | a]]; cbn.
  - intros [= <- <-]. now left.
  - destruct (f a) as [tr2 r] eqn:Ef. intros [= <- ->]. right.
    exists tr1, a, tr2. auto.
Qed.

Lemma map_run_inl E A B (f : A -> run E B) l :
  forall tr e, map_run f l = (tr, inl e) ->
               exists a tr', In a l /\ f a = (tr', inl e).
Proof.
  induction l as [| a l IH]; intros tr e H; cbn in H; [discriminate |].
  apply bind_inl in H as [H | (tr1 & b & tr2 & _ & H & _)].
  - exists a, tr. split; [now left | exact H].
  - apply bind_inl in H as [H | (tr3 & bs & tr4 & _ & H & _)].
    + destruct (IH _ _ H) as (a' & tr' & Hin & Ha').
      exists a', tr'. split; [now right | exact Ha'].
    + discriminate.
Qed.

(** Building the model can only fail on a key that a dictionary lacks. *)
Lemma subscript_error K V (eqb : K -> K -> bool) repr (d : dict K V) k tr e :
  @subscript event K V eqb repr d k = (tr, inl e) ->
  tr = [] /\ e = KeyError (repr k) /\ dict_get eqb d k = None.
Proof.
  unfold subscript. destruct (dict_get eqb d k); [discriminate |].
  intros [= <- <-]. auto.
Qed.


(** *** Runs that pass the checks *)

Lemma main_modelo_falla fs solver jobs tecnicos habilidades tr e :
  leidos fs jobs tecnicos habilidades ->
  modelo (J_de jobs) (T_de tecnicos) (p_of jobs) (H_of tecnicos)
         (q_of habilidades) = (tr, inl e) ->
  main fs solver =
  ([Print MsgInicio; Print MsgDatosCargados; Print MsgPreparando;
    Print MsgCreando], inl e).
Proof.
  intros (j0 & t0 & h0 & Hj & Ht & Hh & -> & -> & -> & Hcj & Hct & Hch) Hm.
  pose proof (modelo_trace (J_de (rename strip j0))
                (T_de (rename normalizar_tecnico (rename strip t0)))
                (p_of (rename strip j0))
                (H_of (rename normalizar_tecnico (rename strip t0)))
                (q_of (rename strip h0))) as Htr.
  rewrite Hm in Htr. cbn in Htr. subst tr.
  unfold J_de, T_de in Hm.
  apply run_ext; unfold main; rewrite Hj, Ht, Hh; do 4 avanzar.
  all: rewrite (validar_ok _ _ _ _ Hcj); avanzar.
  all: rewrite (validar_ok _ _ _ _ Hct); avanzar.
  all: rewrite (validar_ok _ _ _ _ Hch); do 4 avanzar.
  all: rewrite Hm; reflexivity.
Qed.



(** *** Lines 42-52: the required columns *)





(** *** Lines 92-94: the pairs of the compatibility table *)

Lemma q_of_keys habilidades k :
  In k (dict_keys (q_of habilidades)) <->
  exists r, In r (rows habilidades) /\ (h_id_job r, h_id_tecnico r) = k.
Proof.
  unfold q_of. rewrite (dict_of_keys _ _ _ pair_eqb pair_eqb_spec).
  rewrite in_map_iff. split; intros (r & H1 & H2); exists r; auto.
Qed.

(** X4. A row of the compatibility table that names a job that is not in
    the Job table, or a technician that is not in the Technicians table,
    stops stage (a) while it builds the model (job ids being unique, so
    that the constraints of line 90 have been added): the run ends with the
    [KeyError] of such a pair at line 94, before the solver is called and
    without writing anything. *)
Theorem par_desconocido :
  forall fs solver jobs tecnicos habilidades r,
    leidos fs jobs tecnicos habilidades ->
    NoDup (J_de jobs) ->
    In r (rows habilidades) ->
    ~ In (h_id_job r) (J_de jobs) \/ ~ In (h_id_tecnico r) (T_de tecnicos) ->
    exists r',
      In r' (rows habilidades) /\
      (~ In (h_id_job r') (J_de jobs) \/
       ~ In (h_id_tecnico r') (T_de tecnicos)) /\
      main fs solver =
      ([Print MsgInicio; Print MsgDatosCargados; Print MsgPreparando;
        Print MsgCreando],
       inl (KeyError (repr_pair (h_id_job r', h_id_tecnico r')))).
Proof.
  intros fs solver jobs tecnicos habilidades r Hl _ Hr Hbad.
  destruct (modelo (J_de jobs) (T_de tecnicos) (p_of jobs) (H_of tecnicos)
                   (q_of habilidades)) as [tr [e | prob]] eqn:Hm.
  2:{ exfalso. apply modelo_inr in Hm. unfold pares_conocidos in Hm.
      rewrite Forall_forall in Hm.
      assert (Hk : In (h_id_job r, h_id_tecnico r)
                      (dict_keys (q_of habilidades)))
        by (apply q_of_keys; eauto).
      unfold dict_keys in Hk. apply in_map_iff in Hk as (kv & Hkv & Hin).
      specialize (Hm _ Hin). rewrite Hkv in Hm.
      apply in_prod_iff in Hm. tauto. }
  assert (Hkey : exists kv, In kv (q_of habilidades) /\
                   ~ In (fst kv) (list_prod (J_de jobs) (T_de tecnicos)) /\
                   e = KeyError (repr_pair (fst kv))).
  { pose proof Hm as Hm'. unfold modelo in Hm'.
    rewrite (bind_pure _ _ _ _ _
               (map (asignacion_unica (T_de tecnicos)) (J_de jobs))) in Hm'.
    2:{ apply map_run_pure. intros j Hj.
        rewrite (bind_pure _ _ _ _ _
                   (map (fun t => (Var_x j t, 1%Q)) (T_de tecnicos))).
        - reflexivity.
        - apply map_run_pure. intros t Ht.
          now rewrite (bind_pure _ _ _ _ _ _ (item_x_In _ _ _ _ Hj Ht)). }
    apply bind_inl in Hm' as [Hc2 | (tr1 & c2 & tr2 & Hc2 & _ & _)].
    - apply map_run_inl in Hc2 as (kv & tr' & Hin & Hkv).
      apply bind_inl in Hkv as [Hx | (? & ? & ? & _ & Hx & _)];
        [| discriminate].
      apply subscript_error in Hx as (_ & -> & Hnone).
      exists kv. repeat split; auto.
      intros Hprod. destruct (fst kv) as [j t] eqn:Ek.
      apply in_prod_iff in Hprod as [Hj Ht].
      rewrite (x_of_get_In _ _ _ _ Hj Ht) in Hnone. discriminate.
    - exfalso.
      assert (Hk : In (h_id_job r, h_id_tecnico r)
                      (dict_keys (q_of habilidades)))
        by (apply q_of_keys; eauto).
      unfold dict_keys in Hk. apply in_map_iff in Hk as (kv & Hkv & Hin).
      destruct (map_run_inr _ _ _ _ _ _ _ Hc2 kv Hin) as (tr' & b & Hb).
      apply bind_inr in Hb as (tr5 & xv & tr6 & Hx & _ & _).
      apply item_x_inr in Hx as (_ & _ & Hprod). rewrite Hkv in Hprod.
      apply in_prod_iff in Hprod. tauto. }
  destruct Hkey as (kv & Hin & Hnot & ->).
  assert (Hk : In (fst kv) (dict_keys (q_of habilidades)))
    by (unfold dict_keys; now apply in_map).
  apply q_of_keys in Hk as (r' & Hr' & Hkr').
  exists r'. split; [exact Hr' |]. split.
  - rewrite <- Hkr' in Hnot. rewrite in_prod_iff in Hnot.
    destruct (in_dec string_dec (h_id_job r') (J_de jobs)); [| now left].
    right. tauto.
  - rewrite Hkr'. eapply main_modelo_falla; eauto.
Qed.

Lemma leidos_j9 :
  leidos EjemplosEntradas.fs_j9 Ejemplos.jobs_dos' Ejemplos.tecnicos_dos'
         (rename strip EjemplosEntradas.habilidades_j9).
Proof.
  exists Ejemplos.jobs_dos, Ejemplos.tecnicos_dos,
    EjemplosEntradas.habilidades_j9.
  repeat split; intros c Hc; simpl in Hc;
    repeat (destruct Hc as [<- | Hc]; [reflexivity |]); contradiction.
Qed.

Lemma par_desconocido_witness :
  (leidos EjemplosEntradas.fs_j9 Ejemplos.jobs_dos' Ejemplos.tecnicos_dos'
          (rename strip EjemplosEntradas.habilidades_j9) /\
   NoDup (J_de Ejemplos.jobs_dos') /\
   In (Ejemplos.habilidad "J9" "T1" 1)
      (rows (rename strip EjemplosEntradas.habilidades_j9)) /\
   ~ In "J9" (J_de Ejemplos.jobs_dos')) /\
  exists r',
    In r' (rows (rename strip EjemplosEntradas.habilidades_j9)) /\
    (~ In (h_id_job r') (J_de Ejemplos.jobs_dos') \/
     ~ In (h_id_tecnico r') (T_de Ejemplos.tecnicos_dos')) /\
    main EjemplosEntradas.fs_j9 Ejemplos.solver_dos =
    ([Print MsgInicio; Print MsgDatosCargados; Print MsgPreparando;
      Print MsgCreando],
     inl (KeyError (repr_pair (h_id_job r', h_id_tecnico r')))).
Proof.
  assert (Hin : In (Ejemplos.habilidad "J9" "T1" 1)
                   (rows (rename strip EjemplosEntradas.habilidades_j9)))
    by (simpl; auto).
  assert (Hno : ~ In "J9" (J_de Ejemplos.jobs_dos'))
    by (simpl; intuition discriminate).
  assert (HndJ : NoDup (J_de Ejemplos.jobs_dos')).
  { repeat constructor; simpl; intuition discriminate. }
  split; [auto using leidos_j9 |].
  exact (par_desconocido EjemplosEntradas.fs_j9 Ejemplos.solver_dos
           Ejemplos.jobs_dos' Ejemplos.tecnicos_dos'
           (rename strip EjemplosEntradas.habilidades_j9)
           (Ejemplos.habilidad "J9" "T1" 1) leidos_j9 HndJ Hin
           (or_introl Hno)).
Defined.

End AssignmentChecks.

(** ** Stage (a): what the run computes from the answer of the solver *)
Module AssignmentOutputs.
Import Assignment AssignmentSpec AssignmentFacts.

(** *** Dictionaries built from rows with distinct keys *)

Section DictNoDup.
Variables (K V R : Type) (eqb : K -> K -> bool).
Hypothesis eqb_spec : forall a b, eqb a b = true <-> a = b.
Variables (key : R -> K) (val : R -> V).

Lemma dict_set_fresh (d : dict K V) k v :
  ~ In k (dict_keys d) -> dict_set eqb d k v = d ++ [(k, v)].
Proof.
  unfold dict_keys. induction d as [| [k' v'] d IH]; cbn; intros Hni;
    [reflexivity |].
  destruct (eqb k' k) eqn:E.
  - apply eqb_spec in E. subst. exfalso. apply Hni. now left.
  - rewrite IH; [reflexivity |]. intros Hin. apply Hni. now right.
Qed.

Lemma dict_fold_fresh (l : list R) :
  forall d0 : dict K V,
    NoDup (dict_keys d0 ++ map key l) ->
    fold_left (fun d r => dict_set eqb d (key r) (val r)) l d0
    = d0 ++ map (fun r => (key r, val r)) l.
Proof.
  induction l as [| r l IH]; intros d0 Hnd; cbn.
  - now rewrite app_nil_r.
  - cbn in Hnd. pose proof (NoDup_remove_2 _ _ _ Hnd) as Hni.
    rewrite dict_set_fresh.
    2:{ intros Hin. apply Hni. apply in_or_app. now left. }
    rewrite IH.
    + now rewrite <- app_assoc.
    + unfold dict_keys. rewrite map_app. cbn. rewrite <- app_assoc. cbn.
      exact Hnd.
Qed.

Lemma dict_of_NoDup_map (l : list R) :
  NoDup (map key l) ->
  dict_of eqb key val l = map (fun r => (key r, val r)) l.
Proof. intros Hnd. unfold dict_of. now rewrite dict_fold_fresh. Qed.

End DictNoDup.

Lemma cargas_de_NoDup p v J T :
  NoDup T -> cargas_de p v J T = map (fun t => (t, carga_de p v J t)) T.
Proof.
  intros Hnd. unfold cargas_de.
  apply (dict_of_NoDup_map _ _ _ String.eqb String.eqb_eq).
  now rewrite map_id.
Qed.

(** *** Sums *)

Lemma suma_map_ext A (g h : A -> Q) l :
  (forall a, In a l -> (g a == h a)%Q) ->
  (suma (map g l) == suma (map h l))%Q.
Proof.
  induction l as [| a l IH]; intros Hgh; [reflexivity |].
  pose proof (Hgh a (or_introl eq_refl)).
  assert (suma (map g l) == suma (map h l))%Q
    by (apply IH; intros a' Ha'; apply Hgh; now right).
  unfold suma in *. cbn [map fold_right]. lra.
Qed.

Lemma suma_map_le A (g h : A -> Q) l :
  (forall a, In a l -> (g a <= h a)%Q) ->
  (suma (map g l) <= suma (map h l))%Q.
Proof.
  induction l as [| a l IH]; intros Hgh; [cbn; lra |].
  pose proof (Hgh a (or_introl eq_refl)).
  assert (suma (map g l) <= suma (map h l))%Q
    by (apply IH; intros a' Ha'; apply Hgh; now right).
  unfold suma in *. cbn [map fold_right]. lra.
Qed.

Lemma suma_mas A (g h : A -> Q) l :
  (suma (map (fun a => g a + h a) l) == suma (map g l) + suma (map h l))%Q.
Proof.
  induction l as [| a l IH]; [cbn; lra |].
  unfold suma in *. cbn [map fold_right]. lra.
Qed.

Lemma suma_constante A (c : Q) (l : list A) :
  (suma (map (fun _ => c) l) == inject_Z (Z.of_nat (List.length l)) * c)%Q.
Proof.
  induction l as [| a l IH].
  { change (inject_Z (Z.of_nat (List.length (@nil A)))) with 0%Q. cbn. lra. }
  cbn [List.length]. rewrite Nat2Z.inj_succ. unfold Z.succ.
  rewrite inject_Z_plus. change (inject_Z 1) with 1%Q.
  unfold suma in *. cbn [map fold_right]. lra.
Qed.

Lemma suma_filter A (b : A -> bool) (c : A -> Q) l :
  (suma (map c (filter b l))
   == suma (map (fun a => if b a then c a else 0) l))%Q.
Proof.
  induction l as [| a l IH]; [reflexivity |].
  unfold suma in *. cbn [filter map fold_right].
  destruct (b a); cbn [map fold_right]; lra.
Qed.

(** Summing by technician the jobs of each one, or by job, counts the same
    hours. *)
Lemma suma_intercambio A B (f : A -> B -> bool) (c : B -> Q) T J :
  (suma (map (fun t => suma (map c (filter (f t) J))) T)
   == suma (map (fun j =>
                   c j * inject_Z (Z.of_nat
                                     (List.length (filter (fun t => f t j) T))))
                J))%Q.
Proof.
  induction T as [| t T IH].
  - cbn [map filter List.length]. change (inject_Z (Z.of_nat 0)) with 0%Q.
    induction J as [| j J IHJ]; [reflexivity |].
    unfold suma in *. cbn [map fold_right] in *. lra.
  - pose proof (suma_filter _ (f t) c J) as Hf.
    pose proof (suma_mas _ (fun j => if f t j then c j else 0%Q)
                  (fun j => (c j * inject_Z (Z.of_nat
                              (List.length (filter (fun t => f t j) T))))%Q) J)
      as Hm.
    assert (Hgoal :
      (suma (map (fun j => (if f t j then c j else 0) +
                   c j * inject_Z (Z.of_nat
                           (List.length (filter (fun t => f t j) T)))) J)
       == suma (map (fun j =>
                   c j * inject_Z (Z.of_nat
                           (List.length (filter (fun t0 => f t0 j) (t :: T)))))
                J))%Q).
    2:{ unfold suma in *. cbn [map fold_right] in *. lra. }
    apply suma_map_ext. intros j _. cbn [filter].
    destruct (f t j); cbn [List.length].
    + rewrite Nat2Z.inj_succ. unfold Z.succ. rewrite inject_Z_plus.
      change (inject_Z 1) with 1%Q. lra.
    + lra.
Qed.

(** In a feasible answer the loads of the technicians add up to the hours
    of the jobs. *)
Lemma cargas_total J T p H q v :
  lp_feasible (modelo_de J T p H q) v ->
  (suma (map (carga_de p v J) T) == suma (map (dict_get_default p) J))%Q.
Proof.
  intros Hfeas.
  rewrite (suma_map_ext _ _
             (fun t => suma (map (dict_get_default p)
                                 (filter (asignado v t) J)))).
  2:{ intros t _. apply carga_de_suma. }
  rewrite (suma_intercambio _ _ (asignado v)).
  apply suma_map_ext. intros j Hj.
  rewrite (un_tecnico _ _ _ _ _ _ _ Hfeas Hj).
  change (inject_Z (Z.of_nat 1)) with 1%Q. lra.
Qed.

Lemma horas_de_filas jobs :
  NoDup (J_de jobs) ->
  map (dict_get_default (p_of jobs)) (J_de jobs)
  = map duracion_horas (rows jobs).
Proof.
  intros Hnd. unfold J_de. rewrite map_map. apply map_ext_in.
  intros r Hr. now apply p_of_fila.
Qed.

(** *** Lines 121-147: nothing assigned *)

(** X5. When the answer of the solver gives the value 1 to no variable
    [x[(j, t)]] (in particular when the Job table has no row), stage (a),
    job and technician ids being unique, calls the solver and prints status
    and objective, and then ends with [KeyError('tecnico_id')] in the merge
    of line 146, [resultados] being empty: neither table nor the log is
    written. *)
Theorem nada_asignado :
  forall fs solver jobs tecnicos habilidades prob status v,
    leidos fs jobs tecnicos habilidades ->
    NoDup (J_de jobs) -> NoDup (T_de tecnicos) ->
    In (Solve prob) (trace (main fs solver)) ->
    solver prob = (status, v) ->
    (forall j t, In j (J_de jobs) -> In t (T_de tecnicos) ->
                 asignado v t j = false) ->
    main fs solver
    = ([Print MsgInicio; Print MsgDatosCargados; Print MsgPreparando;
        Print MsgCreando; Print MsgResolviendo; Solve prob;
        Print MsgResultados; Print (MsgStatus (LpStatus_name status));
        Print (MsgCargaMaxima (v Var_L))],
       inl (KeyError "tecnico_id")).
Proof.
  intros fs solver jobs tecnicos habilidades prob status v Hl _ _ Hsolve Hs
         Hno.
  destruct (main_solve _ _ _ _ _ _ Hl Hsolve) as [-> Hq].
  destruct (main_ok _ _ _ _ _ _ _ Hl Hq Hs) as [Htr Ho].
  assert (Hnil : resultados_de jobs (p_of jobs) v (J_de jobs) (T_de tecnicos)
                 = []).
  { unfold resultados_de.
    assert (Hall : forall T', incl T' (T_de tecnicos) ->
              flat_map (fun t => map (fila jobs (p_of jobs) t)
                                     (trabajos_de v (J_de jobs) t)) T' = []).
    { induction T' as [| t T' IH]; intros Hinc; [reflexivity |].
      cbn. rewrite IH by (intros x Hx; apply Hinc; now right).
      rewrite app_nil_r. unfold trabajos_de.
      assert (Hf : filter (asignado v t) (J_de jobs) = []).
      { assert (Ht : In t (T_de tecnicos)) by (apply Hinc; now left).
        assert (HJ : forall J', incl J' (J_de jobs) ->
                       filter (asignado v t) J' = []).
        { induction J' as [| j J' IHJ]; intros HJ'; [reflexivity |].
          cbn. rewrite (Hno j t (HJ' _ (or_introl eq_refl)) Ht).
          apply IHJ. intros x Hx. apply HJ'. now right. }
        apply HJ. apply incl_refl. }
      now rewrite Hf. }
    apply Hall. apply incl_refl. }
  rewrite Hnil in Htr, Ho. rewrite app_nil_r in Htr.
  apply AssignmentChecks.run_ext; assumption.
Qed.

Lemma leidos_sin_trabajos :
  leidos EjemplosEntradas.fs_sin_trabajos
         (rename strip (Ejemplos.tabla_jobs []))
         Ejemplos.tecnicos_dos'
         (rename strip (Ejemplos.tabla_habilidades [])).
Proof.
  exists (Ejemplos.tabla_jobs []), Ejemplos.tecnicos_dos,
    (Ejemplos.tabla_habilidades []).
  repeat split; intros c Hc; simpl in Hc;
    repeat (destruct Hc as [<- | Hc]; [reflexivity |]); contradiction.
Qed.

Lemma nada_asignado_witness :
  (leidos EjemplosEntradas.fs_sin_trabajos
          (rename strip (Ejemplos.tabla_jobs []))
          Ejemplos.tecnicos_dos'
          (rename strip (Ejemplos.tabla_habilidades [])) /\
   NoDup (J_de (rename strip (Ejemplos.tabla_jobs []))) /\
   NoDup (T_de Ejemplos.tecnicos_dos') /\
   In (Solve (problema (rename strip (Ejemplos.tabla_jobs []))
                       Ejemplos.tecnicos_dos'
                       (rename strip (Ejemplos.tabla_habilidades []))))
      (trace (main EjemplosEntradas.fs_sin_trabajos Ejemplos.solver_dos)) /\
   rows (rename strip (Ejemplos.tabla_jobs [])) = []) /\
  outcome (main EjemplosEntradas.fs_sin_trabajos Ejemplos.solver_dos)
  = inl (KeyError "tecnico_id").
Proof.
  assert (Hsolve :
    In (Solve (problema (rename strip (Ejemplos.tabla_jobs []))
                        Ejemplos.tecnicos_dos'
                        (rename strip (Ejemplos.tabla_habilidades []))))
       (trace (main EjemplosEntradas.fs_sin_trabajos Ejemplos.solver_dos))).
  { vm_compute. do 5 right. left. reflexivity. }
  assert (HndJ : NoDup (J_de (rename strip (Ejemplos.tabla_jobs []))))
    by constructor.
  assert (HndT : NoDup (T_de Ejemplos.tecnicos_dos')).
  { repeat constructor; simpl; intuition discriminate. }
  split.
  { refine (conj leidos_sin_trabajos (conj HndJ (conj HndT (conj Hsolve _)))).
    reflexivity. }
  rewrite (nada_asignado EjemplosEntradas.fs_sin_trabajos Ejemplos.solver_dos
             (rename strip (Ejemplos.tabla_jobs []))
             Ejemplos.tecnicos_dos'
             (rename strip (Ejemplos.tabla_habilidades []))
             _ Optimal Ejemplos.v_dos leidos_sin_trabajos HndJ HndT Hsolve
             eq_refl).
  - reflexivity.
  - intros j t Hj. contradiction.
Defined.

(** *** Lines 121-136 and 155-158: the loads *)

(** X6. In stage (a), for every feasible answer (job and technician ids
    being unique), the loads of the table [tecnicos_carga.csv] add up to
    the hours of all the jobs: no hour is lost and none is counted twice.
    Hence the hours of all the jobs are at most the capacity of all the
    technicians over the seven days, and at most the number of technicians
    times the objective [L]. *)
Theorem horas_conservadas :
  forall fs solver jobs tecnicos habilidades prob status v,
    leidos fs jobs tecnicos habilidades ->
    NoDup (J_de jobs) -> NoDup (T_de tecnicos) ->
    In (Solve prob) (trace (main fs solver)) ->
    solver prob = (status, v) ->
    lp_feasible prob v ->
    (forall cargas, In (ToCsv_cargas cargas) (trace (main fs solver)) ->
       (suma (map snd cargas) == suma (map duracion_horas (rows jobs)))%Q) /\
    (suma (map duracion_horas (rows jobs))
     <= suma (map (fun r => capacidad_diaria_h r * 7) (rows tecnicos)))%Q /\
    (suma (map duracion_horas (rows jobs))
     <= inject_Z (Z.of_nat (List.length (rows tecnicos))) * v Var_L)%Q.
Proof.
  intros fs solver jobs tecnicos habilidades prob status v
         Hl HndJ HndT Hsolve Hs Hfeas.
  destruct (main_solve _ _ _ _ _ _ Hl Hsolve) as [-> Hq].
  pose proof (cargas_total _ _ _ _ _ _ Hfeas) as Htot.
  rewrite (horas_de_filas _ HndJ) in Htot.
  assert (Hbin : forall t j, In j (J_de jobs) -> In t (T_de tecnicos) ->
            (v (Var_x j t) == 0 \/ v (Var_x j t) == 1)%Q).
  { intros t j Hj Ht. now apply (factible_binaria _ _ _ _ _ _ Hfeas). }
  split; [| split].
  - intros cargas Hc. rewrite (main_cargas _ _ _ _ _ _ _ _ Hl Hs Hc).
    rewrite (cargas_de_NoDup _ _ _ _ HndT), map_map. cbn [snd].
    exact Htot.
  - rewrite <- Htot. unfold T_de. rewrite map_map.
    apply suma_map_le. intros r Hr.
    assert (Ht : In (id_tecnico r) (T_de tecnicos)) by now apply in_map.
    rewrite (carga_de_valor v (id_tecnico r) (p_of jobs) _
               (fun j Hj => Hbin _ j Hj Ht)).
    rewrite <- (H_of_fila _ _ HndT Hr).
    exact (factible_capacidad _ _ _ _ _ _ Hfeas _ Ht).
  - rewrite <- Htot.
    rewrite <- (suma_constante _ (v Var_L) (rows tecnicos)).
    unfold T_de. rewrite map_map.
    apply suma_map_le. intros r Hr.
    assert (Ht : In (id_tecnico r) (T_de tecnicos)) by now apply in_map.
    rewrite (carga_de_valor v (id_tecnico r) (p_of jobs) _
               (fun j Hj => Hbin _ j Hj Ht)).
    exact (factible_balance _ _ _ _ _ _ Hfeas _ Ht).
Qed.

Lemma horas_conservadas_witness :
  (leidos Ejemplos.fs_dos Ejemplos.jobs_dos' Ejemplos.tecnicos_dos'
          Ejemplos.habilidades_dos' /\
   NoDup (J_de Ejemplos.jobs_dos') /\ NoDup (T_de Ejemplos.tecnicos_dos') /\
   In (Solve Ejemplos.prob_dos)
      (trace (main Ejemplos.fs_dos Ejemplos.solver_dos)) /\
   Ejemplos.solver_dos Ejemplos.prob_dos = (Optimal, Ejemplos.v_dos) /\
   lp_feasible Ejemplos.prob_dos Ejemplos.v_dos /\
   In (ToCsv_cargas [("T1", 8%Q); ("T2", 0%Q)])
      (trace (main Ejemplos.fs_dos Ejemplos.solver_dos))) /\
  (suma (map snd [("T1", 8%Q); ("T2", 0%Q)])
   == suma (map duracion_horas (rows Ejemplos.jobs_dos')))%Q.
Proof.
  assert (HndJ : NoDup (J_de Ejemplos.jobs_dos')).
  { repeat constructor; simpl; intuition discriminate. }
  assert (HndT : NoDup (T_de Ejemplos.tecnicos_dos')).
  { repeat constructor; simpl; intuition discriminate. }
  assert (Hsolve : In (Solve Ejemplos.prob_dos)
                      (trace (main Ejemplos.fs_dos Ejemplos.solver_dos))).
  { vm_compute. do 5 right. left. reflexivity. }
  assert (Hs : Ejemplos.solver_dos Ejemplos.prob_dos
               = (Optimal, Ejemplos.v_dos)) by reflexivity.
  assert (Hfeas : lp_feasible Ejemplos.prob_dos Ejemplos.v_dos).
  { apply lp_feasibleb_ok. vm_compute. reflexivity. }
  assert (Hc : In (ToCsv_cargas [("T1", 8%Q); ("T2", 0%Q)])
                  (trace (main Ejemplos.fs_dos Ejemplos.solver_dos))).
  { vm_compute. do 11 right. left. reflexivity. }
  split; [auto 10 using leidos_dos |].
  exact (proj1 (horas_conservadas Ejemplos.fs_dos Ejemplos.solver_dos
                  Ejemplos.jobs_dos' Ejemplos.tecnicos_dos'
                  Ejemplos.habilidades_dos' Ejemplos.prob_dos
                  Optimal Ejemplos.v_dos leidos_dos HndJ HndT Hsolve Hs Hfeas)
               _ Hc).
Defined.

(** *** Lines 163-172: the utilisation of each technician *)

Lemma en_escritura fs solver jobs tecnicos habilidades status v m :
  leidos fs jobs tecnicos habilidades ->
  pares_conocidos (J_de jobs) (T_de tecnicos) (q_of habilidades) ->
  solver (problema jobs tecnicos habilidades) = (status, v) ->
  (forall n, m <> MsgCargaMaxima n) ->
  m <> MsgInicio -> m <> MsgDatosCargados -> m <> MsgPreparando ->
  m <> MsgCreando -> m <> MsgResolviendo -> m <> MsgResultados ->
  (forall n, m <> MsgStatus n) ->
  In (Print m) (trace (main fs solver)) ->
  In (Print m) (escritura jobs tecnicos status v).
Proof.
  intros Hl Hq Hs H1 H2 H3 H4 H5 H6 H7 H8 Hin.
  destruct (main_ok _ _ _ _ _ _ _ Hl Hq Hs) as [Htr _].
  rewrite Htr in Hin. apply in_app_or in Hin as [Hin | Hin].
  - exfalso. unfold hasta_resolver in Hin.
    repeat (destruct Hin as [Hin | Hin];
            [try discriminate; injection Hin as Hin; congruence |]).
    contradiction.
  - destruct (resultados_de _ _ _ _ _); [contradiction | exact Hin].
Qed.

(** X7. In stage (a), for every feasible answer (job and technician ids
    being unique), every utilisation line of the summary is that of a
    technician [t] of the table: it shows the load of [t] (the hours of
    the jobs whose variable has value 1), the capacity of [t] over the
    seven days, and 100 * load / capacity, which is at most 100; the
    figure is 0, and nothing is divided, when the capacity is not
    positive; it is not negative when no duration is.  A run with at
    least one job prints the line of every technician. *)
Theorem utilizacion_acotada :
  forall fs solver jobs tecnicos habilidades prob status v,
    leidos fs jobs tecnicos habilidades ->
    NoDup (J_de jobs) -> NoDup (T_de tecnicos) ->
    In (Solve prob) (trace (main fs solver)) ->
    solver prob = (status, v) ->
    lp_feasible prob v ->
    (forall t carga capacidad u,
        In (Print (MsgUtilizacion t carga capacidad u))
           (trace (main fs solver)) ->
        exists r,
          In r (rows tecnicos) /\ id_tecnico r = t /\
          capacidad = (capacidad_diaria_h r * 7)%Q /\
          (carga ==
           suma (map duracion_horas
                   (filter (fun jr => asignado v t (id_job jr))
                           (rows jobs))))%Q /\
          (carga <= capacidad)%Q /\
          (0 < capacidad -> u == carga / capacidad * 100 /\ u <= 100)%Q /\
          (capacidad <= 0 -> u = 0)%Q /\
          ((forall jr, In jr (rows jobs) -> 0 <= duracion_horas jr)%Q ->
           0 <= u)%Q) /\
    (rows jobs <> [] ->
     forall r, In r (rows tecnicos) ->
       exists carga capacidad u,
         In (Print (MsgUtilizacion (id_tecnico r) carga capacidad u))
            (trace (main fs solver))).
Proof.
  intros fs solver jobs tecnicos habilidades prob status v
         Hl HndJ HndT Hsolve Hs Hfeas.
  destruct (main_solve _ _ _ _ _ _ Hl Hsolve) as [-> Hq].
  split.
  - intros t carga capacidad u Hin.
    apply (en_escritura _ _ _ _ _ _ _ _ Hl Hq Hs) in Hin;
      try (intros; discriminate).
    unfold escritura in Hin. cbn [app] in Hin.
    do 5 (destruct Hin as [Hin | Hin]; [discriminate |]).
    apply in_app_or in Hin as [Hin | Hin].
    2:{ repeat (destruct Hin as [Hin | Hin]; [discriminate |]).
        contradiction. }
    apply in_map_iff in Hin as (t' & Hev & Ht).
    unfold utilizacion_de in Hev. injection Hev as -> Hcarga Hcap Hu.
    pose proof Ht as Ht'. unfold T_de in Ht'.
    apply in_map_iff in Ht' as (r & Hid & Hr).
    exists r. split; [exact Hr |]. split; [exact Hid |].
    rewrite <- Hid in Hcap. rewrite (H_of_fila _ _ HndT Hr) in Hcap.
    unfold dict_get_default in Hcarga.
    rewrite (cargas_de_get _ _ _ _ _ Ht) in Hcarga.
    assert (Hbin : forall j, In j (J_de jobs) ->
              (v (Var_x j t) == 0 \/ v (Var_x j t) == 1)%Q).
    { intros j Hj. now apply (factible_binaria _ _ _ _ _ _ Hfeas). }
    assert (Hsum : (carga ==
              suma (map duracion_horas
                      (filter (fun jr => asignado v t (id_job jr))
                              (rows jobs))))%Q).
    { rewrite <- Hcarga, carga_de_suma. now rewrite duraciones_filas. }
    assert (Hle : (carga <= capacidad)%Q).
    { rewrite <- Hcarga, <- Hcap.
      rewrite (carga_de_valor v t (p_of jobs) _ Hbin).
      pose proof (factible_capacidad _ _ _ _ _ _ Hfeas _ Ht) as Hc.
      rewrite <- Hid in Hc at 2. now rewrite (H_of_fila _ _ HndT Hr) in Hc. }
    split; [now rewrite Hcap |]. split; [exact Hsum |].
    split; [exact Hle |].
    rewrite <- Hid in Hu. rewrite (H_of_fila _ _ HndT Hr) in Hu.
    rewrite Hid in Hu. unfold dict_get_default in Hu.
    rewrite (cargas_de_get _ _ _ _ _ Ht), Hcarga, Hcap in Hu.
    split; [| split].
    + intros Hpos.
      destruct (Qle_bool capacidad 0) eqn:E.
      { apply Qle_bool_iff in E. lra. }
      cbn [negb] in Hu. subst u. split; [reflexivity |].
      assert (Hdiv : (carga / capacidad <= 1)%Q).
      { apply Qle_shift_div_r; [exact Hpos | lra]. }
      set (x := (carga / capacidad)%Q) in *. lra.
    + intros Hnp.
      destruct (Qle_bool capacidad 0) eqn:E; [now subst u |].
      exfalso. apply Qle_bool_iff in Hnp. congruence.
    + intros Hdur.
      destruct (Qle_bool capacidad 0) eqn:E; cbn [negb] in Hu; subst u;
        [lra |].
      assert (Hpos : (0 < capacidad)%Q).
      { destruct (Qlt_le_dec 0 capacidad) as [Hlt | Hge]; [exact Hlt |].
        apply Qle_bool_iff in Hge. congruence. }
      assert (H0 : (0 <= carga)%Q).
      { rewrite Hsum. clear - Hdur.
        assert (Hall : forall l, incl l (rows jobs) ->
                  (0 <= suma (map duracion_horas l))%Q).
        { induction l as [| a l IH]; intros Hinc; [cbn; lra |].
          pose proof (Hdur a (Hinc a (or_introl eq_refl))).
          assert (0 <= suma (map duracion_horas l))%Q
            by (apply IH; intros x Hx; apply Hinc; now right).
          unfold suma in *. cbn [map fold_right]. lra. }
        apply Hall. intros x Hx. now apply filter_In in Hx as [Hx _]. }
      assert (Hdiv : (0 <= carga / capacidad)%Q).
      { apply Qle_shift_div_l; [exact Hpos | lra]. }
      set (x := (carga / capacidad)%Q) in *. lra.
  - intros Hne r Hr.
    assert (HJ : J_de jobs <> []).
    { unfold J_de. destruct (rows jobs); [congruence | discriminate]. }
    pose proof (resultados_no_vacios _ _ _ _ Hfeas HJ) as Hres.
    destruct (main_ok _ _ _ _ _ _ _ Hl Hq Hs) as [Htr _].
    do 3 eexists. rewrite Htr. apply in_or_app. right.
    destruct (resultados_de _ _ _ _ _); [congruence |].
    unfold escritura. cbn [app]. do 5 right. apply in_or_app. left.
    apply in_map_iff. exists (id_tecnico r). split.
    + unfold utilizacion_de. reflexivity.
    + unfold T_de. now apply in_map.
Qed.

Lemma utilizacion_acotada_witness :
  (leidos Ejemplos.fs_dos Ejemplos.jobs_dos' Ejemplos.tecnicos_dos'
          Ejemplos.habilidades_dos' /\
   NoDup (J_de Ejemplos.jobs_dos') /\ NoDup (T_de Ejemplos.tecnicos_dos') /\
   In (Solve Ejemplos.prob_dos)
      (trace (main Ejemplos.fs_dos Ejemplos.solver_dos)) /\
   Ejemplos.solver_dos Ejemplos.prob_dos = (Optimal, Ejemplos.v_dos) /\
   lp_feasible Ejemplos.prob_dos Ejemplos.v_dos /\
   rows Ejemplos.jobs_dos' <> []) /\
  forall r, In r (rows Ejemplos.tecnicos_dos') ->
    exists carga capacidad u,
      In (Print (MsgUtilizacion (id_tecnico r) carga capacidad u))
         (trace (main Ejemplos.fs_dos Ejemplos.solver_dos)).
Proof.
  assert (HndJ : NoDup (J_de Ejemplos.jobs_dos')).
  { repeat constructor; simpl; intuition discriminate. }
  assert (HndT : NoDup (T_de Ejemplos.tecnicos_dos')).
  { repeat constructor; simpl; intuition discriminate. }
  assert (Hsolve : In (Solve Ejemplos.prob_dos)
                      (trace (main Ejemplos.fs_dos Ejemplos.solver_dos))).
  { vm_compute. do 5 right. left. reflexivity. }
  assert (Hs : Ejemplos.solver_dos Ejemplos.prob_dos
               = (Optimal, Ejemplos.v_dos)) by reflexivity.
  assert (Hfeas : lp_feasible Ejemplos.prob_dos Ejemplos.v_dos).
  { apply lp_feasibleb_ok. vm_compute. reflexivity. }
  assert (Hne : rows Ejemplos.jobs_dos' <> []) by discriminate.
  split; [auto 10 using leidos_dos |].
  exact (proj2 (utilizacion_acotada Ejemplos.fs_dos Ejemplos.solver_dos
                  Ejemplos.jobs_dos' Ejemplos.tecnicos_dos'
                  Ejemplos.habilidades_dos' Ejemplos.prob_dos
                  Optimal Ejemplos.v_dos leidos_dos HndJ HndT Hsolve Hs Hfeas)
               Hne).
Defined.

(** *** Lines 138-154: the assignment table *)

Lemma df_escrito fs solver jobs tecnicos habilidades df :
  leidos fs jobs tecnicos habilidades ->
  In (ToCsv_assignment df) (trace (main fs solver)) ->
  exists v,
    df = resultados_df_de jobs tecnicos v /\
    resultados_de jobs (p_of jobs) v (J_de jobs) (T_de tecnicos) <> [].
Proof.
  intros Hl Hin.
  destruct (main_evento _ _ _ Hin eq_refl)
    as (jobs' & tecnicos' & habilidades' & status & v & Hl' & _ & _ & Hev).
  destruct (leidos_unico _ _ _ _ _ _ _ Hl Hl') as (<- & <- & <-).
  destruct Hev as [Hev | [Hne Hev]]; [discriminate |].
  exists v. split; [| exact Hne]. now apply escritura_assignment in Hev.
Qed.

(** Every row of the merged table has found its technician. *)
Lemma fila_con_tecnico jobs tecnicos v a :
  In a (rows (resultados_df_de jobs tecnicos v)) ->
  In (job_id (left a)) (J_de jobs) /\
  exists m, right a = Some m /\ In m (rows tecnicos) /\
            id_tecnico m = tecnico_id (left a).
Proof.
  intros Ha. destruct (fila_asignada _ _ _ _ Ha) as (Hj & Ht & _).
  split; [exact Hj |].
  cbn [resultados_df_de rows] in Ha.
  apply in_flat_map in Ha as (r & _ & Ha).
  pose proof (filas_merge_left _ _ _ Ha) as Hleft. rewrite Hleft in Ht.
  unfold filas_merge in Ha.
  destruct (filter (fun tr => (id_tecnico tr =? tecnico_id r)%string)
                   (rows tecnicos)) as [| m0 ms] eqn:Ef.
  - exfalso. unfold T_de in Ht. apply in_map_iff in Ht as (m & Hid & Hm).
    assert (Hf : In m (filter (fun tr => (id_tecnico tr =? tecnico_id r)%string)
                              (rows tecnicos))).
    { apply filter_In. split; [exact Hm |]. rewrite Hid.
      apply String.eqb_refl. }
    rewrite Ef in Hf. contradiction.
  - apply in_map_iff in Ha as (m & <- & Hm). exists m. cbn [right left].
    rewrite <- Ef in Hm. apply filter_In in Hm as [Hm Heq].
    apply String.eqb_eq in Heq. auto.
Qed.

(** X8. Job and technician ids being unique, the table
    [assignment_results.csv] is never written empty, and every row of it
    carries the data of its technician: the left merge of line 146 finds a
    row of the Technicians table for every row (no cell is left blank), and
    the column [id_tecnico] it adds repeats [tecnico_id].  The table has
    the columns [job_id], [tecnico_id] and [id_tecnico], and no column
    [Id_tecnico]. *)
Theorem tabla_de_asignacion :
  forall fs solver jobs tecnicos habilidades df,
    leidos fs jobs tecnicos habilidades ->
    NoDup (J_de jobs) -> NoDup (T_de tecnicos) ->
    In (ToCsv_assignment df) (trace (main fs solver)) ->
    rows df <> [] /\
    (has_column df "job_id" = true /\ has_column df "tecnico_id" = true /\
     has_column df "id_tecnico" = true /\
     has_column df "Id_tecnico" = false) /\
    forall a, In a (rows df) ->
      In (job_id (left a)) (J_de jobs) /\
      exists m,
        right a = Some m /\ In m (rows tecnicos) /\
        id_tecnico m = tecnico_id (left a).
Proof.
  intros fs solver jobs tecnicos habilidades df Hl _ _ Hin.
  destruct (df_escrito _ _ _ _ _ _ Hl Hin) as (v & -> & Hne).
  split; [| split; [| intros a Ha; now apply (fila_con_tecnico jobs tecnicos v)]].
  - cbn [resultados_df_de rows].
    destruct (resultados_de jobs (p_of jobs) v (J_de jobs) (T_de tecnicos))
      as [| r l]; [congruence |].
    cbn [flat_map]. unfold filas_merge.
    destruct (filter _ (rows tecnicos)); discriminate.
  - unfold resultados_df_de, has_column, tecnicos_cols. cbn [columns].
    destruct (has_column tecnicos "nombre"); repeat split; reflexivity.
Qed.

Lemma tabla_de_asignacion_witness :
  (leidos Ejemplos.fs_dos Ejemplos.jobs_dos' Ejemplos.tecnicos_dos'
          Ejemplos.habilidades_dos' /\
   NoDup (J_de Ejemplos.jobs_dos') /\ NoDup (T_de Ejemplos.tecnicos_dos') /\
   exists df,
     In (ToCsv_assignment df)
        (trace (main Ejemplos.fs_dos Ejemplos.solver_dos))) /\
  forall df,
    In (ToCsv_assignment df)
       (trace (main Ejemplos.fs_dos Ejemplos.solver_dos)) ->
    rows df <> [] /\
    (has_column df "job_id" = true /\ has_column df "tecnico_id" = true /\
     has_column df "id_tecnico" = true /\
     has_column df "Id_tecnico" = false) /\
    forall a, In a (rows df) ->
      In (job_id (left a)) (J_de Ejemplos.jobs_dos') /\
      exists m,
        right a = Some m /\ In m (rows Ejemplos.tecnicos_dos') /\
        id_tecnico m = tecnico_id (left a).
Proof.
  assert (HndJ : NoDup (J_de Ejemplos.jobs_dos')).
  { repeat constructor; simpl; intuition discriminate. }
  assert (HndT : NoDup (T_de Ejemplos.tecnicos_dos')).
  { repeat constructor; simpl; intuition discriminate. }
  split.
  - refine (conj leidos_dos (conj HndJ (conj HndT _))).
    eexists. vm_compute. do 10 right. left. reflexivity.
  - intros df Hdf.
    exact (tabla_de_asignacion Ejemplos.fs_dos Ejemplos.solver_dos
             Ejemplos.jobs_dos' Ejemplos.tecnicos_dos'
             Ejemplos.habilidades_dos' df leidos_dos HndJ HndT Hdf).
Defined.

(** *** Lines 163-165 and 181-186: the counts of the summary and the log *)

Lemma list_sum_mas A (x y : A -> nat) l :
  list_sum (map (fun a => (x a + y a)%nat) l)
  = (list_sum (map x l) + list_sum (map y l))%nat.
Proof.
  induction l as [| a l IH]; [reflexivity |].
  unfold list_sum in *. cbn [map fold_right]. lia.
Qed.

Lemma list_sum_cons' (a : nat) l : list_sum (a :: l) = (a + list_sum l)%nat.
Proof. reflexivity. Qed.

Lemma cero_fuera (k : ident) J :
  ~ In k J ->
  list_sum (map (fun j => if (k =? j)%string then 1%nat else 0%nat) J) = 0%nat.
Proof.
  induction J as [| j J IH]; intros Hn; [reflexivity |].
  cbn [map]. rewrite list_sum_cons'.
  destruct (k =? j)%string eqn:E.
  - apply String.eqb_eq in E. subst. exfalso. apply Hn. now left.
  - rewrite IH; [reflexivity |]. intros Hx. apply Hn. now right.
Qed.

Lemma uno_en_NoDup (k : ident) J :
  NoDup J -> In k J ->
  list_sum (map (fun j => if (k =? j)%string then 1%nat else 0%nat) J) = 1%nat.
Proof.
  induction J as [| j J IH]; [contradiction |].
  intros Hnd Hin. inversion Hnd as [| ? ? Hni Hnd']; subst.
  cbn [map]. rewrite list_sum_cons'.
  destruct (k =? j)%string eqn:E.
  - apply String.eqb_eq in E. subst j. now rewrite cero_fuera.
  - destruct Hin as [-> | Hin]; [now rewrite String.eqb_refl in E |].
    now rewrite IH.
Qed.

(** Rows whose keys are in a duplicate-free list, counted key by key. *)
Lemma length_por_clave A (key : A -> ident) (l : list A) J :
  NoDup J -> (forall a, In a l -> In (key a) J) ->
  List.length l =
  list_sum (map (fun j => List.length
                            (filter (fun a => (key a =? j)%string) l)) J).
Proof.
  intros Hnd. induction l as [| a l IH]; intros Hk.
  - cbn [filter List.length]. clear.
    induction J as [| j J IHJ]; [reflexivity |].
    cbn [map]. now rewrite list_sum_cons', <- IHJ.
  - cbn [List.length].
    rewrite IH by (intros a' Ha'; apply Hk; now right).
    change (S ?n) with (1 + n)%nat.
    rewrite <- (uno_en_NoDup (key a) J Hnd (Hk a (or_introl eq_refl))).
    rewrite <- list_sum_mas. f_equal. apply map_ext. intros j. cbn [filter].
    now destruct (key a =? j)%string.
Qed.

Lemma filas_por_trabajo jobs tecnicos habilidades v :
  NoDup (J_de jobs) ->
  lp_feasible (problema jobs tecnicos habilidades) v ->
  List.length (rows (resultados_df_de jobs tecnicos v))
  = List.length (rows jobs).
Proof.
  intros Hnd Hfeas.
  rewrite (length_por_clave _ (fun a => job_id (left a)) _ (J_de jobs) Hnd).
  2:{ intros a Ha. now apply fila_asignada in Ha. }
  rewrite (map_ext_in _ (fun _ => 1%nat)).
  2:{ intros j Hj. now apply (una_fila_por_trabajo _ _ habilidades). }
  unfold J_de. rewrite map_map.
  induction (rows jobs) as [| r l IH]; [reflexivity |].
  cbn [map List.length]. now rewrite list_sum_cons', IH.
Qed.

(** X9. In stage (a), for every feasible answer (job and technician ids
    being unique), the summary counts as assigned as many jobs as the Job
    table has rows, and the log records the same count, with the name of
    the status and the objective; the figure printed as "technicians used"
    is the number of rows of the Technicians table, whether or not each
    one received a job.  A run with at least one job prints that
    summary. *)
Theorem cuentas_del_resumen :
  forall fs solver jobs tecnicos habilidades prob status v,
    leidos fs jobs tecnicos habilidades ->
    NoDup (J_de jobs) -> NoDup (T_de tecnicos) ->
    In (Solve prob) (trace (main fs solver)) ->
    solver prob = (status, v) ->
    lp_feasible prob v ->
    (forall asignados utilizados,
        In (Print (MsgResumen asignados utilizados)) (trace (main fs solver)) ->
        asignados = List.length (rows jobs) /\
        utilizados = List.length (rows tecnicos)) /\
    (forall nombre objetivo asignados,
        In (WriteLog nombre objetivo asignados) (trace (main fs solver)) ->
        nombre = LpStatus_name status /\ objetivo = v Var_L /\
        asignados = List.length (rows jobs)) /\
    (rows jobs <> [] ->
     In (Print (MsgResumen (List.length (rows jobs))
                           (List.length (rows tecnicos))))
        (trace (main fs solver))).
Proof.
  intros fs solver jobs tecnicos habilidades prob status v
         Hl HndJ HndT Hsolve Hs Hfeas.
  destruct (main_solve _ _ _ _ _ _ Hl Hsolve) as [-> Hq].
  pose proof (filas_por_trabajo _ _ _ _ HndJ Hfeas) as Hfilas.
  assert (Hcargas : List.length (cargas_de (p_of jobs) v (J_de jobs)
                                           (T_de tecnicos))
                    = List.length (rows tecnicos)).
  { rewrite (cargas_de_NoDup _ _ _ _ HndT). unfold T_de.
    now rewrite !length_map. }
  destruct (main_ok _ _ _ _ _ _ _ Hl Hq Hs) as [Htr _].
  split; [| split].
  - intros asignados utilizados Hin.
    apply (en_escritura _ _ _ _ _ _ _ _ Hl Hq Hs) in Hin;
      try (intros; discriminate).
    unfold escritura in Hin. cbn [app] in Hin.
    do 3 (destruct Hin as [Hin | Hin]; [discriminate |]).
    destruct Hin as [Hin | Hin].
    { injection Hin as <- <-. auto. }
    destruct Hin as [Hin | Hin]; [discriminate |].
    apply in_app_or in Hin as [Hin | Hin].
    + apply in_map_iff in Hin as (t & Hev & _). discriminate.
    + repeat (destruct Hin as [Hin | Hin]; [discriminate |]). contradiction.
  - intros nombre objetivo asignados Hin.
    rewrite Htr in Hin. apply in_app_or in Hin as [Hin | Hin].
    { unfold hasta_resolver in Hin.
      repeat (destruct Hin as [Hin | Hin]; [discriminate |]). contradiction. }
    destruct (resultados_de _ _ _ _ _); [contradiction |].
    unfold escritura in Hin. cbn [app] in Hin.
    do 5 (destruct Hin as [Hin | Hin]; [discriminate |]).
    apply in_app_or in Hin as [Hin | Hin].
    + apply in_map_iff in Hin as (t & Hev & _). discriminate.
    + destruct Hin as [Hin | Hin].
      { injection Hin as <- <- <-. auto. }
      destruct Hin as [Hin | Hin]; [discriminate | contradiction].
  - intros Hne.
    assert (HJ : J_de jobs <> []).
    { unfold J_de. destruct (rows jobs); [congruence | discriminate]. }
    pose proof (resultados_no_vacios _ _ _ _ Hfeas HJ) as Hres.
    rewrite Htr. apply in_or_app. right.
    destruct (resultados_de _ _ _ _ _); [congruence |].
    unfold escritura. cbn [app]. do 3 right. left.
    now rewrite Hfilas, Hcargas.
Qed.

Lemma cuentas_del_resumen_witness :
  (leidos Ejemplos.fs_dos Ejemplos.jobs_dos' Ejemplos.tecnicos_dos'
          Ejemplos.habilidades_dos' /\
   NoDup (J_de Ejemplos.jobs_dos') /\ NoDup (T_de Ejemplos.tecnicos_dos') /\
   In (Solve Ejemplos.prob_dos)
      (trace (main Ejemplos.fs_dos Ejemplos.solver_dos)) /\
   Ejemplos.solver_dos Ejemplos.prob_dos = (Optimal, Ejemplos.v_dos) /\
   lp_feasible Ejemplos.prob_dos Ejemplos.v_dos /\
   rows Ejemplos.jobs_dos' <> [] /\
   trabajos_de Ejemplos.v_dos (J_de Ejemplos.jobs_dos') "T2" = []) /\
  In (Print (MsgResumen 2 2))
     (trace (main Ejemplos.fs_dos Ejemplos.solver_dos)).
Proof.
  assert (HndJ : NoDup (J_de Ejemplos.jobs_dos')).
  { repeat constructor; simpl; intuition discriminate. }
  assert (HndT : NoDup (T_de Ejemplos.tecnicos_dos')).
  { repeat constructor; simpl; intuition discriminate. }
  assert (Hsolve : In (Solve Ejemplos.prob_dos)
                      (trace (main Ejemplos.fs_dos Ejemplos.solver_dos))).
  { vm_compute. do 5 right. left. reflexivity. }
  assert (Hs : Ejemplos.solver_dos Ejemplos.prob_dos
               = (Optimal, Ejemplos.v_dos)) by reflexivity.
  assert (Hfeas : lp_feasible Ejemplos.prob_dos Ejemplos.v_dos).
  { apply lp_feasibleb_ok. vm_compute. reflexivity. }
  assert (Hne : rows Ejemplos.jobs_dos' <> []) by discriminate.
  refine (conj (conj leidos_dos (conj HndJ (conj HndT (conj Hsolve
            (conj Hs (conj Hfeas (conj Hne eq_refl))))))) _).
  exact (proj2 (proj2 (cuentas_del_resumen Ejemplos.fs_dos Ejemplos.solver_dos
                  Ejemplos.jobs_dos' Ejemplos.tecnicos_dos'
                  Ejemplos.habilidades_dos' Ejemplos.prob_dos
                  Optimal Ejemplos.v_dos leidos_dos HndJ HndT Hsolve Hs Hfeas))
               Hne).
Defined.

(** *** Lines 88-94: a job that nobody may do *)

(** X10. When the compatibility table lists a job with every technician
    of the Technicians table and marks none of them compatible (and also
    when the Technicians table is empty), the model that stage (a) hands
    to the solver, job and technician ids being unique, has no feasible
    answer: the job must go to exactly one technician and may go to
    none. *)
Theorem trabajo_sin_calificados :
  forall fs solver jobs tecnicos habilidades prob j,
    leidos fs jobs tecnicos habilidades ->
    NoDup (J_de jobs) -> NoDup (T_de tecnicos) ->
    In (Solve prob) (trace (main fs solver)) ->
    In j (J_de jobs) ->
    (forall t, In t (T_de tecnicos) ->
       exists c, dict_get pair_eqb (q_of habilidades) (j, t) = Some c /\
                 (c < 1)%Q) ->
    forall v, ~ lp_feasible prob v.
Proof.
  intros fs solver jobs tecnicos habilidades prob j Hl _ _ Hsolve Hj Hq0 v
         Hfeas.
  destruct (main_solve _ _ _ _ _ _ Hl Hsolve) as [-> Hq].
  pose proof (un_tecnico _ _ _ _ _ _ _ Hfeas Hj) as Hone.
  destruct (filter (fun t => asignado v t j) (T_de tecnicos)) as [| t l] eqn:Ef;
    [discriminate |].
  assert (Hin : In t (filter (fun t => asignado v t j) (T_de tecnicos)))
    by (rewrite Ef; now left).
  apply filter_In in Hin as [Ht Has]. apply asignado_true in Has.
  destruct (Hq0 t Ht) as (c & Hc & Hlt).
  apply (dict_get_In _ _ pair_eqb pair_eqb_spec) in Hc.
  pose proof (factible_compatibilidad _ _ _ _ _ _ Hfeas _ _ _ Hc) as Hle.
  lra.
Qed.

Lemma leidos_incompatible :
  leidos EjemplosErrores.fs_incompatible Ejemplos.jobs_uno'
         (rename normalizar_tecnico (rename strip EjemplosErrores.tecnicos_t1))
         Ejemplos.habilidades_uno'.
Proof.
  exists Ejemplos.jobs_uno, EjemplosErrores.tecnicos_t1,
    Ejemplos.habilidades_uno.
  repeat split; intros c Hc; simpl in Hc;
    repeat (destruct Hc as [<- | Hc]; [reflexivity |]); contradiction.
Qed.

Lemma trabajo_sin_calificados_witness :
  (leidos EjemplosErrores.fs_incompatible Ejemplos.jobs_uno'
          (rename normalizar_tecnico
             (rename strip EjemplosErrores.tecnicos_t1))
          Ejemplos.habilidades_uno' /\
   NoDup (J_de Ejemplos.jobs_uno') /\
   NoDup (T_de (rename normalizar_tecnico
                  (rename strip EjemplosErrores.tecnicos_t1))) /\
   In (Solve EjemplosErrores.prob_incompatible)
      (trace (main EjemplosErrores.fs_incompatible
                   EjemplosErrores.solver_infactible_a)) /\
   In "J1" (J_de Ejemplos.jobs_uno') /\
   dict_get pair_eqb (q_of Ejemplos.habilidades_uno') ("J1", "T1")
   = Some 0%Q) /\
  forall v, ~ lp_feasible EjemplosErrores.prob_incompatible v.
Proof.
  assert (Hsolve : In (Solve EjemplosErrores.prob_incompatible)
                      (trace (main EjemplosErrores.fs_incompatible
                                   EjemplosErrores.solver_infactible_a))).
  { vm_compute. do 5 right. left. reflexivity. }
  assert (Hj : In "J1" (J_de Ejemplos.jobs_uno')) by (simpl; auto).
  assert (HndJ : NoDup (J_de Ejemplos.jobs_uno')).
  { repeat constructor; simpl; intuition discriminate. }
  assert (HndT : NoDup (T_de (rename normalizar_tecnico
                                (rename strip EjemplosErrores.tecnicos_t1)))).
  { repeat constructor; simpl; intuition discriminate. }
  refine (conj (conj leidos_incompatible
                  (conj HndJ (conj HndT (conj Hsolve (conj Hj eq_refl))))) _).
  apply (trabajo_sin_calificados EjemplosErrores.fs_incompatible
           EjemplosErrores.solver_infactible_a Ejemplos.jobs_uno'
           (rename normalizar_tecnico
              (rename strip EjemplosErrores.tecnicos_t1))
           Ejemplos.habilidades_uno' EjemplosErrores.prob_incompatible "J1"
           leidos_incompatible HndJ HndT Hsolve Hj).
  intros t [<- | []]. exists 0%Q. split; [reflexivity | reflexivity].
Defined.

(** *** Lines 96-102: what one job needs *)

Lemma suma_contiene A (c : A -> Q) l x :
  In x l -> (forall y, In y l -> (0 <= c y)%Q) ->
  (c x <= suma (map c l))%Q.
Proof.
  induction l as [| a l IH]; [contradiction |].
  intros Hin Hpos.
  assert (Hrest : (0 <= suma (map c l))%Q).
  { clear - Hpos.
    assert (Hall : forall l', incl l' l -> (0 <= suma (map c l'))%Q).
    { induction l' as [| b l' IH']; intros Hinc; [cbn; lra |].
      pose proof (Hpos b (or_intror (Hinc b (or_introl eq_refl)))).
      assert (0 <= suma (map c l'))%Q
        by (apply IH'; intros y Hy; apply Hinc; now right).
      unfold suma in *. cbn [map fold_right]. lra. }
    apply Hall. apply incl_refl. }
  pose proof (Hpos a (or_introl eq_refl)) as Ha.
  destruct Hin as [-> | Hin].
  - unfold suma in *. cbn [map fold_right]. lra.
  - assert (c x <= suma (map c l))%Q
      by (apply IH; [exact Hin | intros y Hy; apply Hpos; now right]).
    unfold suma in *. cbn [map fold_right]. lra.
Qed.

(** X22. In stage (a), for every feasible answer (ids being unique and no
    duration negative), every job goes to a technician whose capacity over
    the seven days is at least the duration of the job, and the objective
    [L] is at least the duration of every job.  Hence the model has no
    feasible answer when a job is longer than the seven-day capacity of
    every technician. *)
Theorem trabajo_cabe :
  forall fs solver jobs tecnicos habilidades prob,
    leidos fs jobs tecnicos habilidades ->
    NoDup (J_de jobs) -> NoDup (T_de tecnicos) ->
    In (Solve prob) (trace (main fs solver)) ->
    (forall jr, In jr (rows jobs) -> (0 <= duracion_horas jr)%Q) ->
    (forall v jr,
        lp_feasible prob v -> In jr (rows jobs) ->
        (duracion_horas jr <= v Var_L)%Q /\
        exists m,
          In m (rows tecnicos) /\
          asignado v (id_tecnico m) (id_job jr) = true /\
          (duracion_horas jr <= capacidad_diaria_h m * 7)%Q) /\
    (forall jr,
        In jr (rows jobs) ->
        (forall m, In m (rows tecnicos) ->
                   (capacidad_diaria_h m * 7 < duracion_horas jr)%Q) ->
        forall v, ~ lp_feasible prob v).
Proof.
  intros fs solver jobs tecnicos habilidades prob Hl HndJ HndT Hsolve Hdur.
  destruct (main_solve _ _ _ _ _ _ Hl Hsolve) as [-> Hq].
  assert (Hmain : forall v jr,
            lp_feasible (problema jobs tecnicos habilidades) v ->
            In jr (rows jobs) ->
            (duracion_horas jr <= v Var_L)%Q /\
            exists m,
              In m (rows tecnicos) /\
              asignado v (id_tecnico m) (id_job jr) = true /\
              (duracion_horas jr <= capacidad_diaria_h m * 7)%Q).
  { intros v jr Hfeas Hjr.
    assert (Hj : In (id_job jr) (J_de jobs)) by now apply in_map.
    pose proof (un_tecnico _ _ _ _ _ _ _ Hfeas Hj) as Hone.
    destruct (filter (fun t => asignado v t (id_job jr)) (T_de tecnicos))
      as [| t l] eqn:Ef; [discriminate |].
    assert (Hin : In t (filter (fun t => asignado v t (id_job jr))
                               (T_de tecnicos)))
      by (rewrite Ef; now left).
    apply filter_In in Hin as [Ht Has].
    pose proof Ht as Ht'. unfold T_de in Ht'.
    apply in_map_iff in Ht' as (m & Hid & Hm).
    assert (Hbin : forall j, In j (J_de jobs) ->
              (v (Var_x j t) == 0 \/ v (Var_x j t) == 1)%Q).
    { intros j Hj'. now apply (factible_binaria _ _ _ _ _ _ Hfeas). }
    assert (Hcarga : (duracion_horas jr <= carga_de (p_of jobs) v (J_de jobs) t)%Q).
    { rewrite carga_de_suma, duraciones_filas by exact HndJ.
      apply (suma_contiene _ duracion_horas).
      - apply filter_In. auto.
      - intros y Hy. apply filter_In in Hy as [Hy _]. auto. }
    rewrite (carga_de_valor v t (p_of jobs) _ Hbin) in Hcarga.
    pose proof (factible_capacidad _ _ _ _ _ _ Hfeas _ Ht) as Hcap.
    pose proof (factible_balance _ _ _ _ _ _ Hfeas _ Ht) as Hbal.
    rewrite <- Hid in Hcap at 2. rewrite (H_of_fila _ _ HndT Hm) in Hcap.
    split; [lra |]. exists m. rewrite Hid. repeat split; auto. lra. }
  split; [exact Hmain |].
  intros jr Hjr Hlargo v Hfeas.
  destruct (Hmain v jr Hfeas Hjr) as (_ & m & Hm & _ & Hle).
  specialize (Hlargo m Hm). lra.
Qed.

Lemma trabajo_cabe_witness :
  (leidos Ejemplos.fs_dos Ejemplos.jobs_dos' Ejemplos.tecnicos_dos'
          Ejemplos.habilidades_dos' /\
   NoDup (J_de Ejemplos.jobs_dos') /\ NoDup (T_de Ejemplos.tecnicos_dos') /\
   In (Solve Ejemplos.prob_dos)
      (trace (main Ejemplos.fs_dos Ejemplos.solver_dos)) /\
   (forall jr, In jr (rows Ejemplos.jobs_dos') ->
               (0 <= duracion_horas jr)%Q) /\
   lp_feasible Ejemplos.prob_dos Ejemplos.v_dos) /\
  forall jr, In jr (rows Ejemplos.jobs_dos') ->
    (duracion_horas jr <= Ejemplos.v_dos Var_L)%Q.
Proof.
  assert (HndJ : NoDup (J_de Ejemplos.jobs_dos')).
  { repeat constructor; simpl; intuition discriminate. }
  assert (HndT : NoDup (T_de Ejemplos.tecnicos_dos')).
  { repeat constructor; simpl; intuition discriminate. }
  assert (Hsolve : In (Solve Ejemplos.prob_dos)
                      (trace (main Ejemplos.fs_dos Ejemplos.solver_dos))).
  { vm_compute. do 5 right. left. reflexivity. }
  assert (Hdur : forall jr, In jr (rows Ejemplos.jobs_dos') ->
                            (0 <= duracion_horas jr)%Q).
  { intros jr [<- | [<- | []]]; cbn; lra. }
  assert (Hfeas : lp_feasible Ejemplos.prob_dos Ejemplos.v_dos).
  { apply lp_feasibleb_ok. vm_compute. reflexivity. }
  refine (conj (conj leidos_dos (conj HndJ (conj HndT (conj Hsolve
            (conj Hdur Hfeas))))) _).
  intros jr Hjr.
  exact (proj1 (proj1 (trabajo_cabe Ejemplos.fs_dos Ejemplos.solver_dos
                  Ejemplos.jobs_dos' Ejemplos.tecnicos_dos'
                  Ejemplos.habilidades_dos' Ejemplos.prob_dos
                  leidos_dos HndJ HndT Hsolve Hdur)
               Ejemplos.v_dos jr Hfeas Hjr)).
Defined.

End AssignmentOutputs.

(** ** Stage (b): the inputs *)
Module ScheduleInputs.
Import Schedule ScheduleSpec ScheduleFacts.

(** *** Lines 16-34: the three files *)

(** X11. When one of its three files is missing, stage (b) prints which
    one (the first that is missing, in the order jobs, tecnicos,
    asignaciones) and leaves through [exit()]: no model is built and the
    solver is not called. *)
Theorem archivo_inexistente_b :
  forall (j : DataFrame job_row) (t : DataFrame tecnico_row) ot oa ahora solver,
    main {| jobs_csv := None; tecnicos_csv := ot; asignaciones_csv := oa |}
         ahora solver
    = ([Print MsgInicio; Print MsgCargando;
        Print (MsgErrorArchivo "jobs_clean.csv")], inl SystemExit) /\
    main {| jobs_csv := Some j; tecnicos_csv := None; asignaciones_csv := oa |}
         ahora solver
    = ([Print MsgInicio; Print MsgCargando;
        Print (MsgErrorArchivo "tecnicos_clean.csv")], inl SystemExit) /\
    main {| jobs_csv := Some j; tecnicos_csv := Some t;
            asignaciones_csv := None |} ahora solver
    = ([Print MsgInicio; Print MsgCargando;
        Print (MsgErrorArchivo "assignment_results.csv")], inl SystemExit).
Proof. intros. repeat split. Qed.

(** X12. Stage (b) reads the Technicians table and uses nothing of it but
    the number of its rows, which it prints: with the same Job table and
    the same assignment artifact, two runs on different Technicians tables
    differ in that one message only; they hand the same model to the
    solver, write the same schedule and end the same way. *)
Theorem tecnicos_sin_efecto :
  forall jobs asignaciones (t1 t2 : DataFrame tecnico_row) ahora solver,
    exists resto,
      trace (main {| jobs_csv := Some jobs; tecnicos_csv := Some t1;
                     asignaciones_csv := Some asignaciones |} ahora solver)
      = [Print MsgInicio; Print MsgCargando;
         Print (MsgCargados (List.length (rows jobs)) (List.length (rows t1))
                            (List.length (rows asignaciones)))] ++ resto /\
      trace (main {| jobs_csv := Some jobs; tecnicos_csv := Some t2;
                     asignaciones_csv := Some asignaciones |} ahora solver)
      = [Print MsgInicio; Print MsgCargando;
         Print (MsgCargados (List.length (rows jobs)) (List.length (rows t2))
                            (List.length (rows asignaciones)))] ++ resto /\
      outcome (main {| jobs_csv := Some jobs; tecnicos_csv := Some t1;
                       asignaciones_csv := Some asignaciones |} ahora solver)
      = outcome (main {| jobs_csv := Some jobs; tecnicos_csv := Some t2;
                         asignaciones_csv := Some asignaciones |} ahora solver).
Proof.
  intros jobs asignaciones t1 t2 ahora solver.
  eexists. rewrite !main_trace, !main_outcome.
  unfold cargar. cbn [jobs_csv tecnicos_csv asignaciones_csv read_csv].
  cbn [bind ret emit try_except_FileNotFoundError trace outcome fst snd app].
  repeat split; reflexivity.
Qed.

End ScheduleInputs.

(** ** Stage (b): the model and what is printed while it is built *)
Module ScheduleModel.
Import Schedule ScheduleSpec ScheduleFacts ScheduleLineas.

(** *** The messages of lines 37-138 *)

Lemma crear_variables_traza jobs l st0 tr st :
  for_each l (crear_variables jobs) st0 = (tr, inr st) ->
  tr = flat_map linea_variables l.
Proof.
  intros Hrun.
  apply (for_each_inv _ _ _
           (fun pre tr (_ : estado) => tr = flat_map linea_variables pre)
           (crear_variables jobs) l st0 tr st); [reflexivity | | exact Hrun].
  intros pre [k row] tr0 s1 tr1 s2 _ -> Hb.
  apply crear_variables_inr in Hb as (_ & -> & _).
  rewrite flat_map_app. cbn [flat_map]. now rewrite app_nil_r.
Qed.

Lemma variables_NoDup jobs l tr st :
  for_each l (crear_variables jobs) estado_inicial = (tr, inr st) ->
  NoDup (dict_keys (start_vars st)) /\ NoDup (dict_keys (end_vars st)) /\
  NoDup (dict_keys (interval_vars st)).
Proof.
  intros Hrun.
  apply (for_each_inv _ _ _
           (fun (_ : list (nat * job_row)) (_ : list event) st =>
              NoDup (dict_keys (start_vars st)) /\
              NoDup (dict_keys (end_vars st)) /\
              NoDup (dict_keys (interval_vars st)))
           (crear_variables jobs) l estado_inicial tr st); [| | exact Hrun].
  - cbn. repeat split; constructor.
  - intros pre [k row] tr0 s1 tr1 s2 _ (H1 & H2 & H3) Hb.
    apply crear_variables_inr in Hb as (_ & _ & ->). cbn.
    repeat split;
      apply (dict_keys_set_NoDup _ _ String.eqb String.eqb_eq); assumption.
Qed.

Lemma sin_solape_traza d :
  forall m,
    for_each d sin_solape m
    = (flat_map linea_tecnico d, inr (agregar m (sin_solapes d))).
Proof.
  induction d as [| [t l] d IH]; intros m.
  - cbn. now rewrite agregar_nil.
  - cbn [for_each]. unfold sin_solape at 1. cbn [snd fst].
    destruct l as [| i l].
    + cbn. rewrite IH. reflexivity.
    + cbn. rewrite IH. cbn. f_equal. f_equal. unfold sin_solapes. cbn.
      change (Add m (NoOverlap (i :: l)))
        with (agregar m [NoOverlap (i :: l)]).
      now rewrite agregar_agregar.
Qed.

(** What a run that builds its model has printed. *)
Lemma construir_traza jobs asignaciones ahora tr st g :
  construir jobs asignaciones ahora = (tr, inr (st, g)) ->
  tr = mensajes_de jobs asignaciones st g.
Proof.
  intros Hc. pose proof Hc as H. unfold construir in H.
  emite H.
  apply bind_inr in H as (tra & [] & trb & Hcol & H & ->).
  assert (Hdur : tra = []).
  { destruct (has_column jobs "duracion_horas"); [| discriminate].
    now injection Hcol as <-. }
  subst tra.
  do 2 emite H.
  apply bind_inr in H as (tr1 & st1 & trc & Hvars & H & ->).
  do 3 emite H.
  apply bind_inr in H as (tr2 & g' & trd & Hagr & H & ->).
  emite H.
  apply bind_inr in H as (tr3 & m3 & tre & Hss & H & ->).
  emite H.
  apply bind_inr in H as (tr4 & m4 & trf & Hlim & H & ->).
  emite H.
  cbn in H. injection H as <- <- <-.
  rewrite sin_solape_traza in Hss. injection Hss as <- <-.
  apply limitar_ok in Hlim as [-> _].
  apply crear_variables_traza in Hvars as ->.
  pose proof (agrupados_ok _ _ _ _ _ Hagr) as [_ Hmsg2 _ _ _].
  pose proof (no_encontrados_sin_job _ _ _ _ _ _ Hc) as Hsin.
  cbn [interval_vars] in Hsin. rewrite Hsin in Hmsg2. subst tr2.
  unfold mensajes_de. cbn [interval_vars app]. rewrite <- ?app_assoc.
  reflexivity.
Qed.

Ltac en_mensajes H :=
  unfold mensajes_de in H; cbn [app] in H;
  repeat first
    [ destruct H as [H | H]; [try discriminate H |]
    | apply in_app_or in H as [H | H] ];
  try contradiction;
  try (apply in_map_iff in H as (? & H & _); discriminate H);
  try (apply in_flat_map in H as ([? ?] & _ & H);
       first [ unfold linea_variables in H; cbn [fst snd] in H;
               match type of H with
               | context [if ?b then _ else _] => destruct b
               end
             | unfold linea_tecnico in H; cbn [fst snd] in H;
               match type of H with
               | context [match ?l with _ => _ end] => destruct l
               end ];
       repeat (destruct H as [H | H]; [try discriminate H |]);
       try contradiction).

Lemma filter_particion A (f : A -> bool) l :
  (List.length (filter f l) + List.length (filter (fun a => negb (f a)) l)
   = List.length l)%nat.
Proof.
  induction l as [| a l IH]; [reflexivity |]. cbn.
  destruct (f a); cbn; lia.
Qed.

Lemma sin_job_length jobs asignaciones :
  List.length (sin_job jobs asignaciones)
  = List.length
      (filter (fun a => negb (existsb (String.eqb (job_de asignaciones a))
                                      (map id_job (rows jobs))))
              (rows asignaciones)).
Proof.
  unfold sin_job. induction (rows asignaciones) as [| a l IH];
    [reflexivity |].
  cbn. destruct (existsb _ _); cbn; now rewrite IH.
Qed.

Lemma claves_de_intervalos jobs asignaciones ahora tr st g j :
  construir jobs asignaciones ahora = (tr, inr (st, g)) ->
  In j (dict_keys (interval_vars st)) <-> In j (map id_job (rows jobs)).
Proof.
  intros Hc.
  pose proof (dict_get_None _ _ String.eqb String.eqb_eq (interval_vars st) j)
    as Hkeys.
  split.
  - intros Hin.
    destruct (existsb (String.eqb j) (map id_job (rows jobs))) eqn:E.
    + apply existsb_exists in E as (x & Hx & Heq).
      apply String.eqb_eq in Heq. now subst.
    + exfalso. apply (interval_vars_None _ _ _ _ _ _ j Hc) in E.
      apply Hkeys in E. contradiction.
  - intros Hin.
    destruct (dict_get String.eqb (interval_vars st) j) eqn:E.
    + apply (dict_get_In _ _ String.eqb String.eqb_eq) in E.
      unfold dict_keys. now apply (in_map fst) in E.
    + exfalso. apply (interval_vars_None _ _ _ _ _ _ j Hc) in E.
      assert (Ht : existsb (String.eqb j) (map id_job (rows jobs)) = true).
      { apply existsb_exists. exists j. split; [exact Hin |].
        apply String.eqb_refl. }
      congruence.
Qed.

Lemma construir_NoDup jobs asignaciones ahora tr st g :
  construir jobs asignaciones ahora = (tr, inr (st, g)) ->
  NoDup (dict_keys (start_vars st)) /\ NoDup (dict_keys (end_vars st)) /\
  NoDup (dict_keys (interval_vars st)).
Proof.
  intros Hc.
  destruct (construir_inr _ _ _ _ _ _ Hc)
    as (tr1 & st1 & tr2 & _ & Hvars & _ & -> & -> & -> & _).
  eapply variables_NoDup. exact Hvars.
Qed.

(** X13. While it builds its model, stage (b) reports two pairs of
    counts.  "Intervals created c / n": [n] is the number of rows of the
    Job table and [c] the number of different job ids, so that [c = n]
    exactly when no id is repeated.  "Processed p, omitted o": [o] is the
    number of rows of the assignment artifact whose job is not in the Job
    table, [p] the number of the other rows, and [p + o] the number of
    rows of the artifact. *)
Theorem cuentas_del_modelo :
  forall jobs asignaciones ahora tr st g,
    construir jobs asignaciones ahora = (tr, inr (st, g)) ->
    (exists c,
        In (Print (MsgIntervalos c (List.length (rows jobs)))) tr) /\
    (forall c n, In (Print (MsgIntervalos c n)) tr ->
       n = List.length (rows jobs) /\ (c <= n)%nat /\
       (c = n <-> NoDup (map id_job (rows jobs)))) /\
    (exists p o, In (Print (MsgProcesados p o)) tr) /\
    (forall p o, In (Print (MsgProcesados p o)) tr ->
       p = List.length (con_job jobs asignaciones) /\
       o = List.length (sin_job jobs asignaciones) /\
       (p + o = List.length (rows asignaciones))%nat).
Proof.
  intros jobs asignaciones ahora tr st g Hc.
  pose proof (construir_traza _ _ _ _ _ _ Hc) as Htr.
  destruct (construir_NoDup _ _ _ _ _ _ Hc) as (_ & _ & Hnd).
  pose proof (fun j => claves_de_intervalos _ _ _ _ _ _ j Hc) as Hkeys.
  destruct (construir_diagnosticos _ _ _ _ _ _ Hc) as (Hdiag & Hom & Htot & _).
  rewrite Hdiag, (no_encontrados_sin_job _ _ _ _ _ _ Hc) in Hom.
  split; [| split; [| split]].
  - eexists. rewrite Htr. unfold mensajes_de. cbn [app]. do 3 right.
    apply in_or_app. right. left. reflexivity.
  - intros c n Hin. rewrite Htr in Hin. en_mensajes Hin.
    injection Hin as <- <-.
    assert (Hlen : List.length (interval_vars st)
                   = List.length (dict_keys (interval_vars st)))
      by (unfold dict_keys; now rewrite length_map).
    assert (Hn : List.length (rows jobs)
                 = List.length (map id_job (rows jobs)))
      by now rewrite length_map.
    split; [reflexivity |]. rewrite Hlen, Hn. split; [| split].
    + apply NoDup_incl_length; [exact Hnd |]. intros j Hj. now apply Hkeys.
    + intros Heq. apply (NoDup_incl_NoDup Hnd); [lia |].
      intros j Hj. now apply Hkeys.
    + intros HndJ. apply Nat.le_antisymm.
      * apply NoDup_incl_length; [exact Hnd |]. intros j Hj. now apply Hkeys.
      * apply NoDup_incl_length; [exact HndJ |]. intros j Hj. now apply Hkeys.
  - do 2 eexists. rewrite Htr. unfold mensajes_de. cbn [app]. do 3 right.
    apply in_or_app. right. do 3 right. apply in_or_app. right. left.
    reflexivity.
  - intros p o Hin. rewrite Htr in Hin. en_mensajes Hin.
    injection Hin as <- <-.
    pose proof (filter_particion _
                  (fun a => existsb (String.eqb (job_de asignaciones a))
                                    (map id_job (rows jobs)))
                  (rows asignaciones)) as Hpart.
    cbv beta in Hpart.
    rewrite <- (sin_job_length jobs asignaciones) in Hpart. unfold con_job.
    repeat split; lia.
Qed.

Lemma cuentas_del_modelo_witness :
  exists tr st g,
    construir EjemplosDuracion.jobs_fraccion
              EjemplosDuracion.asignaciones_huerfana EjemplosHorario.ahora_0
    = (tr, inr (st, g)) /\
    forall p o, In (Print (MsgProcesados p o)) tr ->
      p = List.length (con_job EjemplosDuracion.jobs_fraccion
                               EjemplosDuracion.asignaciones_huerfana) /\
      o = List.length (sin_job EjemplosDuracion.jobs_fraccion
                               EjemplosDuracion.asignaciones_huerfana) /\
      (p + o = List.length (rows EjemplosDuracion.asignaciones_huerfana))%nat.
Proof.
  destruct (construir EjemplosDuracion.jobs_fraccion
                      EjemplosDuracion.asignaciones_huerfana
                      EjemplosHorario.ahora_0) as [tr [e | [st g]]] eqn:Hc.
  - exfalso. vm_compute in Hc. discriminate.
  - exists tr, st, g. split; [reflexivity |].
    exact (proj2 (proj2 (proj2
             (cuentas_del_modelo EjemplosDuracion.jobs_fraccion
                EjemplosDuracion.asignaciones_huerfana
                EjemplosHorario.ahora_0 tr st g Hc)))).
Defined.






(** *** Lines 139-141: the makespan *)

Lemma construir_makespan jobs asignaciones ahora tr st g :
  construir jobs asignaciones ahora = (tr, inr (st, g)) ->
  exists mk,
    minimize (model st) = Some mk /\
    nth_error (domains (model st)) mk = Some (0, HORIZONTE_MINUTOS) /\
    In (MaxEquality mk (dict_values (end_vars st)))
       (cp_constraints (model st)).
Proof.
  intros Hc.
  destruct (construir_inr _ _ _ _ _ _ Hc)
    as (tr1 & st1 & tr2 & _ & _ & _ & _ & He & _ & Hd & Hcs & Hmin & _).
  exists (List.length (domains (model st1))). split; [exact Hmin |]. split.
  - rewrite Hd, nth_error_app2 by lia. now rewrite Nat.sub_diag.
  - rewrite Hcs, He. apply in_or_app. right. apply in_or_app. right.
    apply in_or_app. right. now left.
Qed.

Lemma fin_en_valores st v j e :
  fin st v j = Some e ->
  exists x, dict_get String.eqb (end_vars st) j = Some x /\ e = v x /\
            In x (dict_values (end_vars st)).
Proof.
  unfold fin. destruct (dict_get String.eqb (end_vars st) j) as [x |] eqn:E;
    [| discriminate].
  cbn. intros [= <-]. exists x. repeat split.
  apply (dict_get_In _ _ String.eqb String.eqb_eq) in E.
  unfold dict_values. now apply (in_map snd) in E.
Qed.

(** X15. In every feasible answer of stage (b) the variable that the
    model minimises lies within the horizon, is at least the end of every
    job and, when the Job table is not empty, is the end of one of its
    jobs: what is minimised is the time at which the last job ends. *)
Theorem makespan_ultimo_fin :
  forall jobs asignaciones ahora tr st g v,
    construir jobs asignaciones ahora = (tr, inr (st, g)) ->
    cp_feasible (model st) v ->
    exists mk,
      minimize (model st) = Some mk /\
      0 <= v mk <= HORIZONTE_MINUTOS /\
      (forall j e, fin st v j = Some e -> e <= v mk) /\
      (rows jobs <> [] ->
       exists j, In j (map id_job (rows jobs)) /\ fin st v j = Some (v mk)).
Proof.
  intros jobs asignaciones ahora tr st g v Hc Hfeas.
  destruct (construir_makespan _ _ _ _ _ _ Hc) as (mk & Hmin & Hdom & Hmax).
  exists mk. split; [exact Hmin |].
  split; [exact (factible_dominio _ _ _ _ _ Hfeas Hdom) |].
  pose proof (cp_restriccion _ _ _ Hfeas Hmax) as [Hall Hex]. cbn in Hall, Hex.
  rewrite Forall_forall in Hall. split.
  - intros j e He. apply fin_en_valores in He as (x & _ & -> & Hx). auto.
  - intros Hne. destruct (rows jobs) as [| r0 l0] eqn:Hrows; [congruence |].
    assert (Hr0 : In r0 (rows jobs)) by (rewrite Hrows; now left).
    destruct (ultima_In _ _ String.eqb String.eqb_eq id_job _ _ Hr0)
      as [r' Hr'].
    pose proof (construir_vars _ _ _ _ _ _ Hc (id_job r0)) as Hv.
    unfold fila_de in Hv. rewrite Hr' in Hv.
    destruct Hv as (s0 & e0 & _ & He0 & _).
    destruct Hex as [Hnil | Hex].
    { apply (dict_get_In _ _ String.eqb String.eqb_eq) in He0.
      apply (in_map snd) in He0.
      change (In e0 (dict_values (end_vars st))) in He0.
      rewrite Hnil in He0. contradiction. }
    apply Exists_exists in Hex as (x & Hx & Hvx).
    unfold dict_values in Hx. apply in_map_iff in Hx as ([j x'] & Hsnd & Hjx).
    cbn in Hsnd. subst x'.
    destruct (construir_NoDup _ _ _ _ _ _ Hc) as (_ & Hnd & _).
    apply (dict_In_get _ _ String.eqb String.eqb_eq _ _ _ Hnd) in Hjx.
    exists j. split.
    + pose proof (construir_vars _ _ _ _ _ _ Hc j) as Hvj.
      destruct (fila_de jobs j) eqn:Ef.
      * apply (ultima_Some _ _ String.eqb String.eqb_eq) in Ef as [Hin <-].
        rewrite <- Hrows. now apply in_map.
      * destruct Hvj as (_ & Hn & _). congruence.
    + unfold fin. rewrite Hjx. cbn. now rewrite Hvx.
Qed.

Lemma makespan_ultimo_fin_witness :
  ((exists tr g,
       construir EjemplosHorario.jobs_t1 EjemplosHorario.asignaciones_t1
                 EjemplosHorario.ahora_0
       = (tr, inr (EjemplosHorario.estado_t1, g))) /\
   cp_feasible (model EjemplosHorario.estado_t1) EjemplosHorario.v_t1) /\
  exists mk,
    minimize (model EjemplosHorario.estado_t1) = Some mk /\
    0 <= EjemplosHorario.v_t1 mk <= HORIZONTE_MINUTOS /\
    (forall j e, fin EjemplosHorario.estado_t1 EjemplosHorario.v_t1 j = Some e ->
                 e <= EjemplosHorario.v_t1 mk).
Proof.
  split; [split; [exact construir_t1 | exact factible_t1] |].
  destruct construir_t1 as (tr & g & Hc).
  destruct (makespan_ultimo_fin EjemplosHorario.jobs_t1
              EjemplosHorario.asignaciones_t1 EjemplosHorario.ahora_0
              tr EjemplosHorario.estado_t1 g EjemplosHorario.v_t1
              Hc factible_t1) as (mk & H1 & H2 & H3 & _).
  exists mk. auto.
Defined.

(** *** Lines 96-121: the jobs of one technician *)

(** Two rows of the artifact, for one technician and different jobs of the
    Job table, have disjoint intervals in a feasible answer. *)
Lemma filas_disjuntas jobs asignaciones ahora tr st g v a1 a2 s1 e1 s2 e2 :
  construir jobs asignaciones ahora = (tr, inr (st, g)) ->
  cp_feasible (model st) v ->
  In a1 (rows asignaciones) -> In a2 (rows asignaciones) ->
  tecnico_de asignaciones a1 = tecnico_de asignaciones a2 ->
  job_de asignaciones a1 <> job_de asignaciones a2 ->
  inicio st v (job_de asignaciones a1) = Some s1 ->
  fin st v (job_de asignaciones a1) = Some e1 ->
  inicio st v (job_de asignaciones a2) = Some s2 ->
  fin st v (job_de asignaciones a2) = Some e2 ->
  e1 <= s2 \/ e2 <= s1.
Proof.
  intros Hc Hfeas Hin1 Hin2 Ht Hj Hs1 He1 Hs2 He2.
  unfold inicio, fin in *.
  pose proof (construir_vars _ _ _ _ _ _ Hc (job_de asignaciones a1)) as Hv1.
  pose proof (construir_vars _ _ _ _ _ _ Hc (job_de asignaciones a2)) as Hv2.
  destruct (fila_de jobs (job_de asignaciones a1)) as [r1 |];
    [| destruct Hv1 as (Hn & _); rewrite Hn in Hs1; discriminate].
  destruct (fila_de jobs (job_de asignaciones a2)) as [r2 |];
    [| destruct Hv2 as (Hn & _); rewrite Hn in Hs2; discriminate].
  destruct Hv1 as (x1 & y1 & Hx1 & Hy1 & Hi1 & _).
  destruct Hv2 as (x2 & y2 & Hx2 & Hy2 & Hi2 & _).
  rewrite Hx1 in Hs1. rewrite Hy1 in He1. rewrite Hx2 in Hs2.
  rewrite Hy2 in He2. cbn in Hs1, He1, Hs2, He2.
  injection Hs1 as <-. injection He1 as <-.
  injection Hs2 as <-. injection He2 as <-.
  set (t := tecnico_de asignaciones a1) in *.
  set (l := intervalos_de asignaciones (interval_vars st) t
                          (rows asignaciones)).
  assert (Hne : a1 <> a2) by congruence.
  assert (Hl : l <> [] -> no_overlap v l).
  { intros Hnil.
    apply (cp_restriccion _ _ (NoOverlap l) Hfeas).
    apply (construir_solapes _ _ _ _ _ _ Hc). split; [exact Hnil |].
    now exists t. }
  assert (Hdis : disjoint v (intervalo x1 r1 y1) (intervalo x2 r2 y2)).
  { destruct (In_dos _ _ _ _ Hin1 Hin2 Hne)
      as [(l1 & l2 & l3 & Hrows) | (l1 & l2 & l3 & Hrows)].
    - destruct (intervalos_de_dos asignaciones (interval_vars st) t
                  l1 a1 l2 a2 l3 _ _ eq_refl (eq_sym Ht) Hi1 Hi2)
        as (k1 & k2 & k3 & Hk).
      assert (Hlk : l = k1 ++ intervalo x1 r1 y1 :: k2
                       ++ intervalo x2 r2 y2 :: k3)
        by (unfold l; now rewrite Hrows).
      assert (Hnil : l <> []) by (rewrite Hlk; now destruct k1).
      specialize (Hl Hnil). rewrite Hlk in Hl.
      now apply no_overlap_dos in Hl.
    - destruct (intervalos_de_dos asignaciones (interval_vars st) t
                  l1 a2 l2 a1 l3 _ _ (eq_sym Ht) eq_refl Hi2 Hi1)
        as (k1 & k2 & k3 & Hk).
      assert (Hlk : l = k1 ++ intervalo x2 r2 y2 :: k2
                       ++ intervalo x1 r1 y1 :: k3)
        by (unfold l; now rewrite Hrows).
      assert (Hnil : l <> []) by (rewrite Hlk; now destruct k1).
      specialize (Hl Hnil). rewrite Hlk in Hl.
      apply disjoint_sym. now apply no_overlap_dos in Hl. }
  unfold disjoint in Hdis. cbn in Hdis. exact Hdis.
Qed.

(** *** Intervals that do not overlap fit in the span they lie in *)










(** *** Lines 127-135: deadlines of the day and deadlines far away *)

Lemma inicio_fin jobs asignaciones ahora tr st g v r :
  construir jobs asignaciones ahora = (tr, inr (st, g)) ->
  cp_feasible (model st) v ->
  fila_de jobs (id_job r) = Some r ->
  exists s,
    inicio st v (id_job r) = Some s /\
    fin st v (id_job r) = Some (s + duracion_de r) /\ 0 <= s.
Proof.
  intros Hc Hfeas Hf.
  pose proof (construir_vars _ _ _ _ _ _ Hc (id_job r)) as Hv.
  rewrite Hf in Hv. destruct Hv as (s & e & Hs & He & _ & Hds & _ & Hint).
  pose proof (cp_restriccion _ _ _ Hfeas Hint) as Hsz. cbn in Hsz.
  pose proof (factible_dominio _ _ _ _ _ Hfeas Hds) as Hs0.
  exists (v s). unfold inicio, fin. rewrite Hs, He. cbn.
  repeat split; [| lia]. f_equal. lia.
Qed.

(** X17. How stage (b) turns a deadline into a bound.  A job whose
    deadline is less than one day ahead of the clock must start at minute
    0 in every feasible answer; a job whose deadline is seven days ahead
    or more gets the horizon itself as its bound.  Hence, job ids being
    unique, the model has no feasible answer when the artifact gives one
    technician two jobs of at least one minute that are both due within
    the day. *)
Theorem plazo_del_dia :
  forall jobs asignaciones ahora tr st g,
    construir jobs asignaciones ahora = (tr, inr (st, g)) ->
    (forall v k r,
        cp_feasible (model st) v ->
        nth_error (rows jobs) k = Some r ->
        0 <= deadline r - ahora k < MICROSEGUNDOS_POR_DIA ->
        inicio st v (id_job r) = Some 0) /\
    (forall k r,
        nth_error (rows jobs) k = Some r ->
        DIAS_HORIZONTE * MICROSEGUNDOS_POR_DIA <= deadline r - ahora k ->
        exists s,
          dict_get String.eqb (start_vars st) (id_job r) = Some s /\
          In (LinearLe s HORIZONTE_MINUTOS) (cp_constraints (model st))) /\
    (forall a1 a2 k1 r1 k2 r2,
        NoDup (map id_job (rows jobs)) ->
        In a1 (rows asignaciones) -> In a2 (rows asignaciones) ->
        tecnico_de asignaciones a1 = tecnico_de asignaciones a2 ->
        nth_error (rows jobs) k1 = Some r1 ->
        nth_error (rows jobs) k2 = Some r2 ->
        job_de asignaciones a1 = id_job r1 ->
        job_de asignaciones a2 = id_job r2 ->
        id_job r1 <> id_job r2 ->
        0 <= deadline r1 - ahora k1 < MICROSEGUNDOS_POR_DIA ->
        0 <= deadline r2 - ahora k2 < MICROSEGUNDOS_POR_DIA ->
        0 < duracion_de r1 -> 0 < duracion_de r2 ->
        forall v, ~ cp_feasible (model st) v).
Proof.
  intros jobs asignaciones ahora tr st g Hc.
  assert (Hhoy : forall v k r,
            cp_feasible (model st) v ->
            nth_error (rows jobs) k = Some r ->
            0 <= deadline r - ahora k < MICROSEGUNDOS_POR_DIA ->
            inicio st v (id_job r) = Some 0).
  { intros v k r Hfeas Hk Hd.
    assert (Hin : In r (rows jobs)) by (eapply nth_error_In; eauto).
    destruct (ultima_In _ _ String.eqb String.eqb_eq id_job _ _ Hin)
      as [r' Hr'].
    pose proof (construir_vars _ _ _ _ _ _ Hc (id_job r)) as Hv.
    unfold fila_de in Hv. rewrite Hr' in Hv.
    destruct Hv as (s & e & Hs & _ & _ & Hds & _).
    assert (Hle : In (LinearLe s 0) (cp_constraints (model st))).
    { apply (construir_cotas _ _ _ _ _ _ Hc). exists k, r.
      unfold max_start_de, dias_de, dias_restantes.
      rewrite (Z.div_small _ _ Hd). repeat split; auto; try lia;
        reflexivity. }
    pose proof (cp_restriccion _ _ _ Hfeas Hle) as Hb. cbn in Hb.
    pose proof (factible_dominio _ _ _ _ _ Hfeas Hds) as Hs0.
    unfold inicio. rewrite Hs. cbn. f_equal. lia. }
  split; [exact Hhoy |]. split.
  - intros k r Hk Hd.
    assert (Hin : In r (rows jobs)) by (eapply nth_error_In; eauto).
    destruct (ultima_In _ _ String.eqb String.eqb_eq id_job _ _ Hin)
      as [r' Hr'].
    pose proof (construir_vars _ _ _ _ _ _ Hc (id_job r)) as Hv.
    unfold fila_de in Hv. rewrite Hr' in Hv.
    destruct Hv as (s & e & Hs & _).
    exists s. split; [exact Hs |].
    apply (construir_cotas _ _ _ _ _ _ Hc). exists k, r.
    assert (Hdias : DIAS_HORIZONTE <= dias_de ahora k r).
    { unfold dias_de, dias_restantes.
      apply Z.div_le_lower_bound; [reflexivity |].
      rewrite Z.mul_comm. exact Hd. }
    unfold DIAS_HORIZONTE in Hdias.
    repeat split; auto; [lia |].
    unfold max_start_de, HORIZONTE_MINUTOS, DIAS_HORIZONTE, HORAS_POR_DIA.
    lia.
  - intros a1 a2 k1 r1 k2 r2 Hnd Ha1 Ha2 Ht Hk1 Hk2 Hj1 Hj2 Hne Hd1 Hd2
           Hp1 Hp2 v Hfeas.
    assert (Hin1 : In r1 (rows jobs)) by (eapply nth_error_In; eauto).
    assert (Hin2 : In r2 (rows jobs)) by (eapply nth_error_In; eauto).
    destruct (inicio_fin _ _ _ _ _ _ _ _ Hc Hfeas
                (fila_de_unica _ _ Hnd Hin1)) as (s1 & Hs1 & He1 & _).
    destruct (inicio_fin _ _ _ _ _ _ _ _ Hc Hfeas
                (fila_de_unica _ _ Hnd Hin2)) as (s2 & Hs2 & He2 & _).
    rewrite (Hhoy v k1 r1 Hfeas Hk1 Hd1) in Hs1. injection Hs1 as <-.
    rewrite (Hhoy v k2 r2 Hfeas Hk2 Hd2) in Hs2. injection Hs2 as <-.
    rewrite <- Hj1 in He1. rewrite <- Hj2 in He2.
    assert (Hdis : 0 + duracion_de r1 <= 0 \/ 0 + duracion_de r2 <= 0).
    { apply (filas_disjuntas _ _ _ _ _ _ v a1 a2 0 _ 0 _ Hc Hfeas Ha1 Ha2 Ht).
      - congruence.
      - rewrite Hj1. now apply Hhoy with (k := k1).
      - exact He1.
      - rewrite Hj2. now apply Hhoy with (k := k2).
      - exact He2. }
    lia.
Qed.

Lemma plazo_del_dia_witness :
  exists tr st g,
    construir EjemplosPlazos.jobs_hoy EjemplosHorario.asignaciones_t1
              EjemplosHorario.ahora_0
    = (tr, inr (st, g)) /\
    NoDup (map id_job (rows EjemplosPlazos.jobs_hoy)) /\
    (0 <= EjemplosPlazos.MEDIO_DIA - EjemplosHorario.ahora_0 0%nat
     < MICROSEGUNDOS_POR_DIA) /\
    forall v, ~ cp_feasible (model st) v.
Proof.
  destruct (construir EjemplosPlazos.jobs_hoy EjemplosHorario.asignaciones_t1
                      EjemplosHorario.ahora_0) as [tr [e | [st g]]] eqn:Hc.
  - exfalso. vm_compute in Hc. discriminate.
  - assert (Hnd : NoDup (map id_job (rows EjemplosPlazos.jobs_hoy))).
    { repeat constructor; simpl; intuition discriminate. }
    assert (Hd : 0 <= EjemplosPlazos.MEDIO_DIA - EjemplosHorario.ahora_0 0%nat
                 < MICROSEGUNDOS_POR_DIA) by (vm_compute; split; congruence).
    exists tr, st, g. split; [reflexivity |]. split; [exact Hnd |].
    split; [exact Hd |].
    apply (proj2 (proj2 (plazo_del_dia EjemplosPlazos.jobs_hoy
                           EjemplosHorario.asignaciones_t1
                           EjemplosHorario.ahora_0 tr st g Hc))
                 (EjemplosHorario.asignacion "J1" "T1")
                 (EjemplosHorario.asignacion "J2" "T1")
                 0%nat (Ejemplos.job "J1" 3 EjemplosPlazos.MEDIO_DIA)
                 1%nat (Ejemplos.job "J2" 5 EjemplosPlazos.MEDIO_DIA)
                 Hnd);
      try reflexivity; try exact Hd.
    + now left.
    + right. now left.
    + discriminate.
Defined.

End ScheduleModel.

(** ** Stage (b): the schedule table and its summary *)
Module ScheduleTable.
Import Schedule ScheduleSpec ScheduleFacts ScheduleModel.

(** *** Lines 158-188: the rows *)


Lemma reloj s :
  0 <= s <= HORIZONTE_MINUTOS ->
  1 <= s / MINUTOS_POR_DIA + 1 <= 8 /\
  (s < HORIZONTE_MINUTOS -> s / MINUTOS_POR_DIA + 1 <= 7) /\
  0 <= (s mod MINUTOS_POR_DIA) / 60 <= 7 /\
  0 <= s mod 60 <= 59 /\
  s = (s / MINUTOS_POR_DIA + 1 - 1) * 480
      + (s mod MINUTOS_POR_DIA) / 60 * 60 + s mod 60 /\
  s mod 480 = (s mod MINUTOS_POR_DIA) / 60 * 60 + s mod 60.
Proof.
  unfold HORIZONTE_MINUTOS, DIAS_HORIZONTE, HORAS_POR_DIA, MINUTOS_POR_DIA,
    HORAS_POR_DIA.
  change (8 * 60) with 480. change (7 * 8 * 60) with 3360.
  intros Hs. repeat split; Z.div_mod_to_equations; lia.
Qed.


Lemma columnas_t1 :
  columnas_presentes EjemplosHorario.jobs_t1 EjemplosHorario.asignaciones_t1.
Proof.
  split; [| split; reflexivity].
  intros c Hc. simpl in Hc.
  repeat (destruct Hc as [<- | Hc]; [reflexivity |]). contradiction.
Qed.


(** *** Lines 200-206: the summary *)

Lemma fold_left_max l :
  forall a,
    (fold_left Z.max l a = a \/ In (fold_left Z.max l a) l) /\
    a <= fold_left Z.max l a /\
    forall x, In x l -> x <= fold_left Z.max l a.
Proof.
  induction l as [| b l IH]; intros a; cbn.
  - split; [now left |]. split; [lia | contradiction].
  - destruct (IH (Z.max a b)) as (Hin & Hle & Hall). split; [| split].
    + destruct Hin as [Heq | Hin]; [| right; now right].
      rewrite Heq.
      destruct (Z.max_spec a b) as [[_ Hm] | [_ Hm]]; rewrite Hm;
        [right; now left | now left].
    + lia.
    + intros x [<- | Hx]; [lia | auto].
Qed.

Lemma maximo_es_mayor l d :
  maximo l = Some d -> In d l /\ forall x, In x l -> x <= d.
Proof.
  destruct l as [| a l]; [discriminate |]. cbn. intros [= <-].
  destruct (fold_left_max l a) as (Hin & Hle & Hall). split.
  - destruct Hin as [-> | Hin]; [now left | now right].
  - intros x [<- | Hx]; auto.
Qed.

Lemma dia_en_rango jobs asignaciones ahora tr st g v r :
  construir jobs asignaciones ahora = (tr, inr (st, g)) ->
  cp_feasible (model st) v ->
  In r (rows jobs) ->
  1 <= dia (fila_horario_de asignaciones st v r) <= 8.
Proof.
  intros Hc Hfeas Hr.
  destruct (ultima_In _ _ String.eqb String.eqb_eq id_job _ _ Hr) as [r' Hr'].
  pose proof (construir_vars _ _ _ _ _ _ Hc (id_job r)) as Hv.
  unfold fila_de in Hv. rewrite Hr' in Hv.
  destruct Hv as (x & y & Hx & _ & _ & Hdx & _).
  pose proof (factible_dominio _ _ _ _ _ Hfeas Hdx) as Hsx.
  unfold fila_horario_de, inicio. rewrite Hx. cbn [option_map valor dia].
  now destruct (reloj (v x) Hsx) as (H1 & _).
Qed.

(** X19. The summary of stage (b), for a Job table with at least one row
    and a feasible answer.  "Jobs planned" is the number of rows of the
    Job table.  "Days required" is the largest day of the table, that of
    the job that starts last, between 1 and 8.  "Technicians used" is the
    number of different values in the technician column of the table, the
    text "No asignado" counting as one when a job has no row in the
    assignment artifact.  The preview shows the first ten rows. *)
Theorem resumen_del_horario :
  forall jobs asignaciones ahora tr st g status v,
    construir jobs asignaciones ahora = (tr, inr (st, g)) ->
    columnas_presentes jobs asignaciones ->
    resuelto status = true ->
    cp_feasible (model st) v ->
    rows jobs <> [] ->
    exists filas d,
      In (ToCsv_schedule filas)
         (trace (procesar jobs asignaciones st status v)) /\
      In (Print (MsgResumen (List.length (rows jobs))))
         (trace (procesar jobs asignaciones st status v)) /\
      In (Print (MsgDias d))
         (trace (procesar jobs asignaciones st status v)) /\
      (forall f, In f filas -> dia f <= d) /\
      (exists f, In f filas /\ dia f = d) /\
      1 <= d <= 8 /\
      In (Print (MsgTecnicos
                   (List.length
                      (unique (map (fun r => tecnico_asignado asignaciones
                                                              (id_job r))
                                   (rows jobs))))))
         (trace (procesar jobs asignaciones st status v)) /\
      ((exists r, In r (rows jobs) /\
                  ~ In (id_job r)
                       (map (job_de asignaciones) (rows asignaciones))) ->
       In "No asignado"
          (unique (map (fun r => tecnico_asignado asignaciones (id_job r))
                       (rows jobs)))) /\
      In (Print (MsgVistaPrevia (firstn 10 filas)))
         (trace (procesar jobs asignaciones st status v)) /\
      outcome (procesar jobs asignaciones st status v) = inr tt.
Proof.
  intros jobs asignaciones ahora tr st g status v Hc Hcols Hres Hfeas Hne.
  set (filas := map (fila_horario_de asignaciones st v) (rows jobs)).
  destruct (maximo (map dia filas)) as [d |] eqn:Hmax.
  2:{ exfalso. unfold filas in Hmax.
      destruct (rows jobs); [congruence | discriminate]. }
  exists filas, d.
  rewrite (procesar_resuelto _ _ _ _ _ _ _ v Hc Hcols Hres).
  fold filas. rewrite Hmax. cbn [trace outcome fst snd app].
  apply maximo_es_mayor in Hmax as [Hin Hall].
  apply in_map_iff in Hin as (f & Hdf & Hf).
  assert (Htec : map s_tecnico_id filas
                 = map (fun r => tecnico_asignado asignaciones (id_job r))
                       (rows jobs)).
  { unfold filas. rewrite map_map. reflexivity. }
  assert (Hlen : List.length filas = List.length (rows jobs))
    by apply length_map.
  split; [do 2 right; now left |].
  split; [do 4 right; left; now rewrite Hlen |].
  split; [do 5 right; now left |].
  split; [intros f' Hf'; apply Hall; now apply in_map |].
  split; [now exists f |].
  split.
  { rewrite <- Hdf. unfold filas in Hf.
    apply in_map_iff in Hf as (r & <- & Hr).
    now apply (dia_en_rango _ _ _ _ _ _ _ _ Hc Hfeas). }
  split; [do 6 right; left; now rewrite Htec |].
  split.
  { intros (r & Hr & Hno). unfold unique. apply nodup_In.
    apply in_map_iff. exists r. split; [| exact Hr].
    now apply tecnico_no_asignado. }
  split; [do 7 right; now left | reflexivity].
Qed.

Lemma resumen_del_horario_witness :
  ((exists tr g,
       construir EjemplosHorario.jobs_t1 EjemplosHorario.asignaciones_t1
                 EjemplosHorario.ahora_0
       = (tr, inr (EjemplosHorario.estado_t1, g))) /\
   columnas_presentes EjemplosHorario.jobs_t1 EjemplosHorario.asignaciones_t1 /\
   resuelto OPTIMAL = true /\
   cp_feasible (model EjemplosHorario.estado_t1) EjemplosHorario.v_t1 /\
   rows EjemplosHorario.jobs_t1 <> []) /\
  In (Print (MsgResumen 2))
     (trace (procesar EjemplosHorario.jobs_t1 EjemplosHorario.asignaciones_t1
                      EjemplosHorario.estado_t1 OPTIMAL EjemplosHorario.v_t1)).
Proof.
  assert (Hne : rows EjemplosHorario.jobs_t1 <> []) by discriminate.
  split.
  - split; [exact construir_t1 |]. split; [exact columnas_t1 |].
    split; [reflexivity |]. split; [exact factible_t1 | exact Hne].
  - destruct construir_t1 as (tr & g & Hc).
    destruct (resumen_del_horario EjemplosHorario.jobs_t1
                EjemplosHorario.asignaciones_t1 EjemplosHorario.ahora_0
                tr EjemplosHorario.estado_t1 g OPTIMAL EjemplosHorario.v_t1
                Hc columnas_t1 eq_refl factible_t1 Hne)
      as (filas & d & _ & Hres & _).
    exact Hres.
Defined.

(** *** An empty Job table *)





End ScheduleTable.

(** ** Stage (b): the columns that the model needs *)
Module ScheduleColumns.
Import Schedule ScheduleSpec ScheduleFacts.

Ltac paso :=
  rewrite outcome_bind; cbn [outcome emit ret raise fst snd].

(** A run whose model cannot be built ends with the exception that
    stopped the building, and does not call the solver. *)
Lemma main_sin_modelo fs ahora solver jobs tecnicos asignaciones e :
  jobs_csv fs = Some jobs -> tecnicos_csv fs = Some tecnicos ->
  asignaciones_csv fs = Some asignaciones ->
  outcome (construir jobs asignaciones ahora) = inl e ->
  outcome (main fs ahora solver) = inl e /\
  forall m, ~ In (Solve m) (trace (main fs ahora solver)).
Proof.
  intros Hj Ht Ha He. split.
  - rewrite main_outcome. unfold cargar. rewrite Hj, Ht, Ha.
    cbn [read_csv bind ret emit try_except_FileNotFoundError outcome snd app].
    now rewrite He.
  - intros m Hin.
    apply main_resuelve in Hin
      as (jobs' & tecnicos' & asignaciones' & tr & st & g & Hj' & _ & Ha' & Hc
          & _).
    assert (jobs' = jobs) by congruence.
    assert (asignaciones' = asignaciones) by congruence. subst.
    rewrite Hc in He. discriminate.
Qed.

Lemma crear_todas jobs :
  has_column jobs "id_job" = true \/ rows jobs = [] ->
  exists tr st,
    for_each (iterrows jobs) (crear_variables jobs) estado_inicial
    = (tr, inr st).
Proof.
  intros [Hid | Hnil].
  - apply for_each_total. intros s a _. now apply crear_variables_total.
  - unfold iterrows. rewrite Hnil. eexists _, _. reflexivity.
Qed.

Lemma construir_sin_duracion jobs asignaciones ahora :
  has_column jobs "duracion_horas" = false ->
  outcome (construir jobs asignaciones ahora)
  = inl (KeyError "duracion_horas").
Proof.
  intros Hdur. unfold construir. paso. rewrite Hdur. now paso.
Qed.

Lemma construir_sin_id jobs asignaciones ahora :
  has_column jobs "duracion_horas" = true -> rows jobs <> [] ->
  has_column jobs "id_job" = false ->
  outcome (construir jobs asignaciones ahora) = inl (KeyError "id_job").
Proof.
  intros Hdur Hne Hid. unfold construir. paso. rewrite Hdur. do 4 paso.
  unfold iterrows. destruct (rows jobs) as [| r l]; [congruence |].
  cbn [List.length seq combine for_each]. paso.
  unfold crear_variables, getitem. rewrite Hid. now paso.
Qed.

Lemma construir_sin_columna jobs asignaciones ahora c :
  has_column jobs "duracion_horas" = true ->
  has_column jobs "id_job" = true \/ rows jobs = [] ->
  rows asignaciones <> [] ->
  (has_column asignaciones (columna_tecnico_de asignaciones) = false /\
   c = columna_tecnico_de asignaciones) \/
  (has_column asignaciones (columna_tecnico_de asignaciones) = true /\
   has_column asignaciones (columna_job_de asignaciones) = false /\
   c = columna_job_de asignaciones) ->
  outcome (construir jobs asignaciones ahora) = inl (KeyError c).
Proof.
  intros Hdur Hid Hne Hcol.
  destruct (crear_todas jobs Hid) as (tr1 & st1 & Hvars).
  unfold construir. paso. rewrite Hdur. do 4 paso.
  rewrite Hvars. cbn [outcome snd]. do 4 paso.
  destruct (rows asignaciones) as [| a l]; [congruence |].
  cbn [for_each]. paso. unfold agrupar, getitem.
  destruct Hcol as [[Ht ->] | (Ht & Hj & ->)].
  - rewrite Ht. now paso.
  - rewrite Ht. paso. rewrite Hj. now paso.
Qed.

Lemma construir_sin_deadline jobs asignaciones ahora :
  has_column jobs "duracion_horas" = true -> rows jobs <> [] ->
  has_column jobs "id_job" = true ->
  has_column jobs "deadline" = false ->
  has_column asignaciones (columna_tecnico_de asignaciones) = true ->
  has_column asignaciones (columna_job_de asignaciones) = true ->
  outcome (construir jobs asignaciones ahora) = inl (KeyError "deadline").
Proof.
  intros Hdur Hne Hid Hdl Ht Hj.
  destruct (crear_todas jobs (or_introl Hid)) as (tr1 & st1 & Hvars).
  destruct (for_each_total _ _ _ (agrupar asignaciones (interval_vars st1))
              (rows asignaciones)
              {| jobs_por_tecnico := []; jobs_procesados := 0;
                 jobs_omitidos := 0 |}) as (tr2 & g & Hagr).
  { intros s a _. now apply agrupar_total. }
  destruct (sin_solape_ok (jobs_por_tecnico g) (model st1))
    as (tr3 & Hss & _).
  unfold construir. paso. rewrite Hdur. do 4 paso.
  rewrite Hvars. cbn [outcome snd]. do 4 paso.
  rewrite Hagr. cbn [outcome snd]. do 2 paso.
  rewrite Hss. cbn [outcome snd]. do 2 paso.
  unfold iterrows. destruct (rows jobs) as [| r l]; [congruence |].
  cbn [List.length seq combine for_each]. paso.
  unfold limitar_inicio, getitem. rewrite Hid, Hdl. paso. now paso.
Qed.

(** X23. The columns of the Job table that the model of stage (b) needs.
    Without [duracion_horas] the run ends with [KeyError] at line 43, also
    for a table without rows; without [id_job], or without [deadline],
    it ends with the [KeyError] of that column at the first row of the
    table (line 59, or line 129 once the artifact has been grouped).  In
    the three cases the solver is not called. *)
Theorem columnas_de_trabajos :
  forall fs ahora solver jobs tecnicos asignaciones,
    jobs_csv fs = Some jobs -> tecnicos_csv fs = Some tecnicos ->
    asignaciones_csv fs = Some asignaciones ->
    (has_column jobs "duracion_horas" = false ->
     outcome (main fs ahora solver) = inl (KeyError "duracion_horas") /\
     forall m, ~ In (Solve m) (trace (main fs ahora solver))) /\
    (has_column jobs "duracion_horas" = true -> rows jobs <> [] ->
     has_column jobs "id_job" = false ->
     outcome (main fs ahora solver) = inl (KeyError "id_job") /\
     forall m, ~ In (Solve m) (trace (main fs ahora solver))) /\
    (has_column jobs "duracion_horas" = true -> rows jobs <> [] ->
     has_column jobs "id_job" = true ->
     has_column jobs "deadline" = false ->
     has_column asignaciones (columna_tecnico_de asignaciones) = true ->
     has_column asignaciones (columna_job_de asignaciones) = true ->
     outcome (main fs ahora solver) = inl (KeyError "deadline") /\
     forall m, ~ In (Solve m) (trace (main fs ahora solver))).
Proof.
  intros fs ahora solver jobs tecnicos asignaciones Hj Ht Ha.
  split; [| split].
  - intros Hdur. apply (main_sin_modelo _ _ _ _ _ _ _ Hj Ht Ha).
    now apply construir_sin_duracion.
  - intros Hdur Hne Hid. apply (main_sin_modelo _ _ _ _ _ _ _ Hj Ht Ha).
    now apply construir_sin_id.
  - intros Hdur Hne Hid Hdl Hct Hcj.
    apply (main_sin_modelo _ _ _ _ _ _ _ Hj Ht Ha).
    now apply construir_sin_deadline.
Qed.

Lemma columnas_de_trabajos_witness :
  (has_column EjemplosColumnas.jobs_sin_deadline "duracion_horas" = true /\
   rows EjemplosColumnas.jobs_sin_deadline <> [] /\
   has_column EjemplosColumnas.jobs_sin_deadline "id_job" = true /\
   has_column EjemplosColumnas.jobs_sin_deadline "deadline" = false) /\
  outcome (main EjemplosColumnas.fs_sin_deadline EjemplosHorario.ahora_0
                EjemplosErrores.solver_optimo)
  = inl (KeyError "deadline") /\
  forall m,
    ~ In (Solve m)
         (trace (main EjemplosColumnas.fs_sin_deadline EjemplosHorario.ahora_0
                      EjemplosErrores.solver_optimo)).
Proof.
  assert (Hne : rows EjemplosColumnas.jobs_sin_deadline <> []) by discriminate.
  split; [repeat split; exact Hne |].
  exact (proj2 (proj2 (columnas_de_trabajos EjemplosColumnas.fs_sin_deadline
                  EjemplosHorario.ahora_0 EjemplosErrores.solver_optimo
                  EjemplosColumnas.jobs_sin_deadline Ejemplos.tecnicos_dos
                  EjemplosErrores.asignaciones_j1 eq_refl eq_refl eq_refl))
               eq_refl Hne eq_refl eq_refl eq_refl eq_refl).
Defined.

(** X24. The columns of the assignment artifact that the model of stage
    (b) needs, for an artifact with at least one row.  The technician is
    looked for under [Id_tecnico] and, failing that, under [id_tecnico];
    the job under [job_id] and, failing that, under [id_job].  When the
    artifact has neither column of a pair, the run ends with the
    [KeyError] of the second name, at the first row of the artifact (lines
    102-103), and the solver is not called. *)
Theorem columnas_del_artefacto :
  forall fs ahora solver jobs tecnicos asignaciones,
    jobs_csv fs = Some jobs -> tecnicos_csv fs = Some tecnicos ->
    asignaciones_csv fs = Some asignaciones ->
    has_column jobs "duracion_horas" = true ->
    has_column jobs "id_job" = true \/ rows jobs = [] ->
    rows asignaciones <> [] ->
    (has_column asignaciones "Id_tecnico" = false ->
     has_column asignaciones "id_tecnico" = false ->
     outcome (main fs ahora solver) = inl (KeyError "id_tecnico") /\
     forall m, ~ In (Solve m) (trace (main fs ahora solver))) /\
    (has_column asignaciones "Id_tecnico" = true \/
     has_column asignaciones "id_tecnico" = true ->
     has_column asignaciones "job_id" = false ->
     has_column asignaciones "id_job" = false ->
     outcome (main fs ahora solver) = inl (KeyError "id_job") /\
     forall m, ~ In (Solve m) (trace (main fs ahora solver))).
Proof.
  intros fs ahora solver jobs tecnicos asignaciones Hj Ht Ha Hdur Hid Hne.
  split.
  - intros H1 H2. apply (main_sin_modelo _ _ _ _ _ _ _ Hj Ht Ha).
    apply construir_sin_columna; auto. left.
    unfold columna_tecnico_de. rewrite H1. auto.
  - intros Htec H1 H2. apply (main_sin_modelo _ _ _ _ _ _ _ Hj Ht Ha).
    apply construir_sin_columna; auto. right.
    unfold columna_tecnico_de, columna_job_de. rewrite H1.
    destruct (has_column asignaciones "Id_tecnico") eqn:E; [auto |].
    destruct Htec as [Htec | Htec]; [discriminate | auto].
Qed.

Lemma columnas_del_artefacto_witness :
  (has_column EjemplosHorario.jobs_t1 "duracion_horas" = true /\
   has_column EjemplosHorario.jobs_t1 "id_job" = true /\
   rows EjemplosColumnas.asignaciones_sin_tecnico <> [] /\
   has_column EjemplosColumnas.asignaciones_sin_tecnico "Id_tecnico" = false /\
   has_column EjemplosColumnas.asignaciones_sin_tecnico "id_tecnico" = false)
  /\
  outcome (main EjemplosColumnas.fs_sin_tecnico EjemplosHorario.ahora_0
                EjemplosErrores.solver_optimo)
  = inl (KeyError "id_tecnico") /\
  forall m,
    ~ In (Solve m)
         (trace (main EjemplosColumnas.fs_sin_tecnico EjemplosHorario.ahora_0
                      EjemplosErrores.solver_optimo)).
Proof.
  assert (Hne : rows EjemplosColumnas.asignaciones_sin_tecnico <> [])
    by discriminate.
  split; [repeat split; exact Hne |].
  exact (proj1 (columnas_del_artefacto EjemplosColumnas.fs_sin_tecnico
                  EjemplosHorario.ahora_0 EjemplosErrores.solver_optimo
                  EjemplosHorario.jobs_t1 Ejemplos.tecnicos_dos
                  EjemplosColumnas.asignaciones_sin_tecnico
                  eq_refl eq_refl eq_refl eq_refl (or_introl eq_refl) Hne)
               eq_refl eq_refl).
Defined.

End ScheduleColumns.

(** ** The two stages, one after the other *)
Module Pipeline.
Import AssignmentSpec ScheduleSpec Encadenado.

Lemma Forall2_In_l A B (P : A -> B -> Prop) l1 l2 a :
  Forall2 P l1 l2 -> In a l1 -> exists b, In b l2 /\ P a b.
Proof.
  induction 1 as [| x y l1 l2 Hxy _ IH]; [contradiction |].
  intros [<- | Hin].
  - exists y. split; [now left | exact Hxy].
  - destruct (IH Hin) as (b & Hb & Hab). exists b. split; [now right | exact Hab].
Qed.

Lemma Forall2_In_r A B (P : A -> B -> Prop) l1 l2 b :
  Forall2 P l1 l2 -> In b l2 -> exists a, In a l1 /\ P a b.
Proof.
  induction 1 as [| x y l1 l2 Hxy _ IH]; [contradiction |].
  intros [<- | Hin].
  - exists x. split; [now left | exact Hxy].
  - destruct (IH Hin) as (a & Ha & Hab). exists a. split; [now right | exact Hab].
Qed.

(** The columns that stage (b) reads in the artifact of stage (a). *)
Lemma columnas_releidas jobs tecnicos v asignaciones :
  columns asignaciones = columns (resultados_df_de jobs tecnicos v) ->
  Schedule.columna_tecnico_de asignaciones = "id_tecnico" /\
  Schedule.columna_job_de asignaciones = "job_id".
Proof.
  intros Hcols.
  unfold Schedule.columna_tecnico_de, Schedule.columna_job_de, has_column.
  rewrite Hcols. unfold resultados_df_de, Assignment.tecnicos_cols.
  cbn [columns]. destruct (has_column tecnicos "nombre"); split; reflexivity.
Qed.

(** A row read back names the job and the technician of the row written. *)
Lemma fila_releida jobs tecnicos v asignaciones s :
  releida (resultados_df_de jobs tecnicos v) asignaciones ->
  In s (rows asignaciones) ->
  In (job_de asignaciones s) (J_de jobs) /\
  In (tecnico_de asignaciones s) (T_de tecnicos) /\
  asignado v (tecnico_de asignaciones s) (job_de asignaciones s) = true.
Proof.
  intros [Hcols Hrows] Hs.
  destruct (columnas_releidas _ _ _ _ Hcols) as [Ht Hj].
  destruct (Forall2_In_r _ _ _ _ _ _ Hrows Hs) as (a & Ha & Hjob & _ & Hid).
  destruct (AssignmentOutputs.fila_con_tecnico _ _ _ _ Ha)
    as (_ & m & Hm & _ & Hidm).
  rewrite Hm in Hid.
  destruct (AssignmentFacts.fila_asignada _ _ _ _ Ha) as (HJ & HT & Has).
  unfold job_de, tecnico_de. rewrite Ht, Hj, Hjob, Hid, Hidm. auto.
Qed.

Lemma una_fila_releida jobs tecnicos habilidades v asignaciones j :
  NoDup (J_de jobs) ->
  Assignment.lp_feasible (problema jobs tecnicos habilidades) v ->
  releida (resultados_df_de jobs tecnicos v) asignaciones ->
  In j (J_de jobs) ->
  exists s,
    In s (rows asignaciones) /\ job_de asignaciones s = j /\
    tecnico_asignado asignaciones j = tecnico_de asignaciones s.
Proof.
  intros Hnd Hfeas Hrel Hj.
  pose proof (AssignmentFacts.una_fila_por_trabajo _ _ _ _ _ Hnd Hfeas Hj)
    as Hone.
  destruct (filter (fun a => (Assignment.job_id (Assignment.left a) =? j)%string)
                   (rows (resultados_df_de jobs tecnicos v)))
    as [| a l] eqn:Ef; [discriminate |].
  assert (Ha : In a (filter (fun a => (Assignment.job_id (Assignment.left a)
                                       =? j)%string)
                            (rows (resultados_df_de jobs tecnicos v))))
    by (rewrite Ef; now left).
  apply filter_In in Ha as [Ha Haj]. apply String.eqb_eq in Haj.
  destruct Hrel as [Hcols Hrows].
  destruct (columnas_releidas _ _ _ _ Hcols) as [_ Hjc].
  destruct (Forall2_In_l _ _ _ _ _ _ Hrows Ha) as (s & Hs & Hjob & _).
  unfold tecnico_asignado.
  destruct (filter (fun a0 => (job_de asignaciones a0 =? j)%string)
                   (rows asignaciones)) as [| s0 l0] eqn:Efs.
  - exfalso.
    assert (Hin : In s (filter (fun a0 => (job_de asignaciones a0 =? j)%string)
                               (rows asignaciones))).
    { apply filter_In. split; [exact Hs |]. unfold job_de.
      rewrite Hjc, Hjob, Haj. apply String.eqb_refl. }
    rewrite Efs in Hin. contradiction.
  - assert (Hin : In s0 (filter (fun a0 => (job_de asignaciones a0 =? j)%string)
                                (rows asignaciones)))
      by (rewrite Efs; now left).
    apply filter_In in Hin as [Hs0 Hj0]. apply String.eqb_eq in Hj0.
    exists s0. auto.
Qed.

(** X21. Stage (b) run on what stage (a) wrote.  Let stage (a) write its
    assignment table from a feasible answer, job and technician ids being
    unique, and let stage (b) read that table back together with the same
    Job file.  Then stage (b) reads the technician in the column
    [id_tecnico] and the job in the column [job_id]; it finds every job of
    the table in the Job file (nothing is omitted, and as many rows are
    processed as there are jobs); the schedule reports for every job the
    technician that stage (a) gave it the value 1 for; and in every
    feasible answer of stage (b) two different jobs of one technician do
    not overlap. *)
Theorem etapas_encadenadas :
  forall fs solver jobs tecnicos habilidades prob status v df
         j0 asignaciones ahora tr st g,
    leidos fs jobs tecnicos habilidades ->
    Assignment.jobs_csv fs = Some j0 ->
    NoDup (J_de jobs) -> NoDup (T_de tecnicos) ->
    In (Assignment.Solve prob) (trace (Assignment.main fs solver)) ->
    solver prob = (status, v) ->
    Assignment.lp_feasible prob v ->
    In (Assignment.ToCsv_assignment df) (trace (Assignment.main fs solver)) ->
    releida df asignaciones ->
    Schedule.construir j0 asignaciones ahora = (tr, inr (st, g)) ->
    (Schedule.columna_tecnico_de asignaciones = "id_tecnico" /\
     Schedule.columna_job_de asignaciones = "job_id") /\
    (diagnosticos tr = [] /\ Schedule.jobs_omitidos g = 0%nat /\
     Schedule.jobs_procesados g = List.length (rows j0)) /\
    (forall r, In r (rows j0) ->
       In (tecnico_asignado asignaciones (id_job r)) (T_de tecnicos) /\
       asignado v (tecnico_asignado asignaciones (id_job r)) (id_job r)
       = true) /\
    (forall w r1 r2 s1 e1 s2 e2,
        Schedule.cp_feasible (Schedule.model st) w ->
        In r1 (rows j0) -> In r2 (rows j0) ->
        id_job r1 <> id_job r2 ->
        tecnico_asignado asignaciones (id_job r1)
        = tecnico_asignado asignaciones (id_job r2) ->
        inicio st w (id_job r1) = Some s1 -> fin st w (id_job r1) = Some e1 ->
        inicio st w (id_job r2) = Some s2 -> fin st w (id_job r2) = Some e2 ->
        e1 <= s2 \/ e2 <= s1).
Proof.
  intros fs solver jobs tecnicos habilidades prob status v df
         j0 asignaciones ahora tr st g
         Hl Hj0 HndJ _ Hsolve Hs Hfeas Hdf Hrel Hc.
  destruct (AssignmentFacts.main_solve _ _ _ _ _ _ Hl Hsolve) as [-> Hq].
  rewrite (AssignmentFacts.main_assignment _ _ _ _ _ _ _ _ Hl Hs Hdf) in Hrel.
  assert (Hrows : rows j0 = rows jobs).
  { destruct Hl as (j1 & _ & _ & Hj1 & _ & _ & -> & _).
    rewrite Hj0 in Hj1. now injection Hj1 as <-. }
  assert (HJ : map id_job (rows j0) = J_de jobs)
    by (unfold J_de; now rewrite Hrows).
  split; [exact (columnas_releidas _ _ _ _ (proj1 Hrel)) |].
  assert (Hsin : sin_job j0 asignaciones = []).
  { unfold sin_job. rewrite HJ.
    assert (Hall : forall l, incl l (rows asignaciones) ->
              filter (fun j => negb (existsb (String.eqb j) (J_de jobs)))
                     (map (job_de asignaciones) l) = []).
    { induction l as [| s l IH]; intros Hinc; [reflexivity |].
      cbn [map filter].
      destruct (fila_releida _ _ _ _ _ Hrel (Hinc s (or_introl eq_refl)))
        as (Hin & _).
      assert (He : existsb (String.eqb (job_de asignaciones s)) (J_de jobs)
                   = true).
      { apply existsb_exists. eexists. split; [exact Hin |].
        apply String.eqb_refl. }
      rewrite He. cbn [negb]. apply IH. intros x Hx. apply Hinc. now right. }
    apply Hall. apply incl_refl. }
  destruct (ScheduleFacts.construir_diagnosticos _ _ _ _ _ _ Hc)
    as (Hdiag & Hom & Htot & _).
  rewrite (ScheduleFacts.no_encontrados_sin_job _ _ _ _ _ _ Hc), Hsin in Hdiag.
  rewrite Hdiag in Hom. cbn in Hom.
  split; [| split].
  - split; [exact Hdiag |]. split; [exact Hom |].
    rewrite Hom, Nat.add_0_r in Htot. rewrite Htot.
    destruct Hrel as [_ Hf2]. rewrite <- (Forall2_length Hf2).
    rewrite (AssignmentOutputs.filas_por_trabajo _ _ _ _ HndJ Hfeas).
    now rewrite Hrows.
  - intros r Hr.
    assert (Hj : In (id_job r) (J_de jobs))
      by (rewrite <- HJ; now apply in_map).
    destruct (una_fila_releida _ _ _ _ _ _ HndJ Hfeas Hrel Hj)
      as (s & Hs' & Hjs & ->).
    destruct (fila_releida _ _ _ _ _ Hrel Hs') as (_ & HT & Has).
    rewrite Hjs in Has. auto.
  - intros w r1 r2 s1 e1 s2 e2 Hw Hr1 Hr2 Hne Ht Hs1 He1 Hs2 He2.
    assert (Hj1 : In (id_job r1) (J_de jobs))
      by (rewrite <- HJ; now apply in_map).
    assert (Hj2 : In (id_job r2) (J_de jobs))
      by (rewrite <- HJ; now apply in_map).
    destruct (una_fila_releida _ _ _ _ _ _ HndJ Hfeas Hrel Hj1)
      as (a1 & Ha1 & Hja1 & Hta1).
    destruct (una_fila_releida _ _ _ _ _ _ HndJ Hfeas Hrel Hj2)
      as (a2 & Ha2 & Hja2 & Hta2).
    rewrite Hta1, Hta2 in Ht. rewrite <- Hja1 in Hs1, He1.
    rewrite <- Hja2 in Hs2, He2.
    apply (ScheduleModel.filas_disjuntas _ _ _ _ _ _ w a1 a2 _ _ _ _
             Hc Hw Ha1 Ha2 Ht); auto.
    congruence.
Qed.

Lemma releida_dos :
  releida (resultados_df_de Ejemplos.jobs_dos' Ejemplos.tecnicos_dos'
                            Ejemplos.v_dos)
          EjemplosHorario.asignaciones_t1.
Proof.
  split; [reflexivity |]. vm_compute. repeat constructor.
Qed.

Lemma etapas_encadenadas_witness :
  (leidos Ejemplos.fs_dos Ejemplos.jobs_dos' Ejemplos.tecnicos_dos'
          Ejemplos.habilidades_dos' /\
   Assignment.jobs_csv Ejemplos.fs_dos = Some Ejemplos.jobs_dos /\
   NoDup (J_de Ejemplos.jobs_dos') /\ NoDup (T_de Ejemplos.tecnicos_dos') /\
   In (Assignment.Solve Ejemplos.prob_dos)
      (trace (Assignment.main Ejemplos.fs_dos Ejemplos.solver_dos)) /\
   Ejemplos.solver_dos Ejemplos.prob_dos
   = (Assignment.Optimal, Ejemplos.v_dos) /\
   Assignment.lp_feasible Ejemplos.prob_dos Ejemplos.v_dos /\
   In (Assignment.ToCsv_assignment
         (resultados_df_de Ejemplos.jobs_dos' Ejemplos.tecnicos_dos'
                           Ejemplos.v_dos))
      (trace (Assignment.main Ejemplos.fs_dos Ejemplos.solver_dos)) /\
   releida (resultados_df_de Ejemplos.jobs_dos' Ejemplos.tecnicos_dos'
                             Ejemplos.v_dos)
           EjemplosHorario.asignaciones_t1) /\
  exists tr st g,
    Schedule.construir Ejemplos.jobs_dos EjemplosHorario.asignaciones_t1
                       EjemplosHorario.ahora_0 = (tr, inr (st, g)) /\
    diagnosticos tr = [] /\ Schedule.jobs_omitidos g = 0%nat /\
    Schedule.jobs_procesados g = List.length (rows Ejemplos.jobs_dos).
Proof.
  assert (HndJ : NoDup (J_de Ejemplos.jobs_dos')).
  { repeat constructor; simpl; intuition discriminate. }
  assert (HndT : NoDup (T_de Ejemplos.tecnicos_dos')).
  { repeat constructor; simpl; intuition discriminate. }
  assert (Hsolve : In (Assignment.Solve Ejemplos.prob_dos)
                      (trace (Assignment.main Ejemplos.fs_dos
                                              Ejemplos.solver_dos))).
  { vm_compute. do 5 right. left. reflexivity. }
  assert (Hs : Ejemplos.solver_dos Ejemplos.prob_dos
               = (Assignment.Optimal, Ejemplos.v_dos)) by reflexivity.
  assert (Hfeas : Assignment.lp_feasible Ejemplos.prob_dos Ejemplos.v_dos).
  { apply AssignmentFacts.lp_feasibleb_ok. vm_compute. reflexivity. }
  assert (Hdf : In (Assignment.ToCsv_assignment
                      (resultados_df_de Ejemplos.jobs_dos'
                                        Ejemplos.tecnicos_dos' Ejemplos.v_dos))
                   (trace (Assignment.main Ejemplos.fs_dos
                                           Ejemplos.solver_dos))).
  { vm_compute. do 10 right. left. reflexivity. }
  split.
  { refine (conj AssignmentFacts.leidos_dos (conj eq_refl (conj HndJ
             (conj HndT (conj Hsolve (conj Hs (conj Hfeas
               (conj Hdf releida_dos)))))))). }
  destruct (Schedule.construir Ejemplos.jobs_dos
              EjemplosHorario.asignaciones_t1 EjemplosHorario.ahora_0)
    as [tr [e | [st g]]] eqn:Hc.
  - exfalso. vm_compute in Hc. discriminate.
  - exists tr, st, g. split; [reflexivity |].
    exact (proj1 (proj2 (etapas_encadenadas Ejemplos.fs_dos Ejemplos.solver_dos
             Ejemplos.jobs_dos' Ejemplos.tecnicos_dos'
             Ejemplos.habilidades_dos' Ejemplos.prob_dos Assignment.Optimal
             Ejemplos.v_dos _ Ejemplos.jobs_dos
             EjemplosHorario.asignaciones_t1 EjemplosHorario.ahora_0
             tr st g AssignmentFacts.leidos_dos eq_refl HndJ HndT Hsolve Hs
             Hfeas
             Hdf releida_dos Hc))).
Defined.

End Pipeline.
